(** * EDA dashboards: synthetic sports data (App.py) and uploaded CSV (App2.py)

    A shallow embedding of the two Streamlit scripts and of the facts the
    specification states about them.

    Conventions of the embedding.
    - A float64 is an exact rational ([Q]).  Every property of the
      generator below rests on comparisons, clipping and rounding to
      nearest (ties to even) only.
    - A numpy array is a [list Q]; arithmetic on arrays is element-wise.
    - The global numpy generator is an abstract state threaded through the
      code ([NpRandom]); each draw returns a value and the next state.
    - A pandas column is a [Series] (dtype and cells), a table is a
      [DataFrame] (row labels and named columns, in order).
    - The pandas calls that write, read and parse text are an interface
      ([PandasText]) the scripts are stated over; modules [Text],
      [Calendar] and [Csv] give an implementation that follows pandas
      with the python engine, to run the scripts and to study the export
      read back.
    - A script is a function from the widget values of one run to the list
      of elements it renders and the way the run ends. *)

From Stdlib Require Import String Ascii ZArith NArith QArith Qround Qabs Bool Lia Lqa Arith Morphisms List ListDec Permutation Sorted.
Import ListNotations.

Local Open Scope Z_scope.
Local Open Scope Q_scope.

(* ===================================================================== *)
(** ** numpy: scalar kernels *)
(* ===================================================================== *)

Module Np.

(** [numpy.rint]: nearest integer, ties to the even neighbour. *)
Definition rint (x : Q) : Z :=
  let f := Qfloor x in
  match Qcompare (x - inject_Z f) (1 # 2) with
  | Lt => f
  | Gt => (f + 1)%Z
  | Eq => if Z.even f then f else (f + 1)%Z
  end.

Definition pow10 (d : nat) : Q := inject_Z (10 ^ Z.of_nat d).

(** [numpy.round(x, d)]: [rint] for [d = 0], else scale, [rint], unscale. *)
Definition round (d : nat) (x : Q) : Q :=
  match d with
  | O => inject_Z (rint x)
  | _ => inject_Z (rint (x * pow10 d)) / pow10 d
  end.

(** [numpy.clip(x, lo, hi)] is [minimum(maximum(x, lo), hi)]; a bound that
    is [None] is not applied. *)
Definition maximum (x y : Q) : Q := if Qle_bool y x then x else y.
Definition minimum (x y : Q) : Q := if Qle_bool x y then x else y.

Definition clip (lo hi : option Q) (x : Q) : Q :=
  let x1 := match lo with Some l => maximum x l | None => x end in
  match hi with Some h => minimum x1 h | None => x1 end.

(** [ndarray.astype(int)] on a float: truncation toward zero. *)
Definition astype_int (x : Q) : Z :=
  if Qle_bool 0 x then Qfloor x else Qceiling x.

(** Arrays and broadcasting. *)
Definition ndarray := list Q.

Definition lift1 (f : Q -> Q) (a : ndarray) : ndarray := map f a.

Fixpoint lift2 (f : Q -> Q -> Q) (a b : ndarray) : ndarray :=
  match a, b with
  | x :: a', y :: b' => f x y :: lift2 f a' b'
  | _, _ => []
  end.

End Np.

(* ===================================================================== *)
(** ** Exceptions *)
(* ===================================================================== *)

Inductive exn : Type :=
| ValueError (msg : string)
| AttributeError (msg : string)
| KeyError (msg : string)
| ParserError (msg : string)
| EmptyDataError (msg : string).

(** [str(e)] *)
Definition exn_str (e : exn) : string :=
  match e with
  | ValueError m | AttributeError m | KeyError m | ParserError m
  | EmptyDataError m => m
  end.

(** A call either raises or returns. *)
Definition result (A : Type) : Type := (exn + A)%type.

(* ===================================================================== *)
(** ** numpy.random: the global generator *)
(* ===================================================================== *)

(** The generator is a state; a draw returns a value and the next state.
    [seed_state s] is the state [np.random.seed(s)] installs. *)
Class NpRandom : Type := {
  rstate : Type;
  seed_state : Z -> rstate;
  normal1 : Q -> Q -> rstate -> Q * rstate;
  uniform1 : Q -> Q -> rstate -> Q * rstate;
  rand1 : rstate -> Q * rstate;
  randint1 : Z -> Z -> rstate -> Z * rstate
}.

(** [numpy.sqrt] has no exact value on rationals; it is a parameter. *)
Class NpMath : Type := { np_sqrt : Q -> Q }.

Definition Qltb (x y : Q) : bool := negb (Qle_bool y x).

Section Random.
Context {R : NpRandom}.

(** Code that reads and advances the global generator. *)
Definition Rnd (A : Type) : Type := rstate -> A * rstate.

Definition ret {A} (x : A) : Rnd A := fun g => (x, g).

Definition bind {A B} (c : Rnd A) (k : A -> Rnd B) : Rnd B :=
  fun g => let (x, g1) := c g in k x g1.

(** [size] draws in a row, first draw first. *)
Fixpoint draws {A} (d : Rnd A) (size : nat) : Rnd (list A) :=
  match size with
  | O => ret []
  | S k => bind d (fun x => bind (draws d k) (fun xs => ret (x :: xs)))
  end.

Definition np_random_normal (loc scale : Q) (size : nat) : Rnd Np.ndarray :=
  draws (normal1 loc scale) size.

Definition np_random_uniform (low high : Q) (size : nat) : Rnd Np.ndarray :=
  draws (uniform1 low high) size.

Definition np_random_rand (size : nat) : Rnd Np.ndarray :=
  draws rand1 size.

Definition np_random_randint (low high : Z) (size : nat) : Rnd (list Z) :=
  draws (randint1 low high) size.

(** [np.random.choice(a, size)]: [a] indexed by [randint(0, len(a), size)]. *)
Definition np_random_choice (a : list string) (size : nat) : Rnd (list string) :=
  bind (np_random_randint 0 (Z.of_nat (length a)) size) (fun idx =>
  ret (map (fun i => nth (Z.to_nat i mod length a) a EmptyString) idx)).

(** [np.random.seed(s)] replaces the whole state; a seed outside
    [0, 2^32 - 1] raises and leaves the state as it was. *)
Definition np_random_seed (s : Z) : Rnd (result unit) :=
  fun g =>
    if ((0 <=? s) && (s <? 2 ^ 32))%Z then (inr tt, seed_state s)
    else (inl (ValueError "Seed must be between 0 and 2**32 - 1"), g).

End Random.

Declare Scope rnd_scope.
Delimit Scope rnd_scope with rnd.
Notation "x <- c ;; k" := (bind c (fun x => k))
  (at level 61, c at next level, right associativity) : rnd_scope.

(* ===================================================================== *)
(** ** pandas: cells, columns, tables *)
(* ===================================================================== *)

Module Pd.

Inductive Dtype : Type := int64 | float64 | bool_ | object_ | datetime64.

(** One cell.  [NA] stands for NaN, None and NaT alike; a date is a day
    number counted from 1970-01-01. *)
Inductive cell : Type :=
| NA
| Int (z : Z)
| Float (q : Q)
| Bool (b : bool)
| Str (s : string)
| Date (day : Z).

Record Series : Type := mkSeries { dtype : Dtype; values : list cell }.

(** Row labels and the named columns, in column order. *)
Record DataFrame : Type := mkDF {
  index : list nat;
  columns : list (string * Series)
}.

(** [len(df)] and [df.shape] *)
Definition len (df : DataFrame) : nat := length (index df).
Definition shape (df : DataFrame) : nat * nat := (len df, length (columns df)).

(** [df.columns.tolist()] *)
Definition names (df : DataFrame) : list string := map fst (columns df).

(** Every column has one cell per row label. *)
Definition wf (df : DataFrame) : Prop :=
  Forall (fun c => length (values (snd c)) = len df) (columns df).

(** The column under a label, first match. *)
Fixpoint lookup (name : string) (cols : list (string * Series)) : option Series :=
  match cols with
  | [] => None
  | (k, s) :: rest => if String.eqb k name then Some s else lookup name rest
  end.

Definition column (df : DataFrame) (name : string) : option Series :=
  lookup name (columns df).

(** Cell at row position [i] of column position [j]. *)
Definition iat (df : DataFrame) (i j : nat) : option cell :=
  match nth_error (columns df) j with
  | Some (_, s) => nth_error (values s) i
  | None => None
  end.

(** [pd.DataFrame(dict)]: the arrays become the columns in the order of
    the dict, under a fresh range index; arrays of different lengths
    raise. *)
Definition DataFrame_of_dict (data : list (string * Series)) : result DataFrame :=
  match data with
  | [] => inr (mkDF [] [])
  | (_, s0) :: _ =>
      let n := length (values s0) in
      if forallb (fun c => length (values (snd c)) =? n)%nat data
      then inr (mkDF (seq 0 n) data)
      else inl (ValueError "All arrays must be of the same length")
  end.

(** [df[cols]] for a list of labels: the named columns in the order asked
    for; a label the table does not have raises. *)
Fixpoint getitem_list (cols : list (string * Series)) (labels : list string)
  : result (list (string * Series)) :=
  match labels with
  | [] => inr []
  | l :: rest =>
      match lookup l cols with
      | None => inl (KeyError l)
      | Some s =>
          match getitem_list cols rest with
          | inl e => inl e
          | inr picked => inr ((l, s) :: picked)
          end
      end
  end.

Definition getitem_columns (df : DataFrame) (labels : list string) : result DataFrame :=
  match getitem_list (columns df) labels with
  | inl e => inl e
  | inr picked => inr (mkDF (index df) picked)
  end.

(** [df[col]] for one label: a Series when the label names one column, a
    DataFrame when it names several. *)
Inductive selection : Type :=
| OneColumn (s : Series)
| SeveralColumns (picked : list Series)
| NoColumn.

Definition getitem (df : DataFrame) (col : string) : selection :=
  match filter (fun c => String.eqb (fst c) col) (columns df) with
  | [] => NoColumn
  | [(_, s)] => OneColumn s
  | several => SeveralColumns (map snd several)
  end.

(** [df[col] = series] on an existing label: the column is replaced in
    place; a series of another length raises. *)
Definition setitem (df : DataFrame) (col : string) (s : Series) : result DataFrame :=
  if (length (values s) =? len df)%nat
  then inr (mkDF (index df)
              (map (fun c => if String.eqb (fst c) col then (fst c, s) else c)
                   (columns df)))
  else inl (ValueError "Length of values does not match length of index").

(** [df.copy()]: a table with the same content. *)
Definition copy (df : DataFrame) : DataFrame := df.

(** [df.empty]: some axis has length 0. *)
Definition empty (df : DataFrame) : bool :=
  (len df =? 0)%nat || (length (columns df) =? 0)%nat.

(** [df.select_dtypes(include=[np.number])] and [exclude=]: labels only. *)
Definition is_number (d : Dtype) : bool :=
  match d with int64 | float64 => true | _ => false end.

Definition select_number (df : DataFrame) : list string :=
  map fst (filter (fun c => is_number (dtype (snd c))) (columns df)).

Definition select_not_number (df : DataFrame) : list string :=
  map fst (filter (fun c => negb (is_number (dtype (snd c)))) (columns df)).

(** [df.take(positions)]: the rows at the given positions, in that order. *)
Definition take_list {A} (d : A) (l : list A) (positions : list nat) : list A :=
  map (fun p => nth p l d) positions.

Definition take (df : DataFrame) (positions : list nat) : DataFrame :=
  mkDF (take_list O (index df) positions)
       (map (fun c => (fst c, mkSeries (dtype (snd c))
                                (take_list NA (values (snd c)) positions)))
            (columns df)).

(** *** [df.mask(cond)] with the default replacement

    Column by column: a column with no cell to mask is returned as it is;
    otherwise the masked cells become missing and the column takes a dtype
    that can hold a missing value: int64 becomes float64 (each integer
    becoming the float of the same value), bool becomes object. *)
Definition hold_na (d : Dtype) : Dtype :=
  match d with int64 => float64 | bool_ => object_ | _ => d end.

Definition upcast (d : Dtype) (c : cell) : cell :=
  match d, c with
  | int64, Int z => Float (inject_Z z)
  | _, _ => c
  end.

Fixpoint mask_cells (d : Dtype) (cells : list cell) (m : list bool) : list cell :=
  match cells, m with
  | c :: cells', b :: m' => (if b then NA else upcast d c) :: mask_cells d cells' m'
  | _, _ => []
  end.

Definition mask_series (s : Series) (m : list bool) : Series :=
  if existsb (fun b => b) m
  then mkSeries (hold_na (dtype s)) (mask_cells (dtype s) (values s) m)
  else s.

(** Column [j] of a Boolean matrix given by rows. *)
Definition matrix_column (cond : list (list bool)) (j : nat) : list bool :=
  map (fun row => nth j row false) cond.

Fixpoint mask_columns (cols : list (string * Series)) (cond : list (list bool)) (j : nat)
  : list (string * Series) :=
  match cols with
  | [] => []
  | (k, s) :: rest => (k, mask_series s (matrix_column cond j)) :: mask_columns rest cond (S j)
  end.

Definition same_shape (df : DataFrame) (cond : list (list bool)) : bool :=
  (length cond =? len df)%nat &&
  forallb (fun row => (length row =? length (columns df))%nat) cond.

Definition mask (df : DataFrame) (cond : list (list bool)) : result DataFrame :=
  if same_shape df cond
  then inr (mkDF (index df) (mask_columns (columns df) cond 0))
  else inl (ValueError "Array conditional must be same shape as self").

(** Decidable equality of cells; floats are compared as numbers. *)
Definition cell_eqb (a b : cell) : bool :=
  match a, b with
  | NA, NA => true
  | Int x, Int y => Z.eqb x y
  | Float p, Float q => Qeq_bool p q
  | Bool x, Bool y => Bool.eqb x y
  | Str x, Str y => String.eqb x y
  | Date x, Date y => Z.eqb x y
  | _, _ => false
  end.

(** [s.value_counts(dropna=False)]: each distinct value with the number
    of cells holding it, most frequent first, ties in order of first
    appearance. *)
Fixpoint count_in (c : cell) (acc : list (cell * nat)) : list (cell * nat) :=
  match acc with
  | [] => [(c, 1%nat)]
  | (v, k) :: rest => if cell_eqb v c then (v, S k) :: rest else (v, k) :: count_in c rest
  end.

Fixpoint insert_by_count (p : cell * nat) (sorted : list (cell * nat)) : list (cell * nat) :=
  match sorted with
  | [] => [p]
  | q :: rest => if (snd q <=? snd p)%nat then p :: q :: rest else q :: insert_by_count p rest
  end.

Definition value_counts (s : Series) : list (cell * nat) :=
  fold_right insert_by_count []
    (fold_left (fun acc c => count_in c acc) (values s) []).

(** Equality of cells in value: an integer and the float of the same
    value are equal, floats are equal as numbers. *)
Definition cell_eqv (a b : cell) : Prop :=
  match a, b with
  | NA, NA => True
  | Int x, Int y => x = y
  | Int x, Float q | Float q, Int x => inject_Z x == q
  | Float p, Float q => p == q
  | Bool x, Bool y => x = y
  | Str x, Str y => x = y
  | Date x, Date y => x = y
  | _, _ => False
  end.



(** A numeric cell within [lo, hi] ([hi = None]: no upper bound). *)
Definition in_range (lo : Q) (hi : option Q) (c : cell) : bool :=
  let ok q := Qle_bool lo q && match hi with Some h => Qle_bool q h | None => true end in
  match c with
  | Int z => ok (inject_Z z)
  | Float q => ok q
  | _ => false
  end.

End Pd.

(** *** The pandas calls whose result depends on text

    Writing and reading delimited text and parsing dates are library code;
    the scripts are stated over any implementation of them. *)
Record ReadOptions : Type := mkReadOptions {
  opt_sep : string;
  opt_encoding : string;
  opt_decimal : string;
  opt_na_values : list string
}.

Class PandasText : Type := {
  (** [df.to_csv(index=False)] *)
  to_csv : Pd.DataFrame -> string;
  (** [pd.read_csv(file, sep=, encoding=, decimal=, na_values=, engine="python")] *)
  read_csv : string -> ReadOptions -> result Pd.DataFrame;
  (** [pd.to_datetime(series, errors="raise", dayfirst=)] *)
  to_datetime : Pd.Series -> bool -> result Pd.Series
}.

(* ===================================================================== *)
(** ** pandas: sampling rows *)
(* ===================================================================== *)

Section Sample.
Context {R : NpRandom}.

Fixpoint set_nth (i : nat) (v : nat) (x : list nat) : list nat :=
  match x, i with
  | [], _ => []
  | _ :: rest, O => v :: rest
  | a :: rest, S i' => a :: set_nth i' v rest
  end.

Definition swap (x : list nat) (i j : nat) : list nat :=
  set_nth j (nth i x O) (set_nth i (nth j x O) x).

(** [RandomState.shuffle]: for [i] from the last position down to 1, swap
    position [i] with a position drawn in [0, i]. *)
Fixpoint shuffle_from (i : nat) (x : list nat) : Rnd (list nat) :=
  match i with
  | O => ret x
  | S i' =>
      bind (randint1 0 (Z.of_nat (S i))) (fun j =>
      shuffle_from i' (swap x i (Z.to_nat j mod S i)))
  end.

(** [RandomState.permutation(n)] *)
Definition permutation (n : nat) : Rnd (list nat) :=
  shuffle_from (n - 1) (seq 0 n).

(** [df.sample(n=n, random_state=seed)]: a generator of its own seeded
    with [seed], the first [n] positions of a permutation of the rows. *)
Definition sample (df : Pd.DataFrame) (n : nat) (random_state : Z) : result Pd.DataFrame :=
  if negb ((0 <=? random_state) && (random_state <? 2 ^ 32))%Z
  then inl (ValueError "Seed must be between 0 and 2**32 - 1")
  else if (Pd.len df <? n)%nat
  then inl (ValueError
         "Cannot take a larger sample than population when 'replace=False'")
  else inr (Pd.take df (firstn n (fst (permutation (Pd.len df) (seed_state random_state))))).

End Sample.

(* ===================================================================== *)
(** ** A model of the text side of pandas *)
(* ===================================================================== *)

(** *** Numbers as text *)

Module Text.

Local Open Scope N_scope.

Definition digit_char (d : N) : ascii := ascii_of_N (48 + d).

Definition digit_of_char (c : ascii) : option N :=
  let n := N_of_ascii c in
  if (48 <=? n) && (n <=? 57) then Some (n - 48) else None.

(** Decimal digits of [n], most significant first; [fuel] bounds their
    number. *)
Fixpoint digits (fuel : nat) (n : N) : list N :=
  match fuel with
  | O => []
  | S f => if n <? 10 then [n] else digits f (n / 10) ++ [n mod 10]
  end.

Definition chars (ds : list N) : string :=
  fold_right (fun d s => String (digit_char d) s) EmptyString ds.

Definition print_N (n : N) : string := chars (digits (S (N.to_nat (N.log2 n))) n).

Definition print_Z (z : Z) : string :=
  match z with
  | Zneg p => String "-" (print_N (Npos p))
  | _ => print_N (Z.to_N z)
  end.

(** The [e] digits of [f] after the point, for [f < 10^e]. *)
Fixpoint frac_digits (e : nat) (f : N) : list N :=
  match e with
  | O => []
  | S e' => f / 10 ^ N.of_nat e' :: frac_digits e' (f mod 10 ^ N.of_nat e')
  end.

(** A run of digits read as a number continuing [acc]; [None] when a
    character is not a digit. *)
Fixpoint read_digits (s : string) (acc : N) : option N :=
  match s with
  | EmptyString => Some acc
  | String c rest =>
      match digit_of_char c with
      | Some d => read_digits rest (10 * acc + d)
      | None => None
      end
  end.

(** Split at the first occurrence of a character. *)
Fixpoint split_at (c : ascii) (s : string) : string * option string :=
  match s with
  | EmptyString => (EmptyString, None)
  | String a rest =>
      if Ascii.eqb a c then (EmptyString, Some rest)
      else let (before, after) := split_at c rest in (String a before, after)
  end.

(** A leading sign. *)
Definition signed (s : string) : bool * string :=
  match s with
  | String "-" rest => (true, rest)
  | String "+" rest => (false, rest)
  | _ => (false, s)
  end.

(** An integer literal: an optional sign and at least one digit. *)
Definition parse_int (s : string) : option Z :=
  let (neg, body) := signed s in
  match body with
  | EmptyString => None
  | _ =>
      match read_digits body 0 with
      | Some n => Some (if neg then (- Z.of_N n)%Z else Z.of_N n)
      | None => None
      end
  end.

(** The least [e <= fuel] with [q * 10^e] an integer. *)
Fixpoint decimals_from (fuel : nat) (e : nat) (q : Q) : option nat :=
  if (Zpos (Qden q) =? Z.gcd (Zpos (Qden q)) (10 ^ Z.of_nat e))%Z then Some e
  else match fuel with
       | O => None
       | S f => decimals_from f (S e) q
       end.

Definition decimals (q : Q) : option nat :=
  let r := Qred q in
  decimals_from (S (Pos.to_nat (Pos.size (Qden r)))) 0 r.

(** A float with a finite decimal expansion, written in full with at
    least one digit after the point; another float, cut after seventeen
    digits. *)
Definition print_float (q : Q) : string :=
  let e := match decimals q with
           | Some O => 1%nat
           | Some e => e
           | None => 17%nat
           end in
  let m := Z.to_N (Z.abs (Qfloor (Qabs q * Np.pow10 e))) in
  let body :=
    (print_N (m / 10 ^ N.of_nat e) ++ "." ++
     chars (frac_digits e (m mod 10 ^ N.of_nat e)))%string in
  if Qltb q 0 then String "-" body else body.

(** A mantissa: digits, optionally a decimal mark and more digits, with
    a digit on at least one side. *)
Definition parse_mantissa (mark : ascii) (s : string) : option Q :=
  let (whole, frac) := split_at mark s in
  let frac := match frac with Some f => f | None => EmptyString end in
  match whole, frac with
  | EmptyString, EmptyString => None
  | _, _ =>
      match read_digits whole 0 with
      | Some w =>
          match read_digits frac w with
          | Some m => Some (inject_Z (Z.of_N m) / Np.pow10 (String.length frac))%Q
          | None => None
          end
      | None => None
      end
  end.

Definition lower_e (c : ascii) : ascii := if Ascii.eqb c "E" then "e"%char else c.

Fixpoint map_string (f : ascii -> ascii) (s : string) : string :=
  match s with
  | EmptyString => EmptyString
  | String c rest => String (f c) (map_string f rest)
  end.

(** A float literal: sign, mantissa, optional exponent. *)
Definition parse_float (mark : ascii) (s : string) : option Q :=
  let (neg, body) := signed s in
  let (mant, expo) := split_at "e" (map_string lower_e body) in
  match parse_mantissa mark mant with
  | None => None
  | Some m =>
      let scaled :=
        match expo with
        | None => Some m
        | Some x =>
            match parse_int x with
            | Some k => Some (m * Qpower 10 k)%Q
            | None => None
            end
        end in
      match scaled with
      | Some v => Some (if neg then (- v)%Q else v)
      | None => None
      end
  end.

End Text.

(** *** Dates as text *)

Module Calendar.

Local Open Scope Z_scope.

(** Year, month and day of a day number (days since 1970-01-01), in the
    proleptic Gregorian calendar. *)
Definition civil_of_days (days : Z) : Z * Z * Z :=
  let z := days + 719468 in
  let era := z / 146097 in
  let doe := z - era * 146097 in
  let yoe := (doe - doe / 1460 + doe / 36524 - doe / 146096) / 365 in
  let doy := doe - (365 * yoe + yoe / 4 - yoe / 100) in
  let mp := (5 * doy + 2) / 153 in
  let d := doy - (153 * mp + 2) / 5 + 1 in
  let m := if mp <? 10 then mp + 3 else mp - 9 in
  let y := yoe + era * 400 + (if m <=? 2 then 1 else 0) in
  (y, m, d).

Definition days_of_civil (y m d : Z) : Z :=
  let y := if m <=? 2 then y - 1 else y in
  let era := y / 400 in
  let yoe := y - era * 400 in
  let doy := (153 * (if 2 <? m then m - 3 else m + 9) + 2) / 5 + d - 1 in
  let doe := yoe * 365 + yoe / 4 - yoe / 100 + doy in
  era * 146097 + doe - 719468.

(** A number on [width] digits, zeros in front. *)
Definition padded (width : nat) (z : Z) : string :=
  Text.chars (Text.frac_digits width (Z.to_N z)).

(** [YYYY-MM-DD] *)
Definition iso (day : Z) : string :=
  let '(y, m, d) := civil_of_days day in
  (padded 4 y ++ "-" ++ padded 2 m ++ "-" ++ padded 2 d)%string.

(** Three numbers separated by [mark]. *)
Definition three_numbers (mark : ascii) (s : string) : option (N * N * N) :=
  let (a, rest) := Text.split_at mark s in
  match rest with
  | None => None
  | Some rest =>
      let (b, rest2) := Text.split_at mark rest in
      match rest2 with
      | None => None
      | Some c =>
          match a, b, c with
          | EmptyString, _, _ | _, EmptyString, _ | _, _, EmptyString => None
          | _, _, _ =>
              match Text.read_digits a 0, Text.read_digits b 0, Text.read_digits c 0 with
              | Some x, Some y, Some z => Some (x, y, z)
              | _, _, _ => None
              end
          end
      end
  end.

(** A date that exists: it is the date of its own day number. *)
Definition checked (y m d : Z) : option Z :=
  let day := days_of_civil y m d in
  let '(y', m', d') := civil_of_days day in
  if (y =? y') && (m =? m') && (d =? d') then Some day else None.

Inductive format : Type := YearMonthDay | DayMonthYear | MonthDayYear.

Definition parse_as (f : format) (s : string) : option Z :=
  match f with
  | YearMonthDay =>
      match three_numbers "-" s with
      | Some (y, m, d) => checked (Z.of_N y) (Z.of_N m) (Z.of_N d)
      | None => None
      end
  | DayMonthYear =>
      match three_numbers "/" s with
      | Some (d, m, y) => checked (Z.of_N y) (Z.of_N m) (Z.of_N d)
      | None => None
      end
  | MonthDayYear =>
      match three_numbers "/" s with
      | Some (m, d, y) => checked (Z.of_N y) (Z.of_N m) (Z.of_N d)
      | None => None
      end
  end.

(** The format a text is written in, if any. *)
Definition guess (dayfirst : bool) (s : string) : option format :=
  match parse_as YearMonthDay s with
  | Some _ => Some YearMonthDay
  | None =>
      let f := if dayfirst then DayMonthYear else MonthDayYear in
      match parse_as f s with
      | Some _ => Some f
      | None => None
      end
  end.

End Calendar.

(** *** Delimited text: the writer, the reader and the date parser *)

Module Csv.
Import Pd.

Definition dquote : ascii := ascii_of_nat 34.
Definition LF : ascii := ascii_of_nat 10.
Definition CR : ascii := ascii_of_nat 13.

Local Open Scope string_scope.

(** **** Writing: [csv.writer] with minimal quoting *)

Definition special (sep c : ascii) : bool :=
  Ascii.eqb c sep || Ascii.eqb c dquote || Ascii.eqb c LF || Ascii.eqb c CR.

Fixpoint has_special (sep : ascii) (s : string) : bool :=
  match s with
  | EmptyString => false
  | String c rest => special sep c || has_special sep rest
  end.

(** Each quote character doubled. *)
Fixpoint escape (s : string) : string :=
  match s with
  | EmptyString => EmptyString
  | String c rest =>
      if Ascii.eqb c dquote then String dquote (String dquote (escape rest))
      else String c (escape rest)
  end.

Definition write_field (sep : ascii) (f : string) : string :=
  if has_special sep f then String dquote (escape f ++ String dquote EmptyString)
  else f.

Fixpoint join_fields (sep : ascii) (fields : list string) : string :=
  match fields with
  | [] => EmptyString
  | [f] => write_field sep f
  | f :: rest => write_field sep f ++ String sep (join_fields sep rest)
  end.

(** One record and its line end; a record of one empty field is written
    as a pair of quotes. *)
Definition write_record (sep : ascii) (fields : list string) : string :=
  match fields with
  | [EmptyString] => String dquote (String dquote (String LF EmptyString))
  | _ => join_fields sep fields ++ String LF EmptyString
  end.

Fixpoint write_records (sep : ascii) (records : list (list string)) : string :=
  match records with
  | [] => EmptyString
  | r :: rest => write_record sep r ++ write_records sep rest
  end.

(** A cell as [to_csv] writes it; a missing cell is written empty. *)
Definition render (c : cell) : string :=
  match c with
  | NA => EmptyString
  | Int z => Text.print_Z z
  | Float q => Text.print_float q
  | Bool true => "True"
  | Bool false => "False"
  | Str s => s
  | Date d => Calendar.iso d
  end.

(** Row [i] of a table, as texts. *)
Definition row_texts (df : DataFrame) (i : nat) : list string :=
  map (fun c => render (nth i (values (snd c)) NA)) (columns df).

(** [df.to_csv(index=False)]: the header, then one record per row. *)
Definition to_csv (df : DataFrame) : string :=
  write_records ","%char
    (names df :: map (row_texts df) (seq 0 (len df))).

(** **** Reading: [csv.reader] *)

Inductive mode : Type :=
| FieldStart (after_cr : bool)
| InField
| InQuoted
| QuoteSeen.

Definition snoc (s : string) (c : ascii) : string := s ++ String c EmptyString.

(** The record that ends where a field starts: nothing at all on a line
    gives the empty record. *)
Definition ended_at_start (rec : list string) : list string :=
  match rec with
  | [] => []
  | _ => (rec ++ [EmptyString])%list
  end.

(** The records of a text.  [fld] is the field being read, [rec] the
    fields of the record already read. *)
Fixpoint scan (sep : ascii) (s : string) (m : mode) (fld : string) (rec : list string)
  : list (list string) :=
  match s with
  | EmptyString =>
      match m, rec with
      | FieldStart _, [] => []
      | _, _ => [(rec ++ [fld])%list]
      end
  | String c rest =>
      match m with
      | FieldStart after_cr =>
          if after_cr && Ascii.eqb c LF then scan sep rest (FieldStart false) EmptyString rec
          else if Ascii.eqb c dquote then scan sep rest InQuoted EmptyString rec
          else if Ascii.eqb c sep then
            scan sep rest (FieldStart false) EmptyString (rec ++ [EmptyString])%list
          else if Ascii.eqb c LF then
            ended_at_start rec :: scan sep rest (FieldStart false) EmptyString []
          else if Ascii.eqb c CR then
            ended_at_start rec :: scan sep rest (FieldStart true) EmptyString []
          else scan sep rest InField (String c EmptyString) rec
      | InField =>
          if Ascii.eqb c sep then scan sep rest (FieldStart false) EmptyString (rec ++ [fld])%list
          else if Ascii.eqb c LF then
            (rec ++ [fld])%list :: scan sep rest (FieldStart false) EmptyString []
          else if Ascii.eqb c CR then
            (rec ++ [fld])%list :: scan sep rest (FieldStart true) EmptyString []
          else scan sep rest InField (snoc fld c) rec
      | InQuoted =>
          if Ascii.eqb c dquote then scan sep rest QuoteSeen fld rec
          else scan sep rest InQuoted (snoc fld c) rec
      | QuoteSeen =>
          if Ascii.eqb c dquote then scan sep rest InQuoted (snoc fld c) rec
          else if Ascii.eqb c sep then
            scan sep rest (FieldStart false) EmptyString (rec ++ [fld])%list
          else if Ascii.eqb c LF then
            (rec ++ [fld])%list :: scan sep rest (FieldStart false) EmptyString []
          else if Ascii.eqb c CR then
            (rec ++ [fld])%list :: scan sep rest (FieldStart true) EmptyString []
          else scan sep rest InField (snoc fld c) rec
      end
  end.

Definition records (sep : ascii) (text : string) : list (list string) :=
  scan sep text (FieldStart false) EmptyString [].

(** **** Reading: the python engine of [read_csv] *)

Definition is_space (c : ascii) : bool :=
  let n := nat_of_ascii c in ((9 <=? n) && (n <=? 13))%nat || (n =? 32)%nat.

Fixpoint all_space (s : string) : bool :=
  match s with
  | EmptyString => true
  | String c rest => is_space c && all_space rest
  end.

(** Lines the engine drops: no field, or one field of white space. *)
Definition blank (line : list string) : bool :=
  match line with
  | [] => true
  | [f] => all_space f
  | _ => false
  end.

(** The markers read as missing whatever the options say. *)
Definition default_na : list string :=
  [ ""; "#N/A"; "#N/A N/A"; "#NA"; "-1.#IND"; "-1.#QNAN"; "-NaN"; "-nan";
    "1.#IND"; "1.#QNAN"; "<NA>"; "N/A"; "NA"; "NULL"; "NaN"; "None"; "n/a";
    "nan"; "null" ].

Definition is_na (opts : ReadOptions) (f : string) : bool :=
  existsb (String.eqb f) default_na || existsb (String.eqb f) (opt_na_values opts).

Definition parse_bool (f : string) : option bool :=
  if existsb (String.eqb f) ["True"; "TRUE"; "true"] then Some true
  else if existsb (String.eqb f) ["False"; "FALSE"; "false"] then Some false
  else None.

Definition first_char (dflt : ascii) (s : string) : ascii :=
  match s with
  | EmptyString => dflt
  | String c _ => c
  end.

(** All of the present fields read by [p]. *)
Definition all_read {A} (p : string -> option A) (fields : list (option string)) : bool :=
  forallb (fun f => match f with
                    | Some t => match p t with Some _ => true | None => false end
                    | None => true
                    end) fields.

Definition cells_by {A} (p : string -> option A) (mk : A -> cell)
    (fields : list (option string)) : list cell :=
  map (fun f => match f with
                | Some t => match p t with Some v => mk v | None => NA end
                | None => NA
                end) fields.

(** The column a list of fields becomes; [None] is a missing field.
    Integers if every present field is one, floats if every present field
    is a number, booleans likewise, text otherwise; integers and booleans
    next to a missing field become floats and objects. *)
Definition infer (opts : ReadOptions) (raw : list (option string)) : Series :=
  let fields :=
    map (fun f => match f with
                  | Some t => if is_na opts t then None else Some t
                  | None => None
                  end) raw in
  let mark := first_char "."%char (opt_decimal opts) in
  let some_missing := existsb (fun f => match f with None => true | _ => false end) fields in
  let some_present := existsb (fun f => match f with Some _ => true | _ => false end) fields in
  match raw with
  | [] => mkSeries object_ []
  | _ =>
      if negb some_present then mkSeries float64 (map (fun _ => NA) fields)
      else if all_read Text.parse_int fields then
        if some_missing
        then mkSeries float64 (cells_by Text.parse_int (fun z => Float (inject_Z z)) fields)
        else mkSeries int64 (cells_by Text.parse_int Int fields)
      else if all_read (Text.parse_float mark) fields then
        mkSeries float64 (cells_by (Text.parse_float mark) Float fields)
      else if all_read parse_bool fields then
        mkSeries (if some_missing then object_ else bool_) (cells_by parse_bool Bool fields)
      else mkSeries object_ (cells_by (fun t => Some t) Str fields)
  end.

(** Labels of the header: an empty one is named after its position, a
    repeated one gets a numeric suffix. *)
Definition unnamed (j : nat) (label : string) : string :=
  match label with
  | EmptyString => "Unnamed: " ++ Text.print_N (N.of_nat j)
  | _ => label
  end.

Fixpoint mangle (seen labels : list string) : list string :=
  match labels with
  | [] => []
  | l :: rest =>
      let k := count_occ string_dec seen l in
      (match k with
       | O => l
       | _ => l ++ "." ++ Text.print_N (N.of_nat k)
       end) :: mangle (l :: seen) rest
  end.

Definition header_labels (header : list string) : list string :=
  mangle [] (map (fun p => unnamed (fst p) (snd p)) (combine (seq 0 (length header)) header)).

(** The first data line with more fields than the header, if any, with
    its line number. *)
Fixpoint too_long (ncols : nat) (lineno : nat) (data : list (list string))
  : option (nat * nat) :=
  match data with
  | [] => None
  | row :: rest =>
      if (ncols <? length row)%nat then Some (lineno, length row)
      else too_long ncols (S lineno) rest
  end.

(** [pd.read_csv(file, sep=, decimal=, na_values=, engine="python")].
    The bytes are taken as the text.  A first data line longer than the
    header, which pandas reads as carrying row labels, is reported like
    any other line that is too long. *)
Definition read_csv (file : string) (opts : ReadOptions) : result DataFrame :=
  let lines := filter (fun l => negb (blank l))
                 (records (first_char ","%char (opt_sep opts)) file) in
  match lines with
  | [] => inl (EmptyDataError "No columns to parse from file")
  | header :: data =>
      let ncols := length header in
      match too_long ncols 2 data with
      | Some (lineno, saw) =>
          inl (ParserError ("Expected " ++ Text.print_N (N.of_nat ncols)
                            ++ " fields in line " ++ Text.print_N (N.of_nat lineno)
                            ++ ", saw " ++ Text.print_N (N.of_nat saw)))
      | None =>
          inr (mkDF (seq 0 (length data))
                 (combine (header_labels header)
                    (map (fun j => infer opts (map (fun row => nth_error row j) data))
                         (seq 0 ncols))))
      end
  end.

(** **** [pd.to_datetime(series, errors="raise", dayfirst=)]

    A small reader of dates: the first present cell fixes the format
    (year-month-day, or day/month/year, or month/day/year when
    [dayfirst] is off) and every present cell has to be a text in that
    format. *)
Fixpoint first_present (cells : list cell) : option cell :=
  match cells with
  | [] => None
  | NA :: rest => first_present rest
  | c :: _ => Some c
  end.

Fixpoint parse_dates (f : Calendar.format) (cells : list cell) : option (list cell) :=
  match cells with
  | [] => Some []
  | c :: rest =>
      match parse_dates f rest with
      | None => None
      | Some ds =>
          match c with
          | NA => Some (NA :: ds)
          | Date d => Some (Date d :: ds)
          | Str t =>
              match Calendar.parse_as f t with
              | Some d => Some (Date d :: ds)
              | None => None
              end
          | _ => None
          end
      end
  end.

Definition to_datetime (s : Series) (dayfirst : bool) : result Series :=
  let bad := inl (ValueError "Unknown datetime string format, unable to parse") in
  match first_present (values s) with
  | None => inr (mkSeries datetime64 (values s))
  | Some (Date _) =>
      match parse_dates Calendar.YearMonthDay (values s) with
      | Some ds => inr (mkSeries datetime64 ds)
      | None => bad
      end
  | Some (Str t) =>
      match Calendar.guess dayfirst t with
      | None => bad
      | Some f =>
          match parse_dates f (values s) with
          | Some ds => inr (mkSeries datetime64 ds)
          | None => bad
          end
      end
  | Some _ => bad
  end.

(** **** Tables that come back from their own export *)











(** No line of the export is one the reader drops. *)
Definition keeps_lines (df : DataFrame) : bool :=
  forallb (fun l => negb (blank l))
    (names df :: map (row_texts df) (seq 0 (len df))).

#[export] Instance pandas_text : PandasText :=
  Build_PandasText to_csv read_csv to_datetime.

End Csv.

(* ===================================================================== *)
(** ** streamlit: what a run renders *)
(* ===================================================================== *)

Module St.

(** An element of the page.  Sidebar widgets are the inputs of a run and
    are not recorded; the elements of the main area are, in order. *)
Inductive element : Type :=
| title (body : string)
| caption (body : string)
| subheader (body : string)
| markdown (body : string)
| info (body : string)
| success (body : string)
| warning (body : string)
| error (body : string)
| dataframe (data : Pd.DataFrame)
| describe (data : Pd.DataFrame) (cols : list string)
| counts (col : string) (vc : list (Pd.cell * nat))
| download_button (label : string) (data : string) (file_name : string)
| plotly_chart (kind : string) (data : Pd.DataFrame) (args : list string).

(** How a run ends: the script reached its last line, called [st.stop()],
    or an exception escaped. *)
Inductive ending : Type := Completed | Stopped | Raised (e : exn).

(** Elements that show data: the table, statistics, charts, download. *)
Definition shows_data (e : element) : bool :=
  match e with
  | dataframe _ | describe _ _ | counts _ _ | download_button _ _ _
  | plotly_chart _ _ _ => true
  | _ => false
  end.

End St.

Section Script.
Context {R : NpRandom}.

(** A piece of script: from the generator state, the elements rendered,
    then either the way the run ended there or a value to go on with,
    and the generator state left behind. *)
Definition Script (A : Type) : Type :=
  rstate -> list St.element * (St.ending + A) * rstate.

Definition sret {A} (x : A) : Script A := fun g => ([], inr x, g).

Definition sbind {A B} (c : Script A) (k : A -> Script B) : Script B :=
  fun g =>
    match c g with
    | (out, inl e, g1) => (out, inl e, g1)
    | (out, inr x, g1) =>
        match k x g1 with
        | (out2, r, g2) => (out ++ out2, r, g2)
        end
    end.

Definition emit (e : St.element) : Script unit := fun g => ([e], inr tt, g).

(** [st.stop()] *)
Definition st_stop {A} : Script A := fun g => ([], inl St.Stopped, g).

Definition raise {A} (e : exn) : Script A := fun g => ([], inl (St.Raised e), g).

(** A call that may raise, outside any [try]. *)
Definition call {A} (r : result A) : Script A :=
  match r with inl e => raise e | inr x => sret x end.

(** Code that only uses the generator. *)
Definition random {A} (c : Rnd A) : Script A :=
  fun g => let (x, g1) := c g in ([], inr x, g1).

(** Run a whole script. *)
Definition run (c : Script unit) (g : rstate) : list St.element * St.ending :=
  match c g with
  | (out, inl e, _) => (out, e)
  | (out, inr _, _) => (out, St.Completed)
  end.

End Script.

Declare Scope script_scope.
Delimit Scope script_scope with script.
Notation "x <- c ;; k" := (sbind c (fun x => k))
  (at level 61, c at next level, right associativity) : script_scope.
Notation "c ;; k" := (sbind c (fun _ => k))
  (at level 61, right associativity) : script_scope.

(* ===================================================================== *)
(** ** Code the two scripts share word for word *)
(* ===================================================================== *)

Module Comun.
Import Pd.

(** Python truth of an optional string: [None] and the empty string are
    false. *)
Definition truthy (o : option string) : option string :=
  match o with
  | Some EmptyString => None
  | other => other
  end.

Definition mem (x : string) (l : list string) : bool := existsb (String.eqb x) l.

Section Comun.
Context {R : NpRandom}.

Local Open Scope script_scope.

(** Lines 131-134 of App.py and 90-93 of App2.py:
    [np.random.rand(rows, cols) < pct_na / 100.0], drawn row by row, then
    [df.mask]. *)
Definition np_random_rand2 (rows cols : nat) : Rnd (list Np.ndarray) :=
  draws (np_random_rand cols) rows.

Definition inyectar_na (pct : Z) (df : DataFrame) : Script DataFrame :=
  if (0 <? pct)%Z then
    r <- random (np_random_rand2 (fst (shape df)) (snd (shape df))) ;;
    let cond := map (map (fun x => Qltb x (inject_Z pct / 100))) r in
    call (mask df cond)
  else sret df.

Definition series_of (df : DataFrame) (col : string) : Series :=
  match column df col with Some s => s | None => mkSeries object_ [] end.

(** One frequency table per column: lines 166-169 of App.py and 135-138
    of App2.py. *)
Fixpoint tablas_de_frecuencia (df : DataFrame) (cols : list string) : Script unit :=
  match cols with
  | [] => sret tt
  | c :: rest =>
      emit (St.markdown ("**" ++ c ++ "**")) ;;
      emit (St.counts c (value_counts (series_of df c))) ;;
      tablas_de_frecuencia df rest
  end.

End Comun.
End Comun.

(* ===================================================================== *)
(** ** App.py: the synthetic generator *)
(* ===================================================================== *)

Module App.
Import Pd Comun.

Local Open Scope rnd_scope.

(** The numeric arrays [generar_dataset] computes before it builds the
    table, under the names the source gives them; the [ruido_*] and [u_*]
    fields are the noise arrays the source draws inline. *)
Record Senales : Type := mkSenales {
  edad : Np.ndarray;
  altura : Np.ndarray;
  ruido_peso : Np.ndarray;
  peso : Np.ndarray;
  minutos : Np.ndarray;
  ruido_rendimiento : Np.ndarray;
  rendimiento : Np.ndarray;
  puntos : Np.ndarray;
  u_asistencias : Np.ndarray;
  ruido_asistencias : Np.ndarray;
  asistencias : Np.ndarray;
  u_rebotes : Np.ndarray;
  ruido_rebotes : Np.ndarray;
  rebotes : Np.ndarray;
  velocidad : Np.ndarray;
  ruido_salario : Np.ndarray;
  salario : Np.ndarray
}.

Definition deportes : list string :=
  ["Fútbol"; "Baloncesto"; "Béisbol"; "Tenis"; "Atletismo"; "Natación"]%string.
Definition equipos : list string :=
  ["Tigres"; "Leones"; "Águilas"; "Toros"; "Pumas"; "Lobos"; "Halcones"; "Tiburones"]%string.
Definition posiciones : list string :=
  ["Portero"; "Defensa"; "Mediocampo"; "Delantero"; "Alero"; "Base"; "Lanzador"; "Receptor"]%string.
Definition paises : list string :=
  ["Colombia"; "Argentina"; "Brasil"; "España"; "EEUU"; "México"; "Francia"; "Alemania"]%string.
Definition sexo : list string := ["M"; "F"]%string.

(** 2023-01-01 as a day number. *)
Definition fecha_base : Z := 19358.

Definition int_column (a : Np.ndarray) : Series :=
  mkSeries int64 (map (fun x => Int (Np.astype_int x)) a).
Definition float_column (a : Np.ndarray) : Series :=
  mkSeries float64 (map Float a).
Definition str_column (a : list string) : Series :=
  mkSeries object_ (map Str a).

Section Generator.
Context {R : NpRandom} {M : NpMath}.

(** Lines 84-98 of App.py, one binding per line of the source; the draws
    happen in the order Python evaluates them. *)
Definition senales (n : nat) : Rnd Senales :=
  edad0 <- np_random_normal 25 5 n ;;
  let edad := Np.lift1 (Np.round 0) (Np.lift1 (Np.clip (Some 16) (Some 45)) edad0) in
  altura0 <- np_random_normal 178 10 n ;;
  let altura := Np.lift1 (Np.round 1) (Np.lift1 (Np.clip (Some 150) (Some 210)) altura0) in
  ruido_peso <- np_random_normal 10 8 n ;;
  let peso0 := Np.lift2 Qplus (Np.lift1 (fun a => a - 100) altura) ruido_peso in
  let peso := Np.lift1 (Np.round 1) (Np.lift1 (Np.clip (Some 45) (Some 120)) peso0) in
  minutos0 <- np_random_normal 45 20 n ;;
  let minutos := Np.lift1 (Np.round 0) (Np.lift1 (Np.clip (Some 0) (Some 120)) minutos0) in
  ruido_rend <- np_random_normal 0 5 n ;;
  let rendimiento :=
    Np.lift2 Qplus
      (Np.lift2 Qplus (Np.lift1 (fun m => m / 3) minutos)
                      (Np.lift1 (fun e => (- ((e - 27) ^ 2)) / 50) edad))
      ruido_rend in
  let puntos :=
    Np.lift1 (Np.round 0)
      (Np.lift1 (Np.clip (Some 0) None) (Np.lift1 (fun r => r + 15) rendimiento)) in
  u_asist <- np_random_uniform 0.1 0.4 n ;;
  ruido_asist <- np_random_normal 0 2 n ;;
  let asistencias :=
    Np.lift1 (Np.round 0) (Np.lift1 (Np.clip (Some 0) None)
      (Np.lift2 Qplus (Np.lift2 Qmult puntos u_asist) ruido_asist)) in
  u_reb <- np_random_uniform 0.5 2.0 n ;;
  ruido_reb <- np_random_normal 0 1 n ;;
  let rebotes :=
    Np.lift1 (Np.round 0) (Np.lift1 (Np.clip (Some 0) None)
      (Np.lift2 Qplus (Np.lift2 Qmult (Np.lift1 np_sqrt puntos) u_reb) ruido_reb)) in
  velocidad0 <- np_random_normal 28 4 n ;;
  let velocidad := Np.lift1 (Np.round 1) (Np.lift1 (Np.clip (Some 15) (Some 40)) velocidad0) in
  ruido_sal <- np_random_normal 0 20 n ;;
  let salario :=
    Np.lift1 (Np.round 1) (Np.lift1 (Np.clip (Some 10) (Some 500))
      (Np.lift2 Qplus
        (Np.lift2 Qplus
          (Np.lift2 Qplus (Np.lift1 (fun p => p * 3) puntos)
                          (Np.lift1 (fun a => a * 2) asistencias))
          (Np.lift1 (fun r => r * 1.5) rebotes))
        ruido_sal)) in
  ret (mkSenales edad altura ruido_peso peso minutos ruido_rend rendimiento puntos
         u_asist ruido_asist asistencias u_reb ruido_reb rebotes velocidad
         ruido_sal salario).

(** Lines 101-119: the dict of columns, drawn and built in key order. *)
Definition generar_dataset (n : nat) : Rnd (result DataFrame) :=
  s <- senales n ;;
  c_deporte <- np_random_choice deportes n ;;
  c_equipo <- np_random_choice equipos n ;;
  c_posicion <- np_random_choice posiciones n ;;
  c_pais <- np_random_choice paises n ;;
  c_sexo <- np_random_choice sexo n ;;
  r_lesionado <- np_random_rand n ;;
  d_fecha <- np_random_randint 0 900 n ;;
  ret (DataFrame_of_dict
    [ ("deporte", str_column c_deporte);
      ("equipo", str_column c_equipo);
      ("posicion", str_column c_posicion);
      ("pais", str_column c_pais);
      ("sexo", str_column c_sexo);
      ("lesionado",
        str_column (map (fun r => if Qltb r 0.15 then "Sí" else "No") r_lesionado));
      ("fecha_partido",
        mkSeries datetime64 (map (fun d => Date (fecha_base + d)) d_fecha));
      ("edad", int_column (edad s));
      ("altura_cm", float_column (altura s));
      ("peso_kg", float_column (peso s));
      ("minutos_jugados", int_column (minutos s));
      ("puntos", int_column (puntos s));
      ("asistencias", int_column (asistencias s));
      ("rebotes", int_column (rebotes s));
      ("velocidad_max_kmh", float_column (velocidad s));
      ("salario_miles_usd", float_column (salario s)) ]%string).

End Generator.

(** *** The script *)

(** Lines 31-51. *)
Definition columnas_catalogo : list (string * string) :=
  [ ("deporte (cat)", "deporte");
    ("equipo (cat)", "equipo");
    ("posicion (cat)", "posicion");
    ("pais (cat)", "pais");
    ("sexo (cat)", "sexo");
    ("lesionado (cat)", "lesionado");
    ("fecha_partido (fecha)", "fecha_partido");
    ("edad (num)", "edad");
    ("altura_cm (num)", "altura_cm");
    ("peso_kg (num)", "peso_kg");
    ("minutos_jugados (num)", "minutos_jugados");
    ("puntos (num)", "puntos");
    ("asistencias (num)", "asistencias");
    ("rebotes (num)", "rebotes");
    ("velocidad_max_kmh (num)", "velocidad_max_kmh");
    ("salario_miles_usd (num)", "salario_miles_usd") ]%string.

(** [d[k]] on a dict given as its items. *)
Fixpoint dict_get (d : list (string * string)) (k : string) : result string :=
  match d with
  | [] => inl (KeyError k)
  | (k', v) :: rest => if String.eqb k' k then inr v else dict_get rest k
  end.

(** [[d[k] for k in keys]] *)
Fixpoint dict_get_all (d : list (string * string)) (keys : list string)
  : result (list string) :=
  match keys with
  | [] => inr []
  | k :: rest =>
      match dict_get d k with
      | inl e => inl e
      | inr v =>
          match dict_get_all d rest with
          | inl e => inl e
          | inr vs => inr (v :: vs)
          end
      end
  end.

(** The values the widgets return in one run. *)
Record Inputs : Type := mkInputs {
  seed : Z;
  n_filas : nat;
  seleccion_columnas : list string;
  pct_na : Z;
  graficas : list string;
  bar_cat : option string;
  hist_num : option string;
  hist_bins : Z;
  scat_x : string;
  scat_y : string;
  scat_color : string;
  pie_cat : option string
}.

Section Script.
Context {R : NpRandom} {M : NpMath} {T : PandasText}.

Local Open Scope script_scope.

(** Lines 145-153. *)
Definition tab_datos (df : DataFrame) : Script unit :=
  emit (St.subheader "Vista de datos") ;;
  emit (St.dataframe df) ;;
  emit (St.download_button "⬇️ Descargar CSV" (to_csv df) "deportes_sintetico.csv").

(** Lines 155-185. *)
Definition tab_resumen (inp : Inputs) (df : DataFrame)
    (cols_numericas cols_categoricas : list string) : Script unit :=
  emit (St.subheader "Estadísticos básicos") ;;
  (match cols_numericas with
   | [] => emit (St.info "No hay columnas numéricas seleccionadas.")
   | _ => emit (St.markdown "**Numéricas**") ;; emit (St.describe df cols_numericas)
   end) ;;
  emit (St.markdown "---") ;;
  emit (St.subheader "Distribuciones de categóricas") ;;
  (match cols_categoricas with
   | [] => emit (St.info "No hay columnas categóricas seleccionadas.")
   | _ => tablas_de_frecuencia df cols_categoricas
   end) ;;
  emit (St.markdown "---") ;;
  emit (St.subheader "Matriz de correlación (numéricas)") ;;
  if (2 <=? length cols_numericas)%nat && mem "Correlación (numérico)" (graficas inp)
  then emit (St.plotly_chart "imshow" df cols_numericas)
  else if mem "Correlación (numérico)" (graficas inp)
  then emit (St.info "Se requieren al menos 2 columnas numéricas para la correlación.")
  else sret tt.

(** Lines 187-239. *)
Definition tab_graficas (inp : Inputs) (df : DataFrame)
    (cols_numericas cols_categoricas : list string) : Script unit :=
  emit (St.subheader "Constructor de gráficos") ;;
  emit (St.caption
    "Configura abajo según el tipo de gráfico seleccionado en la barra lateral.") ;;
  (if mem "Barras (categorías)" (graficas inp) then
     emit (St.markdown "### Barras") ;;
     match truthy (bar_cat inp) with
     | Some c => emit (St.plotly_chart "bar" df [c])
     | None => emit (St.info "Selecciona al menos una columna categórica para barras.")
     end
   else sret tt) ;;
  (if mem "Histograma (numérico)" (graficas inp) then
     emit (St.markdown "### Histograma") ;;
     match truthy (hist_num inp) with
     | Some c => emit (St.plotly_chart "histogram" df [c; Text.print_Z (hist_bins inp)])
     | None => emit (St.info "Selecciona al menos una columna numérica para histograma.")
     end
   else sret tt) ;;
  (if mem "Dispersión (scatter)" (graficas inp) then
     emit (St.markdown "### Dispersión") ;;
     if (2 <=? length cols_numericas)%nat then
       let kwargs :=
         if negb (String.eqb (scat_color inp) "") &&
            negb (String.eqb (scat_color inp) "(ninguno)")
         then [scat_color inp] else [] in
       emit (St.plotly_chart "scatter" df (scat_x inp :: scat_y inp :: kwargs))
     else emit (St.info "Se requieren al menos 2 columnas numéricas para la dispersión.")
   else sret tt) ;;
  (if mem "Pastel (categorías)" (graficas inp) then
     emit (St.markdown "### Pastel") ;;
     match truthy (pie_cat inp) with
     | Some c => emit (St.plotly_chart "pie" df [c])
     | None => emit (St.info "Selecciona al menos una columna categórica para pastel.")
     end
   else sret tt).

(** Lines 23-24 and 121: seed the generator, then generate. *)
Definition generar_con_semilla (s : Z) (n : nat) : Script DataFrame :=
  ok <- random (np_random_seed s) ;;
  _ <- call ok ;;
  made <- random (generar_dataset n) ;;
  call made.

(** The whole of App.py. *)
Definition script (inp : Inputs) : Script unit :=
  emit (St.title "🏈 EDA con Datos Sintéticos de Deportes") ;;
  emit (St.caption
    "Genera un conjunto de datos deportivo simulado y realiza un análisis exploratorio interactivo.") ;;
  df_full <- generar_con_semilla (seed inp) (n_filas inp) ;;
  (if (length (seleccion_columnas inp) =? 0)%nat then
     emit (St.warning "Selecciona al menos una columna en la barra lateral.") ;;
     st_stop
   else sret tt) ;;
  cols_finales <- call (dict_get_all columnas_catalogo (seleccion_columnas inp)) ;;
  picked <- call (getitem_columns df_full cols_finales) ;;
  df <- inyectar_na (pct_na inp) (copy picked) ;;
  let cols_numericas := select_number df in
  let cols_categoricas := select_not_number df in
  tab_datos df ;;
  tab_resumen inp df cols_numericas cols_categoricas ;;
  tab_graficas inp df cols_numericas cols_categoricas ;;
  emit (St.markdown "Cómo usar").

End Script.

End App.

(* ===================================================================== *)
(** ** App2.py: the dashboard over an uploaded CSV *)
(* ===================================================================== *)

Module App2.
Import Pd Comun.

(** The values the widgets return in one run. *)
Record Inputs : Type := mkInputs {
  uploaded : option string;
  sep : string;
  decimal : string;
  encoding : string;
  parse_dates_opt : bool;
  dayfirst : bool;
  na_values_text : string;
  tam_muestra : nat;
  semilla_muestra : Z;
  cols_seleccion : list string;
  pct_na : Z;
  graficas : list string;
  bar_cat : option string;
  hist_num : option string;
  hist_bins : Z;
  scat_x : string;
  scat_y : string;
  scat_color : string;
  pie_cat : option string
}.

(** [text.split(",")] *)
Fixpoint split_commas (text : string) : list string :=
  match text with
  | EmptyString => [EmptyString]
  | String c rest =>
      if Ascii.eqb c ","%char then EmptyString :: split_commas rest
      else match split_commas rest with
           | [] => [String c EmptyString]
           | w :: ws => String c w :: ws
           end
  end.

Definition tab : string := String (ascii_of_nat 9) EmptyString.

(** Lines 49-52: the options handed to [pd.read_csv]. *)
Definition opciones (inp : Inputs) : ReadOptions :=
  mkReadOptions
    (if String.eqb (sep inp) "\t" then tab else sep inp)
    (encoding inp)
    (decimal inp)
    (filter (fun w => negb (String.eqb w "")) (split_commas (na_values_text inp))).

Section Script.
Context {R : NpRandom} {T : PandasText}.

(** Lines 30-36: the loop over the column labels, on the copy [df2]. *)
Fixpoint parsear_columnas (dayfirst : bool) (cols : list string) (df2 : DataFrame)
  : result DataFrame :=
  match cols with
  | [] => inr df2
  | col :: rest =>
      match getitem df2 col with
      | OneColumn s =>
          match dtype s with
          | object_ =>
              (* try: parsed = pd.to_datetime(...); df2[col] = parsed
                 except Exception: pass *)
              match to_datetime s dayfirst with
              | inr parsed =>
                  match setitem df2 col parsed with
                  | inr df3 => parsear_columnas dayfirst rest df3
                  | inl _ => parsear_columnas dayfirst rest df2
                  end
              | inl _ => parsear_columnas dayfirst rest df2
              end
          | _ => parsear_columnas dayfirst rest df2
          end
      | SeveralColumns _ =>
          inl (AttributeError "'DataFrame' object has no attribute 'dtype'")
      | NoColumn => inl (KeyError col)
      end
  end.

(** Lines 27-37. *)
Definition detectar_y_parsear_fechas (df : DataFrame) (dayfirst : bool)
  : result DataFrame :=
  let df2 := copy df in
  parsear_columnas dayfirst (names df2) df2.

(** Lines 47-56, the body of the [try]. *)
Definition leer (file : string) (inp : Inputs) : result DataFrame :=
  match read_csv file (opciones inp) with
  | inl e => inl e
  | inr df_all =>
      if parse_dates_opt inp
      then detectar_y_parsear_fechas df_all (dayfirst inp)
      else inr df_all
  end.

(** Line 70. *)
Definition max_muestra (df_all : DataFrame) : nat := Nat.min 500 (len df_all).

(** Line 74. *)
Definition muestrear (df_all : DataFrame) (tam : nat) (semilla : Z) : result DataFrame :=
  if (tam <? len df_all)%nat then sample df_all tam semilla
  else inr (copy df_all).

Local Open Scope script_scope.

(** Lines 114-122. *)
Definition tab_datos (df : DataFrame) : Script unit :=
  emit (St.subheader "Vista de datos") ;;
  emit (St.dataframe df) ;;
  emit (St.download_button "⬇️ Descargar CSV (actual)" (to_csv df) "dataset_actual.csv").

(** Lines 124-150. *)
Definition tab_resumen (inp : Inputs) (df : DataFrame) (cols_num cols_cat : list string)
  : Script unit :=
  emit (St.subheader "Estadísticos básicos") ;;
  (match cols_num with
   | [] => emit (St.info "No hay columnas numéricas seleccionadas.")
   | _ => emit (St.markdown "**Numéricas**") ;; emit (St.describe df cols_num)
   end) ;;
  emit (St.markdown "---") ;;
  emit (St.subheader "Distribuciones categóricas") ;;
  (match cols_cat with
   | [] => emit (St.info "No hay columnas categóricas seleccionadas.")
   | _ => tablas_de_frecuencia df cols_cat
   end) ;;
  emit (St.markdown "---") ;;
  if mem "Correlación (numérico)" (graficas inp) then
    emit (St.subheader "Matriz de correlación (numéricas)") ;;
    if (2 <=? length cols_num)%nat
    then emit (St.plotly_chart "imshow" df cols_num)
    else emit (St.info "Se requieren al menos 2 columnas numéricas para la correlación.")
  else sret tt.

(** A selectbox whose first option is a placeholder: the choice counts
    when it is a non-empty string other than the placeholder. *)
Definition elegida (placeholder : string) (choice : option string) : option string :=
  match truthy choice with
  | Some c => if String.eqb c placeholder then None else Some c
  | None => None
  end.

(** Lines 152-222. *)
Definition tab_graficas (inp : Inputs) (df : DataFrame) (cols_num cols_cat : list string)
  : Script unit :=
  emit (St.subheader "Constructor de gráficos") ;;
  (if mem "Barras (categorías)" (graficas inp) then
     emit (St.markdown "### Barras") ;;
     match elegida "(ninguna)" (bar_cat inp), cols_cat with
     | Some c, _ => emit (St.plotly_chart "bar" df [c])
     | None, [] => emit (St.info "No hay columnas categóricas para mostrar en barras.")
     | None, _ => sret tt
     end
   else sret tt) ;;
  (if mem "Histograma (numérico)" (graficas inp) then
     emit (St.markdown "### Histograma") ;;
     match elegida "(ninguna)" (hist_num inp), cols_num with
     | Some c, _ => emit (St.plotly_chart "histogram" df [c; Text.print_Z (hist_bins inp)])
     | None, [] => emit (St.info "No hay columnas numéricas para mostrar en histograma.")
     | None, _ => sret tt
     end
   else sret tt) ;;
  (if mem "Dispersión (scatter)" (graficas inp) then
     emit (St.markdown "### Dispersión") ;;
     if (2 <=? length cols_num)%nat then
       let kwargs :=
         if negb (String.eqb (scat_color inp) "") &&
            negb (String.eqb (scat_color inp) "(ninguno)")
         then [scat_color inp] else [] in
       emit (St.plotly_chart "scatter" df (scat_x inp :: scat_y inp :: kwargs))
     else emit (St.info "Se requieren al menos 2 columnas numéricas para la dispersión.")
   else sret tt) ;;
  (if mem "Pastel (categorías)" (graficas inp) then
     emit (St.markdown "### Pastel") ;;
     match elegida "(ninguna)" (pie_cat inp), cols_cat with
     | Some c, _ => emit (St.plotly_chart "pie" df [c])
     | None, [] => emit (St.info "No hay columnas categóricas para mostrar en pastel.")
     | None, _ => sret tt
     end
   else sret tt).

(** Lines 62-230: what follows a successful read. *)
Definition tras_leer (inp : Inputs) (df_all : DataFrame) : Script unit :=
  (if empty df_all then
     emit (St.warning
       "El archivo está vacío o no se pudo interpretar. Verifica el separador, decimales y encoding.") ;;
     st_stop
   else sret tt) ;;
  df_sampled <- call (muestrear df_all (tam_muestra inp) (semilla_muestra inp)) ;;
  (match cols_seleccion inp with
   | [] =>
       emit (St.warning "Selecciona al menos una columna en la barra lateral.") ;;
       st_stop
   | _ => sret tt
   end) ;;
  picked <- call (getitem_columns df_sampled (cols_seleccion inp)) ;;
  df <- inyectar_na (pct_na inp) (copy picked) ;;
  let cols_num := select_number df in
  let cols_cat := select_not_number df in
  tab_datos df ;;
  tab_resumen inp df cols_num cols_cat ;;
  tab_graficas inp df cols_num cols_cat ;;
  emit (St.markdown "Consejos de uso").

(** The whole of App2.py. *)
Definition script (inp : Inputs) : Script unit :=
  emit (St.title "📊 EDA interactivo sobre CSV subido") ;;
  emit (St.caption
    "Sube tu archivo CSV y explóralo con un EDA interactivo: tablas, estadísticas, correlación y gráficas (barras, histograma, dispersión y pastel).") ;;
  match uploaded inp with
  | None =>
      emit (St.info "⬅️ Sube un archivo CSV desde la barra lateral para comenzar.") ;;
      st_stop
  | Some file =>
      (* try: ... except Exception as e: st.error(...); st.stop() *)
      match leer file inp with
      | inl e =>
          emit (St.error ("❌ Error leyendo el CSV: " ++ exn_str e)) ;;
          st_stop
      | inr df_all =>
          emit (St.success "✅ CSV leído correctamente.") ;;
          tras_leer inp df_all
      end
  end.

End Script.
End App2.

(* ===================================================================== *)
(** ** A small generator to run the code on *)
(* ===================================================================== *)

(** A linear congruential generator: the state is the last output.  It
    serves to evaluate the embedding on concrete runs; no property below
    is specific to it. *)
Module Lcg.

Definition next (x : Z) : Z := ((1103515245 * x + 12345) mod 2 ^ 31)%Z.

(** The state as a number in [0, 1). *)
Definition unit_of (x : Z) : Q := Qred (x # 2 ^ 31).

Definition uniform (low high : Q) (g : Z) : Q * Z :=
  let g1 := next g in (Qred (low + (high - low) * unit_of g1), g1).

(** Sum of four uniforms, centred and scaled to unit variance. *)
Definition normal (loc scale : Q) (g : Z) : Q * Z :=
  let g1 := next g in let g2 := next g1 in
  let g3 := next g2 in let g4 := next g3 in
  let z := (unit_of g1 + unit_of g2 + unit_of g3 + unit_of g4 - 2) * 1.732 in
  (Qred (loc + scale * z), g4).

Definition randint (low high : Z) (g : Z) : Z * Z :=
  let g1 := next g in ((low + (g1 / 65536) mod (high - low))%Z, g1).

#[export] Instance random : NpRandom := {|
  rstate := Z;
  seed_state := fun s => s;
  normal1 := normal;
  uniform1 := uniform;
  rand1 := uniform 0 1;
  randint1 := randint
|}.

(** Square root to three decimals. *)
#[export] Instance math : NpMath := {|
  np_sqrt := fun q => Qred (inject_Z (Z.sqrt (Qfloor (q * 1000000))) / 1000)
|}.

End Lcg.

(* ===================================================================== *)
(** ** What the specification states, as data *)
(* ===================================================================== *)

Module Spec.

(** Value domains of the generated numeric columns: column, lower bound,
    upper bound if any. *)
Definition limites : list (string * Q * option Q) :=
  [ ("edad", 16, Some 45);
    ("altura_cm", 150, Some 210);
    ("peso_kg", 45, Some 120);
    ("minutos_jugados", 0, Some 120);
    ("puntos", 0, None);
    ("asistencias", 0, None);
    ("rebotes", 0, None);
    ("velocidad_max_kmh", 15, Some 40);
    ("salario_miles_usd", 10, Some 500) ]%string.




End Spec.

(** A generator that replays a script: the state is the list of numbers
    still to come, each draw returns the next one whatever law is asked
    for, and an exhausted script returns the law's centre or lower end.
    It serves to follow a run by hand. *)
Module Scripted.

Definition pop (d : Q) (g : list Q) : Q * list Q :=
  match g with
  | [] => (d, [])
  | x :: g' => (x, g')
  end.

#[export] Instance random : NpRandom := {|
  rstate := list Q;
  seed_state := fun _ => [];
  normal1 := fun loc _ => pop loc;
  uniform1 := fun low _ => pop low;
  rand1 := pop 0;
  randint1 := fun low _ g => let (x, g') := pop (inject_Z low) g in (Qfloor x, g')
|}.

End Scripted.

(* ===================================================================== *)
(** ** Concrete runs *)
(* ===================================================================== *)

Module Ejemplo.



(** A table as [read_csv] leaves it: two text columns, one of them of
    dates written day first, and an integer column. *)
Definition tabla_leida : Pd.DataFrame :=
  Pd.mkDF [0; 1]%nat
    [ ("fecha", Pd.mkSeries Pd.object_ [Pd.Str "05/01/2023"; Pd.Str "17/05/2023"]);
      ("equipo", Pd.mkSeries Pd.object_ [Pd.Str "Tigres"; Pd.Str "Leones"]);
      ("puntos", Pd.mkSeries Pd.int64 [Pd.Int 30; Pd.Int 12]) ]%string.

(** The same table once the dates are parsed. *)
Definition tabla_con_fechas : Pd.DataFrame :=
  Pd.mkDF [0; 1]%nat
    [ ("fecha", Pd.mkSeries Pd.datetime64 [Pd.Date 19362; Pd.Date 19494]);
      ("equipo", Pd.mkSeries Pd.object_ [Pd.Str "Tigres"; Pd.Str "Leones"]);
      ("puntos", Pd.mkSeries Pd.int64 [Pd.Int 30; Pd.Int 12]) ]%string.

(** A file whose third line has a field too many, and one that reads. *)
Definition archivo_roto : string :=
  "a,b
1,2
3,4,5
".

Definition archivo_bueno : string :=
  "fecha,equipo,puntos
05/01/2023,Tigres,30
17/05/2023,Leones,12
".

(** The widgets of App2.py at their defaults, over a given upload and
    column selection. *)
Definition entradas2 (file : option string) (cols : list string) (pct : Z) : App2.Inputs :=
  App2.mkInputs file "," "." "utf-8" true true "NA,N/A,.,null," 10 123 cols pct
    ["Barras (categorías)"; "Histograma (numérico)"; "Dispersión (scatter)"]%string
    None None 25 "" "" "(ninguno)" None.

(** The widgets of App.py at their defaults, over a given column
    selection. *)
Definition entradas (cols : list string) (pct : Z) : App.Inputs :=
  App.mkInputs 42 3 cols pct
    ["Barras (categorías)"; "Histograma (numérico)"; "Dispersión (scatter)"]%string
    None None 25 "" "" "(ninguno)" None.

(** An upload of twenty rows whose column [id] is text: codes with and
    without leading zeros, and one that is not a number. *)
Definition archivo_codigos : string :=
  "id,equipo
007,Tigres
7,Leones
8,Pumas
9,Lobos
10,Toros
11,Tigres
12,Leones
13,Pumas
14,Lobos
15,Toros
16,Tigres
17,Leones
18,Pumas
19,Lobos
20,Toros
21,Tigres
22,Leones
23,Pumas
24,Lobos
x,Toros
".


(** The widgets of App2.py over that upload: every row kept, the given
    columns and percentage of missing values. *)
Definition entradas_codigos (cols : list string) (pct : Z) : App2.Inputs :=
  App2.mkInputs (Some archivo_codigos) "," "." "utf-8" true true "NA,N/A,.,null,"
    20 123 cols pct
    ["Barras (categorías)"; "Histograma (numérico)"; "Dispersión (scatter)"]%string
    None None 25 "" "" "(ninguno)" None.

(** The options of a loader set to read what the dashboards export. *)
Definition opciones_por_defecto : ReadOptions :=
  mkReadOptions "," "utf-8" "." ["NA"; "N/A"; "."; "null"]%string.

(** The data of the download buttons among rendered elements. *)
Fixpoint descargas (out : list St.element) : list string :=
  match out with
  | [] => []
  | St.download_button _ data _ :: rest => data :: descargas rest
  | _ :: rest => descargas rest
  end.

(** The tables shown among rendered elements. *)
Fixpoint tablas (out : list St.element) : list Pd.DataFrame :=
  match out with
  | [] => []
  | St.dataframe df :: rest => df :: tablas rest
  | _ :: rest => tablas rest
  end.

(** A table as the dashboards export it: a text column, an integer
    column that became float under the injection of missing values, and a
    float column. *)
Definition tabla_mixta : Pd.DataFrame :=
  Pd.mkDF [0; 1; 2]%nat
    [ ("equipo", Pd.mkSeries Pd.object_ [Pd.Str "Tigres"; Pd.NA; Pd.Str "Lobos"]);
      ("edad", Pd.mkSeries Pd.float64 [Pd.Float 28; Pd.NA; Pd.Float 25]);
      ("altura_cm", Pd.mkSeries Pd.float64 [Pd.Float 175.2; Pd.Float 175.3; Pd.NA]) ]%string.

(** The upload as it is read. *)
Definition tabla_codigos_leida : Pd.DataFrame :=
  Pd.mkDF (seq 0 20)
    [ ("id", Pd.mkSeries Pd.object_
               [ Pd.Str "007"; Pd.Str "7"; Pd.Str "8"; Pd.Str "9"; Pd.Str "10";
                 Pd.Str "11"; Pd.Str "12"; Pd.Str "13"; Pd.Str "14"; Pd.Str "15";
                 Pd.Str "16"; Pd.Str "17"; Pd.Str "18"; Pd.Str "19"; Pd.Str "20";
                 Pd.Str "21"; Pd.Str "22"; Pd.Str "23"; Pd.Str "24"; Pd.Str "x" ]);
      ("equipo", Pd.mkSeries Pd.object_
               [ Pd.Str "Tigres"; Pd.Str "Leones"; Pd.Str "Pumas"; Pd.Str "Lobos"; Pd.Str "Toros";
                 Pd.Str "Tigres"; Pd.Str "Leones"; Pd.Str "Pumas"; Pd.Str "Lobos"; Pd.Str "Toros";
                 Pd.Str "Tigres"; Pd.Str "Leones"; Pd.Str "Pumas"; Pd.Str "Lobos"; Pd.Str "Toros";
                 Pd.Str "Tigres"; Pd.Str "Leones"; Pd.Str "Pumas"; Pd.Str "Lobos"; Pd.Str "Toros" ]) ]%string.



End Ejemplo.

(* ===================================================================== *)
(** ** Notions used to state further properties *)
(* ===================================================================== *)

(** [c] renders [out] and ends or goes on with [r], whatever the state of
    the generator, which it leaves as it found it. *)
Definition renders {R : NpRandom} {A} (c : Script A)
    (out : list St.element) (r : St.ending + A) : Prop :=
  forall g, c g = (out, r, g).

(** An element that is neither the table nor the download button. *)
Definition plain_element (e : St.element) : bool :=
  match e with
  | St.dataframe _ | St.download_button _ _ _ => false
  | _ => true
  end.

(** [c] goes on after rendering elements none of which is a table or a
    download button. *)
Definition adds_no_table {R : NpRandom} (c : Script unit) : Prop :=
  exists out, renders c out (inr tt) /\ forallb plain_element out = true.

(** [np.random.choice(a, n)] as the indices drawn. *)
Definition chosen (a : list string) (idx : list Z) : list string :=
  map (fun i => nth (Z.to_nat i mod length a) a EmptyString) idx.

(** A cell holding one of the strings of [dom]. *)
Definition one_of (dom : list string) (c : Pd.cell) : bool :=
  match c with
  | Pd.Str x => Comun.mem x dom
  | _ => false
  end.

(** The categorical columns and the values they are drawn from. *)
Definition dominios : list (string * list string) :=
  [ ("deporte", App.deportes); ("equipo", App.equipos);
    ("posicion", App.posiciones); ("pais", App.paises);
    ("sexo", App.sexo); ("lesionado", ["Sí"; "No"]) ]%string.

(** [s.endswith(suffix)] *)
Fixpoint ends_with (suffix s : string) : bool :=
  String.eqb suffix s ||
  match s with
  | EmptyString => false
  | String _ rest => ends_with suffix rest
  end.

(** No string occurs twice. *)
Fixpoint distinct (l : list string) : bool :=
  match l with
  | [] => true
  | x :: rest => negb (Comun.mem x rest) && distinct rest
  end.

(** The rows at positions [ps] of a table. *)
Definition rows_of (df df' : Pd.DataFrame) (ps : list nat) : Prop :=
  Pd.index df' = map (fun p => nth p (Pd.index df) O) ps /\
  Pd.names df' = Pd.names df /\
  map (fun c => Pd.dtype (snd c)) (Pd.columns df') =
    map (fun c => Pd.dtype (snd c)) (Pd.columns df) /\
  forall k j, (k < length ps)%nat -> Pd.iat df' k j = Pd.iat df (nth k ps O) j.

(** [c] renders and ends the same way from every state of the generator,
    and leaves the state as it found it. *)
Definition stateless {R : NpRandom} {A} (c : Script A) : Prop :=
  exists out r, renders c out r.

(** How many cells hold the value [v], missing counted as a value. *)
Definition count_of (v : Pd.cell) (cells : list Pd.cell) : nat :=
  length (filter (Pd.cell_eqb v) cells).

(** The counts before they are sorted. *)
Definition tally (cells : list Pd.cell) (acc : list (Pd.cell * nat)) : list (Pd.cell * nat) :=
  fold_left (fun acc c => Pd.count_in c acc) cells acc.

(** No two entries hold the same value. *)
Definition distinct_values (acc : list (Pd.cell * nat)) : Prop :=
  ForallOrdPairs (fun p q => Pd.cell_eqb (fst p) (fst q) = false) acc.

(** What holds of the counts once the cells [l] are tallied. *)
Definition tallied (l : list Pd.cell) (acc : list (Pd.cell * nat)) : Prop :=
  Forall (fun p => snd p = count_of (fst p) l /\ (1 <= snd p)%nat) acc /\
  distinct_values acc /\
  (forall x, In x l -> exists p, In p acc /\ Pd.cell_eqb (fst p) x = true) /\
  list_sum (map snd acc) = length l.

(** An element computed from the working table [df]: the table itself,
    its CSV text, the description of its numeric columns, the counts of
    one of its categorical columns, a chart over it; a correlation matrix
    or a scatter plot only with two numeric columns or more. *)
Definition drawn_from {T : PandasText} (df : Pd.DataFrame) (e : St.element) : Prop :=
  match e with
  | St.dataframe d => d = df
  | St.download_button _ data _ => data = to_csv df
  | St.describe d cols => d = df /\ cols = Pd.select_number df /\ cols <> []
  | St.counts c vc =>
      In c (Pd.select_not_number df) /\ vc = Pd.value_counts (Comun.series_of df c)
  | St.plotly_chart kind d _ =>
      d = df /\
      (kind = "scatter"%string \/ kind = "imshow"%string ->
       (2 <= length (Pd.select_number df))%nat)
  | _ => True
  end.

Definition adds_only {R : NpRandom} (P : St.element -> Prop) (c : Script unit) : Prop :=
  exists out, renders c out (inr tt) /\ Forall P out.

(* ===================================================================== *)
(** * Properties *)
(* ===================================================================== *)

(* --------------------------------------------------------------------- *)
(** *** The definitions on concrete inputs *)

Example rint_ties_to_even :
  map Np.rint [0.5; 1.5; 2.5; -0.5; -1.5; 2.4; 2.6] = [0; 2; 2; 0; -2; 2; 3]%Z.
Proof. reflexivity. Qed.

Example round_one_decimal :
  Np.round 1 86.25 == 86.2 /\ Np.round 1 175.16 == 175.2 /\ Np.round 0 7.5 == 8.
Proof. repeat split; reflexivity. Qed.

Example clip_examples :
  Np.clip (Some 16) (Some 45) 50 = 45 /\ Np.clip (Some 16) (Some 45) 3 = 16 /\
  Np.clip (Some 0) None (-3) = 0 /\ Np.clip (Some 0) None 31.5 = 31.5.
Proof. repeat split; reflexivity. Qed.

Example astype_int_truncates :
  Np.astype_int (-2.7) = (-2)%Z /\ Np.astype_int 2.7 = 2%Z.
Proof. split; reflexivity. Qed.

Example dates_as_text :
  Calendar.iso App.fecha_base = "2023-01-01"%string /\
  Calendar.iso (App.fecha_base + 899) = "2025-06-18"%string /\
  Calendar.parse_as Calendar.DayMonthYear "05/01/2023" = Some 19362%Z /\
  Calendar.parse_as Calendar.DayMonthYear "31/02/2023" = None.
Proof. repeat split; reflexivity. Qed.

Example numbers_as_text :
  Text.print_Z (-45) = "-45"%string /\
  Text.print_float 175.2 = "175.2"%string /\
  Text.print_float 28 = "28.0"%string /\
  Text.parse_int "007" = Some 7%Z /\
  Text.parse_int "28.0" = None /\
  Text.parse_float "." "1e3" = Some 1000.
Proof. repeat split; reflexivity. Qed.

Example value_counts_example :
  Pd.value_counts
    (Pd.mkSeries Pd.object_ [Pd.Str "a"; Pd.Str "b"; Pd.Str "b"; Pd.NA; Pd.Str "c"])
  = [(Pd.Str "b", 2); (Pd.Str "a", 1); (Pd.NA, 1); (Pd.Str "c", 1)]%nat.
Proof. reflexivity. Qed.

Example to_csv_example :
  Csv.to_csv Ejemplo.tabla_mixta =
  "equipo,edad,altura_cm
Tigres,28.0,175.2
,,175.3
Lobos,25.0,
"%string.
Proof. vm_compute. reflexivity. Qed.

Example read_csv_example :
  Csv.read_csv Ejemplo.archivo_bueno Ejemplo.opciones_por_defecto =
  inr Ejemplo.tabla_leida.
Proof. vm_compute. reflexivity. Qed.

Example quoting_example :
  Csv.write_record "," ["a,b"; "x"; ""]%string =
    String Csv.dquote ("a,b" ++ String Csv.dquote (",x," ++ String Csv.LF ""))%string /\
  Csv.records "," (Csv.write_record "," ["a,b"; "x"; ""]%string) = [["a,b"; "x"; ""]%string].
Proof. split; reflexivity. Qed.

Example opciones_example :
  App2.opciones (Ejemplo.entradas2 None [] 0) = Ejemplo.opciones_por_defecto.
Proof. reflexivity. Qed.

(** The run of App.py on three rows with two columns selected: what it
    shows, in order, by kind. *)
Example script_example :
  let '(out, fin) :=
    run (R := Lcg.random)
        (App.script (M := Lcg.math) (T := Csv.pandas_text)
           (Ejemplo.entradas ["equipo (cat)"; "edad (num)"]%string 0)) 0%Z in
  fin = St.Completed /\
  Ejemplo.descargas out = ["equipo,edad
Leones,28
Toros,22
Tigres,25
"%string] /\
  map Pd.names (Ejemplo.tablas out) = [["equipo"; "edad"]%string].
Proof. vm_compute. repeat split; reflexivity. Qed.

(* --------------------------------------------------------------------- *)
(** *** Facts about the kernels *)

(** Turn a computed comparison into the order fact it stands for. *)
Ltac qcompare_in H :=
  first [ apply Qeq_alt in H | rewrite <- Qlt_alt in H | rewrite <- Qgt_alt in H ].

#[export] Instance rint_comp : Proper (Qeq ==> eq) Np.rint.
Proof.
  intros x y E. unfold Np.rint. rewrite (Qfloor_comp _ _ E).
  assert (C : Qcompare (x - inject_Z (Qfloor y)) (1 # 2)
            = Qcompare (y - inject_Z (Qfloor y)) (1 # 2)).
  { apply Qcompare_comp; [now rewrite E | reflexivity]. }
  now rewrite C.
Qed.

Lemma rint_inject_Z (z : Z) : Np.rint (inject_Z z) = z.
Proof.
  unfold Np.rint. rewrite Qfloor_Z.
  assert (E : inject_Z z - inject_Z z == 0) by ring.
  assert (C : Qcompare (inject_Z z - inject_Z z) (1 # 2) = Lt).
  { rewrite <- Qlt_alt. rewrite E. reflexivity. }
  now rewrite C.
Qed.

Lemma rint_ge_floor (x : Q) : (Qfloor x <= Np.rint x)%Z.
Proof.
  unfold Np.rint. destruct (Qcompare _ _); [destruct (Z.even _)| |]; lia.
Qed.

Lemma rint_le_floor_succ (x : Q) : (Np.rint x <= Qfloor x + 1)%Z.
Proof.
  unfold Np.rint. destruct (Qcompare _ _); [destruct (Z.even _)| |]; lia.
Qed.

(** An integer below [x] is below [rint x]. *)
Lemma rint_lower (z : Z) (x : Q) : inject_Z z <= x -> (z <= Np.rint x)%Z.
Proof.
  intros H. apply Z.le_trans with (Qfloor x); [|apply rint_ge_floor].
  rewrite <- (Qfloor_Z z). now apply Qfloor_resp_le.
Qed.

(** An integer above [x] is above [rint x]. *)
Lemma rint_upper (z : Z) (x : Q) : x <= inject_Z z -> (Np.rint x <= z)%Z.
Proof.
  intros H.
  assert (F : (Qfloor x <= z)%Z).
  { rewrite <- (Qfloor_Z z). now apply Qfloor_resp_le. }
  destruct (Z.eq_dec (Qfloor x) z) as [E|N].
  - (* then x = z exactly *)
    assert (X : x == inject_Z z).
    { apply Qle_antisym; [exact H|]. rewrite <- E. apply Qfloor_le. }
    unfold Np.rint. rewrite E.
    assert (C : Qcompare (x - inject_Z z) (1 # 2) = Lt).
    { rewrite <- Qlt_alt. rewrite X.
      assert (Z0 : inject_Z z - inject_Z z == 0) by ring.
      rewrite Z0. reflexivity. }
    rewrite C. lia.
  - pose proof (rint_le_floor_succ x). lia.
Qed.

Lemma rint_mono (x y : Q) : x <= y -> (Np.rint x <= Np.rint y)%Z.
Proof.
  intros H.
  destruct (Z.eq_dec (Qfloor x) (Qfloor y)) as [E|N].
  - unfold Np.rint. rewrite E.
    assert (D : x - inject_Z (Qfloor y) <= y - inject_Z (Qfloor y)).
    { apply Qplus_le_l with (z := inject_Z (Qfloor y)). ring_simplify. exact H. }
    destruct (Qcompare (x - inject_Z (Qfloor y)) (1 # 2)) eqn:Cx;
    destruct (Qcompare (y - inject_Z (Qfloor y)) (1 # 2)) eqn:Cy;
    try (destruct (Z.even (Qfloor y))); try lia; exfalso;
    qcompare_in Cx; qcompare_in Cy; lra.
  - assert (L : (Qfloor x <= Qfloor y)%Z) by now apply Qfloor_resp_le.
    pose proof (rint_le_floor_succ x). pose proof (rint_ge_floor y). lia.
Qed.

Lemma pow10_pos (d : nat) : 0 < Np.pow10 d.
Proof.
  unfold Np.pow10. change 0 with (inject_Z 0). rewrite <- Zlt_Qlt.
  apply Z.pow_pos_nonneg; lia.
Qed.

(** Both branches of [Np.round] are the same scale-round-unscale. *)
Lemma round_scaled (d : nat) (x : Q) :
  Np.round d x == inject_Z (Np.rint (x * Np.pow10 d)) / Np.pow10 d.
Proof.
  destruct d as [|d]; [|reflexivity].
  cbn [Np.round]. change (Np.pow10 0) with 1.
  assert (E : x * 1 == x) by ring.
  rewrite E. field.
Qed.

Lemma scale_lower (d : nat) (k : Z) (x : Q) :
  inject_Z k / Np.pow10 d <= x -> inject_Z k <= x * Np.pow10 d.
Proof.
  intros L. pose proof (pow10_pos d) as P.
  assert (E : inject_Z k == inject_Z k / Np.pow10 d * Np.pow10 d) by (field; lra).
  rewrite E. apply Qmult_le_compat_r; [exact L | lra].
Qed.

Lemma scale_upper (d : nat) (k : Z) (x : Q) :
  x <= inject_Z k / Np.pow10 d -> x * Np.pow10 d <= inject_Z k.
Proof.
  intros L. pose proof (pow10_pos d) as P.
  assert (E : inject_Z k == inject_Z k / Np.pow10 d * Np.pow10 d) by (field; lra).
  rewrite E. apply Qmult_le_compat_r; [exact L | lra].
Qed.

(** Rounding to [d] decimals never crosses a multiple of [10^-d]. *)
Lemma round_lower (d : nat) (kl : Z) (x : Q) :
  inject_Z kl / Np.pow10 d <= x -> inject_Z kl / Np.pow10 d <= Np.round d x.
Proof.
  intros L. pose proof (pow10_pos d) as P.
  rewrite round_scaled. apply Qmult_le_compat_r with (z := / Np.pow10 d).
  - rewrite <- Zle_Qle. apply rint_lower. now apply scale_lower.
  - apply Qlt_le_weak. now apply Qinv_lt_0_compat.
Qed.

Lemma round_upper (d : nat) (kh : Z) (x : Q) :
  x <= inject_Z kh / Np.pow10 d -> Np.round d x <= inject_Z kh / Np.pow10 d.
Proof.
  intros L. pose proof (pow10_pos d) as P.
  rewrite round_scaled. apply Qmult_le_compat_r with (z := / Np.pow10 d).
  - rewrite <- Zle_Qle. apply rint_upper. now apply scale_upper.
  - apply Qlt_le_weak. now apply Qinv_lt_0_compat.
Qed.

Lemma maximum_ge_r (x y : Q) : y <= Np.maximum x y.
Proof.
  unfold Np.maximum. destruct (Qle_bool y x) eqn:E.
  - now apply Qle_bool_iff. 
  - apply Qle_refl.
Qed.

Lemma maximum_le (x y h : Q) : x <= h -> y <= h -> Np.maximum x y <= h.
Proof. unfold Np.maximum. now destruct (Qle_bool y x). Qed.

Lemma minimum_le_r (x y : Q) : Np.minimum x y <= y.
Proof.
  unfold Np.minimum. destruct (Qle_bool x y) eqn:E.
  - now apply Qle_bool_iff.
  - apply Qle_refl.
Qed.

Lemma minimum_ge (x y l : Q) : l <= x -> l <= y -> l <= Np.minimum x y.
Proof. unfold Np.minimum. now destruct (Qle_bool x y). Qed.

Lemma clip_between (lo hi x : Q) :
  lo <= hi ->
  lo <= Np.clip (Some lo) (Some hi) x /\ Np.clip (Some lo) (Some hi) x <= hi.
Proof.
  intros LH. cbn [Np.clip]. split.
  - apply minimum_ge; [apply maximum_ge_r | exact LH].
  - apply minimum_le_r.
Qed.

Lemma clip_lower (lo x : Q) : lo <= Np.clip (Some lo) None x.
Proof. cbn [Np.clip]. apply maximum_ge_r. Qed.

Lemma astype_int_inject_Z (z : Z) : Np.astype_int (inject_Z z) = z.
Proof.
  unfold Np.astype_int. destruct (Qle_bool 0 (inject_Z z));
    [apply Qfloor_Z | apply Qceiling_Z].
Qed.

Lemma lift2_length (f : Q -> Q -> Q) (a b : Np.ndarray) :
  length (Np.lift2 f a b) = Nat.min (length a) (length b).
Proof.
  revert b. induction a as [|x a IH]; intros [|y b]; cbn; auto.
Qed.


Lemma lift2_Forall (P : Q -> Prop) (f : Q -> Q -> Q) (a b : Np.ndarray) :
  (forall x y, P (f x y)) -> Forall P (Np.lift2 f a b).
Proof.
  intros H. revert b. induction a as [|x a IH]; intros [|y b]; cbn; auto.
Qed.


(* --------------------------------------------------------------------- *)
(** *** Draws and table construction *)

Lemma draws_length {R : NpRandom} {A} (d : Rnd A) (size : nat) (g : rstate) :
  length (fst (draws d size g)) = size.
Proof.
  revert g. induction size as [|k IH]; intros g; [reflexivity|].
  cbn [draws]. unfold bind at 1. destruct (d g) as [x g1].
  unfold bind. specialize (IH g1). destruct (draws d k g1) as [xs g2].
  cbn in *. now rewrite IH.
Qed.


Lemma DataFrame_of_dict_ok (data : list (string * Pd.Series)) (n : nat) :
  data <> [] ->
  Forall (fun c => length (Pd.values (snd c)) = n) data ->
  Pd.DataFrame_of_dict data = inr (Pd.mkDF (seq 0 n) data).
Proof.
  intros NE F. destruct data as [|[k s0] rest]; [congruence|].
  unfold Pd.DataFrame_of_dict.
  assert (E0 : length (Pd.values s0) = n) by (inversion F; auto).
  rewrite E0.
  assert (B : forallb (fun c => length (Pd.values (snd c)) =? n)%nat
                ((k, s0) :: rest) = true).
  { apply forallb_forall. intros c Hc. apply Nat.eqb_eq.
    rewrite Forall_forall in F. now apply F. }
  now rewrite B.
Qed.


(* --------------------------------------------------------------------- *)
(** *** Clipping then rounding *)

Lemma clip_round_between (d : nat) (kl kh : Z) (lo hi x : Q) :
  lo == inject_Z kl / Np.pow10 d ->
  hi == inject_Z kh / Np.pow10 d ->
  lo <= hi ->
  lo <= Np.round d (Np.clip (Some lo) (Some hi) x) /\
  Np.round d (Np.clip (Some lo) (Some hi) x) <= hi.
Proof.
  intros El Eh LH. destruct (clip_between lo hi x LH) as [L H]. split.
  - rewrite El at 1. apply round_lower. now rewrite <- El.
  - rewrite Eh at 2. apply round_upper. now rewrite <- Eh.
Qed.

Lemma clip_round_lower (d : nat) (kl : Z) (lo x : Q) :
  lo == inject_Z kl / Np.pow10 d ->
  lo <= Np.round d (Np.clip (Some lo) None x).
Proof.
  intros El. rewrite El at 1. apply round_lower. rewrite <- El. apply clip_lower.
Qed.

Lemma in_range_Float (lo : Q) (hi : option Q) (q : Q) :
  lo <= q -> match hi with Some h => q <= h | None => True end ->
  Pd.in_range lo hi (Pd.Float q) = true.
Proof.
  intros L H. cbn. apply andb_true_intro. split.
  - now apply Qle_bool_iff.
  - destruct hi; [now apply Qle_bool_iff | reflexivity].
Qed.

(** A column cast with [astype(int)] after [round(0)] holds the rounded
    value itself. *)
Lemma in_range_Int_round0 (lo : Q) (hi : option Q) (x : Q) :
  lo <= Np.round 0 x -> match hi with Some h => Np.round 0 x <= h | None => True end ->
  Pd.in_range lo hi (Pd.Int (Np.astype_int (Np.round 0 x))) = true.
Proof.
  intros L H. cbn [Np.round] in *. rewrite astype_int_inject_Z.
  cbn. apply andb_true_intro. split.
  - now apply Qle_bool_iff.
  - destruct hi; [now apply Qle_bool_iff | reflexivity].
Qed.

Lemma forallb_map {A B} (f : A -> B) (p : B -> bool) (l : list A) :
  (forall x, p (f x) = true) -> forallb p (map f l) = true.
Proof. intros H. induction l; cbn; [reflexivity|]. now rewrite H, IHl. Qed.

(* --------------------------------------------------------------------- *)
(** *** The numeric signals *)

(** Unfold one batch of draws, remembering its length. *)
Ltac step_draws :=
  match goal with
  | |- context [draws ?d ?n ?g] =>
      let L := fresh "L" in
      pose proof (draws_length d n g) as L;
      destruct (draws d n g) as [? ?]; cbn [fst] in L
  end.

Ltac run_rnd :=
  unfold np_random_choice, np_random_normal, np_random_uniform,
         np_random_rand, np_random_randint, bind, ret;
  repeat step_draws.

(** The arrays as functions of the draws: the shape of the result of
    [senales], with the rounded and clipped columns in closed form. *)
Definition clipped (d : nat) (lo : Q) (hi : option Q) (a : Np.ndarray) : Prop :=
  exists raw, a = Np.lift1 (Np.round d) (Np.lift1 (Np.clip (Some lo) hi) raw).

Lemma senales_clipped {R : NpRandom} {M : NpMath} (n : nat) (g : rstate) :
  let s := fst (App.senales n g) in
  clipped 0 16 (Some 45) (App.edad s) /\
  clipped 1 150 (Some 210) (App.altura s) /\
  clipped 1 45 (Some 120) (App.peso s) /\
  clipped 0 0 (Some 120) (App.minutos s) /\
  clipped 0 0 None (App.puntos s) /\
  clipped 0 0 None (App.asistencias s) /\
  clipped 0 0 None (App.rebotes s) /\
  clipped 1 15 (Some 40) (App.velocidad s) /\
  clipped 1 10 (Some 500) (App.salario s).
Proof.
  unfold App.senales. run_rnd. cbn [fst App.edad App.altura App.peso App.minutos
    App.puntos App.asistencias App.rebotes App.velocidad App.salario].
  repeat split; eexists; reflexivity.
Qed.

Lemma lift1_length (f : Q -> Q) (a : Np.ndarray) : length (Np.lift1 f a) = length a.
Proof. apply length_map. Qed.

Lemma senales_length {R : NpRandom} {M : NpMath} (n : nat) (g : rstate) :
  let s := fst (App.senales n g) in
  length (App.edad s) = n /\ length (App.altura s) = n /\
  length (App.peso s) = n /\ length (App.minutos s) = n /\
  length (App.puntos s) = n /\ length (App.asistencias s) = n /\
  length (App.rebotes s) = n /\ length (App.velocidad s) = n /\
  length (App.salario s) = n.
Proof.
  unfold App.senales. run_rnd. cbn [fst App.edad App.altura App.peso App.minutos
    App.puntos App.asistencias App.rebotes App.velocidad App.salario].
  repeat rewrite ?lift1_length, ?lift2_length, ?L, ?L0, ?L1, ?L2, ?L3, ?L4, ?L5,
    ?L6, ?L7, ?L8, ?L9, ?L10, ?Nat.min_id.
  repeat split; reflexivity.
Qed.

(* --------------------------------------------------------------------- *)
(** *** The generated table *)

(** [generar_dataset] returns: a table over the range index [0..n-1]
    whose nine numeric columns are the signals, after seven columns of
    [n] cells each. *)
Lemma generar_dataset_returns {R : NpRandom} {M : NpMath} (n : nat) (g : rstate) :
  let s := fst (App.senales n g) in
  exists c1 c2 c3 c4 c5 c6 c7 : Pd.Series,
    Forall (fun c => length (Pd.values c) = n) [c1; c2; c3; c4; c5; c6; c7] /\
    fst (App.generar_dataset n g) =
    inr (Pd.mkDF (seq 0 n)
      [ ("deporte", c1); ("equipo", c2); ("posicion", c3); ("pais", c4);
        ("sexo", c5); ("lesionado", c6); ("fecha_partido", c7);
        ("edad", App.int_column (App.edad s));
        ("altura_cm", App.float_column (App.altura s));
        ("peso_kg", App.float_column (App.peso s));
        ("minutos_jugados", App.int_column (App.minutos s));
        ("puntos", App.int_column (App.puntos s));
        ("asistencias", App.int_column (App.asistencias s));
        ("rebotes", App.int_column (App.rebotes s));
        ("velocidad_max_kmh", App.float_column (App.velocidad s));
        ("salario_miles_usd", App.float_column (App.salario s)) ]%string).
Proof.
  intros s. pose proof (senales_length n g) as SL. fold s in SL.
  unfold App.generar_dataset. unfold bind at 1.
  subst s. destruct (App.senales n g) as [s g1]. cbn [fst] in *.
  run_rnd. cbn [fst].
  do 7 eexists. split.
  2: { apply DataFrame_of_dict_ok with (n := n); [discriminate|].
       unfold App.int_column, App.float_column, App.str_column.
       repeat constructor; cbn [snd Pd.values];
         rewrite ?length_map; intuition congruence. }
  unfold App.str_column. repeat constructor; cbn [Pd.values];
    rewrite ?length_map; congruence.
Qed.

(* ===================================================================== *)
(** ** C1: value domains of the generated columns *)
(* ===================================================================== *)

Lemma int_column_in_range (d := 0%nat) (kl : Z) (lo : Q) (hi : option Q) (raw : Np.ndarray) :
  lo == inject_Z kl / Np.pow10 d ->
  match hi with
  | Some h => lo <= h /\ exists kh, h == inject_Z kh / Np.pow10 d
  | None => True
  end ->
  forallb (Pd.in_range lo hi)
    (Pd.values (App.int_column
       (Np.lift1 (Np.round d) (Np.lift1 (Np.clip (Some lo) hi) raw)))) = true.
Proof.
  intros El Hh. unfold App.int_column, Np.lift1. cbn [Pd.values].
  rewrite !map_map. apply forallb_map. intros x.
  destruct hi as [h|].
  - destruct Hh as [LH [kh Eh]].
    destruct (clip_round_between d kl kh lo h x El Eh LH).
    now apply in_range_Int_round0.
  - apply in_range_Int_round0; [|exact I]. now apply clip_round_lower with kl.
Qed.

Lemma float_column_in_range (d : nat) (kl : Z) (lo : Q) (hi : option Q) (raw : Np.ndarray) :
  lo == inject_Z kl / Np.pow10 d ->
  match hi with
  | Some h => lo <= h /\ exists kh, h == inject_Z kh / Np.pow10 d
  | None => True
  end ->
  forallb (Pd.in_range lo hi)
    (Pd.values (App.float_column
       (Np.lift1 (Np.round d) (Np.lift1 (Np.clip (Some lo) hi) raw)))) = true.
Proof.
  intros El Hh. unfold App.float_column, Np.lift1. cbn [Pd.values].
  rewrite !map_map. apply forallb_map. intros x.
  destruct hi as [h|].
  - destruct Hh as [LH [kh Eh]].
    destruct (clip_round_between d kl kh lo h x El Eh LH).
    now apply in_range_Float.
  - apply in_range_Float; [|exact I]. now apply clip_round_lower with kl.
Qed.

(** C1.  From every generator state (so after every seed) and for every
    row count [n], [generar_dataset n] returns a table in which each
    numeric column named by the specification is present, has [n] cells,
    and holds only numbers within its bounds: edad in [16,45], altura_cm
    in [150,210], peso_kg in [45,120], minutos_jugados in [0,120], puntos,
    asistencias and rebotes at least 0, velocidad_max_kmh in [15,40],
    salario_miles_usd in [10,500]. *)
Theorem generar_dataset_within_bounds {R : NpRandom} {M : NpMath}
    (n : nat) (g : rstate) :
  exists df,
    fst (App.generar_dataset n g) = inr df /\
    forall name lo hi, In (name, lo, hi) Spec.limites ->
      exists s, Pd.column df name = Some s /\
                length (Pd.values s) = n /\
                forallb (Pd.in_range lo hi) (Pd.values s) = true.
Proof.
  destruct (generar_dataset_returns n g) as (c1 & c2 & c3 & c4 & c5 & c6 & c7 & _ & E).
  destruct (senales_clipped n g)
    as ([r1 E1] & [r2 E2] & [r3 E3] & [r4 E4] & [r5 E5] & [r6 E6] & [r7 E7]
        & [r8 E8] & [r9 E9]).
  destruct (senales_length n g) as (N1 & N2 & N3 & N4 & N5 & N6 & N7 & N8 & N9).
  eexists. split; [exact E|].
  intros name lo hi HIn. unfold Spec.limites in HIn. cbn [In] in HIn.
  repeat (destruct HIn as [HIn|HIn]; [inversion HIn; subst name lo hi; clear HIn|]);
    [..|contradiction];
    (eexists; split; [reflexivity|]; split;
      [unfold App.int_column, App.float_column; cbn [Pd.values];
       rewrite length_map; assumption|]).
  - rewrite E1. apply int_column_in_range with (kl := 16%Z);
      [reflexivity | split; [discriminate | exists 45%Z; reflexivity]].
  - rewrite E2. apply float_column_in_range with (kl := 1500%Z);
      [reflexivity | split; [discriminate | exists 2100%Z; reflexivity]].
  - rewrite E3. apply float_column_in_range with (kl := 450%Z);
      [reflexivity | split; [discriminate | exists 1200%Z; reflexivity]].
  - rewrite E4. apply int_column_in_range with (kl := 0%Z);
      [reflexivity | split; [discriminate | exists 120%Z; reflexivity]].
  - rewrite E5. apply int_column_in_range with (kl := 0%Z); [reflexivity | exact I].
  - rewrite E6. apply int_column_in_range with (kl := 0%Z); [reflexivity | exact I].
  - rewrite E7. apply int_column_in_range with (kl := 0%Z); [reflexivity | exact I].
  - rewrite E8. apply float_column_in_range with (kl := 150%Z);
      [reflexivity | split; [discriminate | exists 400%Z; reflexivity]].
  - rewrite E9. apply float_column_in_range with (kl := 100%Z);
      [reflexivity | split; [discriminate | exists 5000%Z; reflexivity]].
Qed.

Lemma generar_dataset_within_bounds_witness :
  exists df,
    fst (App.generar_dataset (R := Lcg.random) (M := Lcg.math) 3 42%Z) = inr df /\
    forall name lo hi, In (name, lo, hi) Spec.limites ->
      exists s, Pd.column df name = Some s /\
                length (Pd.values s) = 3%nat /\
                forallb (Pd.in_range lo hi) (Pd.values s) = true.
Proof.
  exact (generar_dataset_within_bounds (R := Lcg.random) (M := Lcg.math) 3 42%Z).
Defined.

(* ===================================================================== *)
(** ** C8: the generator is determined by the seed *)
(* ===================================================================== *)

Lemma np_random_seed_in_range {R : NpRandom} (s : Z) (g : rstate) :
  (0 <= s < 2 ^ 32)%Z -> np_random_seed s g = (inr tt, seed_state s).
Proof.
  intros [L H]. unfold np_random_seed.
  apply Z.leb_le in L. apply Z.ltb_lt in H. now rewrite L, H.
Qed.

Lemma np_random_seed_out_of_range {R : NpRandom} (s : Z) (g : rstate) :
  ~ (0 <= s < 2 ^ 32)%Z -> exists e, np_random_seed s g = (inl e, g).
Proof.
  intros N. unfold np_random_seed.
  destruct (0 <=? s)%Z eqn:L; destruct (s <? 2 ^ 32)%Z eqn:H; cbn [andb];
    try (eexists; reflexivity).
  apply Z.leb_le in L. apply Z.ltb_lt in H. exfalso. apply N. split; assumption.
Qed.

(** What seeding and then generating yields, for a seed numpy accepts. *)
Lemma generar_con_semilla_in_range {R : NpRandom} {M : NpMath}
    (s : Z) (n : nat) (g : rstate) :
  (0 <= s < 2 ^ 32)%Z ->
  fst (App.generar_con_semilla s n g) =
  ([], match fst (App.generar_dataset n (seed_state s)) with
       | inl e => inl (St.Raised e)
       | inr df => inr df
       end).
Proof.
  intros Hs. unfold App.generar_con_semilla, sbind, random.
  rewrite (np_random_seed_in_range s g Hs). cbn [call sret].
  destruct (App.generar_dataset n (seed_state s)) as [[e|df] g2]; reflexivity.
Qed.

(** C8.  Two runs that call [np.random.seed(s)] and then
    [generar_dataset(n)] end the same way whatever state the generator was
    in before each run: with the same table, cell for cell, or with the
    same exception for a seed numpy refuses; and for a seed in
    [0, 2^32 - 1] they do return a table. *)
Theorem generar_con_semilla_deterministic {R : NpRandom} {M : NpMath}
    (s : Z) (n : nat) (g1 g2 : rstate) :
  fst (App.generar_con_semilla s n g1) = fst (App.generar_con_semilla s n g2) /\
  ((0 <= s < 2 ^ 32)%Z ->
   exists df, fst (App.generar_con_semilla s n g1) = ([], inr df) /\ Pd.len df = n).
Proof.
  split.
  - destruct (Z_le_dec 0 s) as [L|NL]; [destruct (Z_lt_dec s (2 ^ 32)) as [H|NH]|].
    + now rewrite !generar_con_semilla_in_range by (split; assumption).
    + destruct (np_random_seed_out_of_range s g1) as [e1 E1]; [lia|].
      destruct (np_random_seed_out_of_range s g2) as [e2 E2]; [lia|].
      unfold App.generar_con_semilla, sbind, random. rewrite E1, E2. cbn.
      unfold np_random_seed in E1, E2.
      destruct ((0 <=? s)%Z && (s <? 2 ^ 32)%Z); congruence.
    + destruct (np_random_seed_out_of_range s g1) as [e1 E1]; [lia|].
      destruct (np_random_seed_out_of_range s g2) as [e2 E2]; [lia|].
      unfold App.generar_con_semilla, sbind, random. rewrite E1, E2. cbn.
      unfold np_random_seed in E1, E2.
      destruct ((0 <=? s)%Z && (s <? 2 ^ 32)%Z); congruence.
  - intros Hs. rewrite generar_con_semilla_in_range by exact Hs.
    destruct (generar_dataset_returns n (seed_state s))
      as (c1 & c2 & c3 & c4 & c5 & c6 & c7 & _ & E).
    rewrite E. eexists. split; [reflexivity|].
    unfold Pd.len. cbn [Pd.index]. apply length_seq.
Qed.

Lemma generar_con_semilla_deterministic_witness :
  fst (App.generar_con_semilla (R := Lcg.random) (M := Lcg.math) 42 3 7%Z) =
  fst (App.generar_con_semilla (R := Lcg.random) (M := Lcg.math) 42 3 99%Z) /\
  exists df,
    fst (App.generar_con_semilla (R := Lcg.random) (M := Lcg.math) 42 3 7%Z)
      = ([], inr df) /\ Pd.len df = 3%nat.
Proof.
  destruct (generar_con_semilla_deterministic
              (R := Lcg.random) (M := Lcg.math) 42 3 7%Z 99%Z) as [E T].
  split; [exact E | apply T; lia].
Defined.

(* ===================================================================== *)
(** ** C3: the step structure of the correlated columns *)
(* ===================================================================== *)




Ltac step_draws_eq :=
  match goal with
  | |- context [draws ?d ?n ?g] =>
      let L := fresh "L" in let E := fresh "E" in
      pose proof (draws_length d n g) as L;
      destruct (draws d n g) as [? ?] eqn:E; cbn [fst] in L;
      apply (f_equal fst) in E; cbn [fst] in E
  end.





(* ===================================================================== *)
(** ** C6 and C10: date detection, column by column *)
(* ===================================================================== *)

(** What the loop does to one column of a table of [n] rows. *)
Definition parsed_column {T : PandasText} (dayfirst : bool) (n : nat)
    (c : string * Pd.Series) : string * Pd.Series :=
  match Pd.dtype (snd c) with
  | Pd.object_ =>
      match to_datetime (snd c) dayfirst with
      | inr parsed =>
          if (length (Pd.values parsed) =? n)%nat then (fst c, parsed) else c
      | inl _ => c
      end
  | _ => c
  end.

Lemma parsed_column_label {T : PandasText} (dayfirst : bool) (n : nat) c :
  fst (parsed_column dayfirst n c) = fst c.
Proof.
  unfold parsed_column. destruct (Pd.dtype (snd c)); try reflexivity.
  destruct (to_datetime (snd c) dayfirst); try reflexivity.
  now destruct (_ =? _)%nat.
Qed.

Lemma filter_none_of_label (k : string) (cols : list (string * Pd.Series)) :
  ~ In k (map fst cols) ->
  filter (fun c => String.eqb (fst c) k) cols = [].
Proof.
  induction cols as [|[k' s] cols IH]; cbn; intros N; [reflexivity|].
  destruct (String.eqb_spec k' k) as [->|Ne]; [tauto|]. apply IH. tauto.
Qed.

Lemma replace_none_of_label (k : string) (s' : Pd.Series) (cols : list (string * Pd.Series)) :
  ~ In k (map fst cols) ->
  map (fun c => if String.eqb (fst c) k then (fst c, s') else c) cols = cols.
Proof.
  induction cols as [|[k' s] cols IH]; cbn; intros N; [reflexivity|].
  destruct (String.eqb_spec k' k) as [->|Ne]; [tauto|]. rewrite IH; tauto.
Qed.

(** With distinct labels, [df2[k]] is the one column labelled [k]. *)
Lemma getitem_unique (idx : list nat) (done todo : list (string * Pd.Series))
    (k : string) (s : Pd.Series) :
  NoDup (map fst (done ++ (k, s) :: todo)) ->
  Pd.getitem (Pd.mkDF idx (done ++ (k, s) :: todo)) k = Pd.OneColumn s.
Proof.
  intros ND. rewrite map_app in ND. cbn in ND.
  pose proof (NoDup_remove_2 _ _ _ ND) as NI.
  unfold Pd.getitem. cbn [Pd.columns]. rewrite filter_app. cbn [filter fst].
  rewrite String.eqb_refl.
  rewrite !filter_none_of_label; [reflexivity| |];
    intros HIn; apply NI; apply in_or_app; tauto.
Qed.

Lemma setitem_unique (idx : list nat) (done todo : list (string * Pd.Series))
    (k : string) (s s' : Pd.Series) :
  NoDup (map fst (done ++ (k, s) :: todo)) ->
  Pd.setitem (Pd.mkDF idx (done ++ (k, s) :: todo)) k s' =
  if (length (Pd.values s') =? length idx)%nat
  then inr (Pd.mkDF idx (done ++ (k, s') :: todo))
  else inl (ValueError "Length of values does not match length of index").
Proof.
  intros ND. rewrite map_app in ND. cbn in ND.
  pose proof (NoDup_remove_2 _ _ _ ND) as NI.
  unfold Pd.setitem, Pd.len. cbn [Pd.columns Pd.index].
  destruct (_ =? _)%nat; [|reflexivity].
  rewrite map_app. cbn [map fst]. rewrite String.eqb_refl.
  rewrite !replace_none_of_label; [reflexivity| |];
    intros HIn; apply NI; apply in_or_app; tauto.
Qed.

(** The loop in closed form: over distinct labels it returns, and each
    column is [parsed_column] of the input column. *)
Lemma parsear_columnas_closed {T : PandasText} (dayfirst : bool) (idx : list nat)
    (todo done : list (string * Pd.Series)) :
  NoDup (map fst (done ++ todo)) ->
  App2.parsear_columnas dayfirst (map fst todo) (Pd.mkDF idx (done ++ todo)) =
  inr (Pd.mkDF idx (done ++ map (parsed_column dayfirst (length idx)) todo)).
Proof.
  revert done. induction todo as [|[k s] todo IH]; intros done ND; [reflexivity|].
  cbn [map fst App2.parsear_columnas].
  rewrite (getitem_unique idx done todo k s ND).
  assert (Next : forall s',
    NoDup (map fst ((done ++ [(k, s')]) ++ todo)) /\
    (done ++ [(k, s')]) ++ todo = done ++ (k, s') :: todo).
  { intros s'. rewrite <- app_assoc. cbn. split; [|reflexivity].
    rewrite map_app in *. exact ND. }
  assert (Keep :
    App2.parsear_columnas dayfirst (map fst todo) (Pd.mkDF idx (done ++ (k, s) :: todo)) =
    inr (Pd.mkDF idx (done ++ (k, s) :: map (parsed_column dayfirst (length idx)) todo))).
  { destruct (Next s) as [ND' E']. rewrite <- E'. rewrite IH by exact ND'.
    now rewrite <- app_assoc. }
  unfold parsed_column at 1. cbn [snd fst].
  destruct (Pd.dtype s); try exact Keep.
  destruct (to_datetime s dayfirst) as [e|parsed]; [exact Keep|].
  rewrite (setitem_unique idx done todo k s parsed ND).
  destruct (_ =? _)%nat; [|exact Keep].
  destruct (Next parsed) as [ND' E']. rewrite <- E'. rewrite IH by exact ND'.
  now rewrite <- app_assoc.
Qed.

Lemma detectar_closed {T : PandasText} (df : Pd.DataFrame) (dayfirst : bool) :
  NoDup (Pd.names df) ->
  App2.detectar_y_parsear_fechas df dayfirst =
  inr (Pd.mkDF (Pd.index df)
         (map (parsed_column dayfirst (Pd.len df)) (Pd.columns df))).
Proof.
  intros ND. unfold App2.detectar_y_parsear_fechas, Pd.copy, Pd.names.
  destruct df as [idx cols]. cbn [Pd.columns Pd.index Pd.len] in *.
  exact (parsear_columnas_closed dayfirst idx cols [] ND).
Qed.

(** How many columns carry the label [k]. *)
Definition occurrences (k : string) (cols : list (string * Pd.Series)) : nat :=
  length (filter (fun c => String.eqb (fst c) k) cols).

Lemma occurrences_labels (k : string) (cols cols' : list (string * Pd.Series)) :
  map fst cols = map fst cols' -> occurrences k cols = occurrences k cols'.
Proof.
  unfold occurrences. revert cols'.
  induction cols as [|[a s] cols IH]; intros [|[a' s'] cols'] E; cbn in *;
    try discriminate; [reflexivity|].
  injection E as -> E. destruct (String.eqb a' k); cbn; now rewrite (IH cols').
Qed.

Lemma setitem_labels (df df3 : Pd.DataFrame) (k : string) (s : Pd.Series) :
  Pd.setitem df k s = inr df3 -> map fst (Pd.columns df3) = map fst (Pd.columns df).
Proof.
  unfold Pd.setitem. destruct (_ =? _)%nat; [|discriminate].
  intros E. injection E as <-. cbn [Pd.columns]. rewrite map_map.
  apply map_ext. intros [a x]. cbn. now destruct (String.eqb a k).
Qed.

Lemma in_labels_occurs (k : string) (cols : list (string * Pd.Series)) :
  In k (map fst cols) -> (1 <= occurrences k cols)%nat.
Proof.
  unfold occurrences. induction cols as [|[a s] cols IH]; cbn; [tauto|].
  intros [->|H].
  - rewrite String.eqb_refl. cbn. lia.
  - destruct (String.eqb a k); cbn; [lia | auto].
Qed.

(** A label carried by two columns stops the loop: [df2[col].dtype] is
    asked of a DataFrame. *)
Lemma parsear_columnas_repeated {T : PandasText} (dayfirst : bool)
    (cols : list string) (df2 : Pd.DataFrame) :
  (exists k, In k cols /\ (2 <= occurrences k (Pd.columns df2))%nat) ->
  exists e, App2.parsear_columnas dayfirst cols df2 = inl e.
Proof.
  revert df2. induction cols as [|col rest IH]; intros df2 [k [HIn Hk]];
    [destruct HIn|].
  cbn [App2.parsear_columnas]. unfold Pd.getitem.
  destruct (filter (fun c => String.eqb (fst c) col) (Pd.columns df2))
    as [|[a s] [|c2 more]] eqn:F; try (eexists; reflexivity).
  assert (One : occurrences col (Pd.columns df2) = 1%nat)
    by (unfold occurrences; now rewrite F).
  assert (HIn' : In k rest).
  { destruct HIn as [->|H]; [lia | exact H]. }
  assert (Go : forall df3, map fst (Pd.columns df3) = map fst (Pd.columns df2) ->
                exists e, App2.parsear_columnas dayfirst rest df3 = inl e).
  { intros df3 E. apply IH. exists k. split; [exact HIn'|].
    now rewrite (occurrences_labels k _ _ E). }
  destruct (Pd.dtype s); try (apply Go; reflexivity).
  destruct (to_datetime s dayfirst) as [e|parsed]; [apply Go; reflexivity|].
  destruct (Pd.setitem df2 col parsed) as [e|df3] eqn:S; [apply Go; reflexivity|].
  apply Go. now apply setitem_labels in S.
Qed.

Lemma repeated_label (cols : list (string * Pd.Series)) :
  ~ NoDup (map fst cols) ->
  exists k, In k (map fst cols) /\ (2 <= occurrences k cols)%nat.
Proof.
  induction cols as [|[a s] cols IH]; intros N; [destruct N; constructor|].
  cbn [map fst] in *.
  destruct (in_dec string_dec a (map fst cols)) as [HIn|HNot].
  - exists a. split; [now left|].
    apply in_labels_occurs in HIn. unfold occurrences in *. cbn.
    rewrite String.eqb_refl. cbn. lia.
  - destruct IH as [k [HIn Hk]].
    + intros ND. apply N. now constructor.
    + exists k. split; [now right|].
      unfold occurrences in *. cbn. destruct (String.eqb a k); cbn; lia.
Qed.

(** The function returns exactly on tables whose labels are distinct. *)
Lemma detectar_returns_iff_distinct {T : PandasText} (df : Pd.DataFrame) (dayfirst : bool) :
  (exists df2, App2.detectar_y_parsear_fechas df dayfirst = inr df2) <->
  NoDup (Pd.names df).
Proof.
  split.
  - intros [df2 E].
    destruct (NoDup_dec string_dec (Pd.names df)) as [ND|N]; [exact ND|].
    exfalso. destruct (repeated_label _ N) as [k Hk].
    destruct (parsear_columnas_repeated dayfirst (Pd.names df) (Pd.copy df)) as [e E'].
    + exists k. exact Hk.
    + unfold App2.detectar_y_parsear_fechas in E. cbv zeta in E.
      unfold Pd.copy, Pd.names in E, E'. rewrite E' in E. discriminate.
  - intros ND. eexists. now apply detectar_closed.
Qed.

(** C6.  On every table the function returns on, every column keeps its
    place and label; an object column whose [pd.to_datetime] raises is
    returned exactly as it was; and a returned column differs from the
    input column only if the input column is an object column whose parse
    as a whole succeeded, the returned column being that parse. *)
Theorem detectar_swallows_parse_errors {T : PandasText}
    (df df2 : Pd.DataFrame) (dayfirst : bool) :
  App2.detectar_y_parsear_fechas df dayfirst = inr df2 ->
  Pd.index df2 = Pd.index df /\
  Pd.names df2 = Pd.names df /\
  forall j k s, nth_error (Pd.columns df) j = Some (k, s) ->
    exists s2,
      nth_error (Pd.columns df2) j = Some (k, s2) /\
      (Pd.dtype s = Pd.object_ ->
       (exists e, to_datetime s dayfirst = inl e) -> s2 = s) /\
      (s2 <> s -> Pd.dtype s = Pd.object_ /\ to_datetime s dayfirst = inr s2).
Proof.
  intros E.
  assert (ND : NoDup (Pd.names df)).
  { apply (detectar_returns_iff_distinct df dayfirst). now exists df2. }
  rewrite (detectar_closed df dayfirst ND) in E. injection E as <-.
  cbn [Pd.index Pd.columns]. unfold Pd.names. cbn [Pd.columns].
  split; [reflexivity|]. split.
  - rewrite map_map. apply map_ext. intros c. apply parsed_column_label.
  - intros j k s Hj. rewrite nth_error_map, Hj. cbn [option_map].
    unfold parsed_column. cbn [fst snd].
    destruct (Pd.dtype s) eqn:D;
      try (exists s; split; [reflexivity|]; split; [reflexivity | congruence]).
    destruct (to_datetime s dayfirst) as [e|parsed] eqn:P.
    + exists s. split; [reflexivity|]. split; [reflexivity | congruence].
    + destruct (_ =? _)%nat.
      * exists parsed. split; [reflexivity|]. split.
        -- intros _ [e He]. discriminate.
        -- intros _. split; reflexivity.
      * exists s. split; [reflexivity|]. split; [reflexivity | congruence].
Qed.

(** C10.  On every table the function returns on, a column whose dtype is
    not object is returned exactly as it was, in its place and under its
    label. *)
Theorem detectar_keeps_non_object_columns {T : PandasText}
    (df df2 : Pd.DataFrame) (dayfirst : bool) :
  App2.detectar_y_parsear_fechas df dayfirst = inr df2 ->
  forall j k s, nth_error (Pd.columns df) j = Some (k, s) ->
    Pd.dtype s <> Pd.object_ ->
    nth_error (Pd.columns df2) j = Some (k, s).
Proof.
  intros E j k s Hj Hd.
  assert (ND : NoDup (Pd.names df)).
  { apply (detectar_returns_iff_distinct df dayfirst). now exists df2. }
  rewrite (detectar_closed df dayfirst ND) in E. injection E as <-.
  cbn [Pd.columns]. rewrite nth_error_map, Hj. cbn [option_map].
  unfold parsed_column. cbn [fst snd].
  destruct (Pd.dtype s); congruence.
Qed.

Lemma detectar_swallows_parse_errors_witness :
  Pd.index Ejemplo.tabla_con_fechas = Pd.index Ejemplo.tabla_leida /\
  Pd.names Ejemplo.tabla_con_fechas = Pd.names Ejemplo.tabla_leida /\
  forall j k s, nth_error (Pd.columns Ejemplo.tabla_leida) j = Some (k, s) ->
    exists s2,
      nth_error (Pd.columns Ejemplo.tabla_con_fechas) j = Some (k, s2) /\
      (Pd.dtype s = Pd.object_ ->
       (exists e, Csv.to_datetime s true = inl e) -> s2 = s) /\
      (s2 <> s -> Pd.dtype s = Pd.object_ /\ Csv.to_datetime s true = inr s2).
Proof.
  apply (detectar_swallows_parse_errors (T := Csv.pandas_text)
           Ejemplo.tabla_leida Ejemplo.tabla_con_fechas true).
  vm_compute. reflexivity.
Defined.

Lemma detectar_keeps_non_object_columns_witness :
  nth_error (Pd.columns Ejemplo.tabla_con_fechas) 2 =
  Some ("puntos"%string, Pd.mkSeries Pd.int64 [Pd.Int 30; Pd.Int 12]).
Proof.
  apply (detectar_keeps_non_object_columns (T := Csv.pandas_text)
           Ejemplo.tabla_leida Ejemplo.tabla_con_fechas true).
  - vm_compute. reflexivity.
  - reflexivity.
  - discriminate.
Defined.

(* ===================================================================== *)
(** ** C5: a failed read is reported and ends the run *)
(* ===================================================================== *)

(** The head of the page of App2.py. *)
Definition cabecera2 : list St.element :=
  [ St.title "📊 EDA interactivo sobre CSV subido";
    St.caption
      "Sube tu archivo CSV y explóralo con un EDA interactivo: tablas, estadísticas, correlación y gráficas (barras, histograma, dispersión y pastel)." ].

Lemma leer_raises_with_read_csv {T : PandasText} (file : string) (inp : App2.Inputs) (e : exn) :
  read_csv file (App2.opciones inp) = inl e -> App2.leer file inp = inl e.
Proof. intros H. unfold App2.leer. now rewrite H. Qed.

(** Whatever the [try] block raises is shown and ends the run. *)
Lemma script2_on_failure {R : NpRandom} {T : PandasText}
    (inp : App2.Inputs) (file : string) (e : exn) (g : rstate) :
  App2.uploaded inp = Some file ->
  App2.leer file inp = inl e ->
  run (App2.script inp) g =
  (cabecera2 ++ [St.error ("❌ Error leyendo el CSV: " ++ exn_str e)], St.Stopped).
Proof.
  intros U L. unfold App2.script, run, sbind, emit, st_stop. rewrite U, L.
  reflexivity.
Qed.

(** C5.  When [pd.read_csv] raises on the uploaded file, the run shows
    the title, the caption and one error message made of the fixed text
    followed by the text of the exception, then stops: nothing that shows
    data (table, statistics, chart, download) is rendered. *)
Theorem script2_read_csv_failure {R : NpRandom} {T : PandasText}
    (inp : App2.Inputs) (file : string) (e : exn) (g : rstate) :
  App2.uploaded inp = Some file ->
  read_csv file (App2.opciones inp) = inl e ->
  run (App2.script inp) g =
    (cabecera2 ++ [St.error ("❌ Error leyendo el CSV: " ++ exn_str e)], St.Stopped) /\
  forallb (fun x => negb (St.shows_data x)) (fst (run (App2.script inp) g)) = true.
Proof.
  intros U E.
  pose proof (script2_on_failure inp file e g U (leer_raises_with_read_csv file inp e E)) as H.
  split; [exact H|]. rewrite H. reflexivity.
Qed.

Lemma script2_read_csv_failure_witness :
  run (R := Lcg.random)
      (App2.script (T := Csv.pandas_text)
         (Ejemplo.entradas2 (Some Ejemplo.archivo_roto) ["a"%string] 0)) 0%Z =
    (cabecera2 ++ [St.error "❌ Error leyendo el CSV: Expected 2 fields in line 3, saw 3"],
     St.Stopped) /\
  forallb (fun x => negb (St.shows_data x))
    (fst (run (R := Lcg.random)
            (App2.script (T := Csv.pandas_text)
               (Ejemplo.entradas2 (Some Ejemplo.archivo_roto) ["a"%string] 0)) 0%Z)) = true.
Proof.
  apply (script2_read_csv_failure (R := Lcg.random) (T := Csv.pandas_text)
           (Ejemplo.entradas2 (Some Ejemplo.archivo_roto) ["a"%string] 0)
           Ejemplo.archivo_roto
           (ParserError "Expected 2 fields in line 3, saw 3") 0%Z).
  - reflexivity.
  - vm_compute. reflexivity.
Defined.

(* ===================================================================== *)
(** ** C7: an empty column selection *)
(* ===================================================================== *)

Definition cabecera : list St.element :=
  [ St.title "🏈 EDA con Datos Sintéticos de Deportes";
    St.caption
      "Genera un conjunto de datos deportivo simulado y realiza un análisis exploratorio interactivo." ].

Definition aviso_columnas : St.element :=
  St.warning "Selecciona al menos una columna en la barra lateral.".

Definition no_data (out : list St.element) : bool :=
  forallb (fun x => negb (St.shows_data x)) out.

(** App.py with nothing selected. *)
Lemma script_without_columns {R : NpRandom} {M : NpMath} {T : PandasText}
    (inp : App.Inputs) (g : rstate) :
  App.seleccion_columnas inp = [] ->
  (0 <= App.seed inp < 2 ^ 32)%Z ->
  run (App.script inp) g = (cabecera ++ [aviso_columnas], St.Stopped).
Proof.
  intros S Hs. unfold App.script, run. unfold sbind at 1 2 3. unfold emit at 1 2.
  pose proof (generar_con_semilla_in_range (App.seed inp) (App.n_filas inp) g Hs) as G.
  destruct (generar_dataset_returns (App.n_filas inp) (seed_state (App.seed inp)))
    as (c1 & c2 & c3 & c4 & c5 & c6 & c7 & _ & E).
  rewrite E in G.
  destruct (App.generar_con_semilla (App.seed inp) (App.n_filas inp) g)
    as [[out r] g1]. cbn [fst] in G. injection G as -> ->.
  rewrite S. cbn [length Nat.eqb]. unfold sbind, emit, st_stop. reflexivity.
Qed.

Lemma script_without_columns_any_seed {R : NpRandom} {M : NpMath} {T : PandasText}
    (inp : App.Inputs) (g : rstate) :
  App.seleccion_columnas inp = [] ->
  no_data (fst (run (App.script inp) g)) = true /\
  snd (run (App.script inp) g) <> St.Completed.
Proof.
  intros S.
  destruct (Z_le_dec 0 (App.seed inp)) as [L|NL];
    [destruct (Z_lt_dec (App.seed inp) (2 ^ 32)) as [H|NH]|].
  - rewrite script_without_columns by (auto; lia). split; [reflexivity | discriminate].
  - destruct (np_random_seed_out_of_range (App.seed inp) g) as [e E]; [lia|].
    unfold App.script, run, App.generar_con_semilla, sbind, emit, random.
    rewrite E. cbn. split; [reflexivity | discriminate].
  - destruct (np_random_seed_out_of_range (App.seed inp) g) as [e E]; [lia|].
    unfold App.script, run, App.generar_con_semilla, sbind, emit, random.
    rewrite E. cbn. split; [reflexivity | discriminate].
Qed.





(* ===================================================================== *)
(** ** C9: what [df.mask] keeps *)
(* ===================================================================== *)

Lemma cell_eqv_refl (c : Pd.cell) : Pd.cell_eqv c c.
Proof. destruct c; cbn; auto. reflexivity. Qed.

Lemma cell_eqv_upcast (d : Pd.Dtype) (c : Pd.cell) : Pd.cell_eqv (Pd.upcast d c) c.
Proof.
  destruct d, c; cbn; auto; reflexivity.
Qed.


Lemma mask_cells_length (d : Pd.Dtype) (cells : list Pd.cell) (m : list bool) :
  length (Pd.mask_cells d cells m) = Nat.min (length cells) (length m).
Proof.
  revert m. induction cells as [|c cells IH]; intros [|b m]; cbn; auto.
Qed.

Lemma mask_cells_nth (d : Pd.Dtype) (cells : list Pd.cell) (m : list bool)
    (i : nat) (c : Pd.cell) :
  nth_error cells i = Some c -> (i < length m)%nat ->
  nth_error (Pd.mask_cells d cells m) i =
  Some (if nth i m false then Pd.NA else Pd.upcast d c).
Proof.
  revert m i. induction cells as [|x cells IH]; intros [|b m] [|i]; cbn;
    intros H L; try discriminate; try lia.
  - now injection H as ->.
  - apply IH; [exact H | lia].
Qed.

Lemma existsb_false_nth (m : list bool) (i : nat) :
  existsb (fun b => b) m = false -> nth i m false = false.
Proof.
  revert i. induction m as [|b m IH]; intros [|i]; cbn; auto.
  - now destruct b.
  - destruct b; [discriminate | apply IH].
Qed.

(** One column: length kept, each cell either masked or equal in value. *)
Lemma mask_series_cells (s : Pd.Series) (m : list bool) :
  length m = length (Pd.values s) ->
  length (Pd.values (Pd.mask_series s m)) = length (Pd.values s) /\
  forall i c, nth_error (Pd.values s) i = Some c ->
    exists c', nth_error (Pd.values (Pd.mask_series s m)) i = Some c' /\
      (nth i m false = false -> Pd.cell_eqv c' c) /\
      (nth i m false = true -> c' = Pd.NA).
Proof.
  intros L. unfold Pd.mask_series.
  destruct (existsb (fun b => b) m) eqn:Any; cbn [Pd.values].
  - split; [rewrite mask_cells_length; lia|].
    intros i c Hc.
    assert (Hi : (i < length m)%nat).
    { rewrite L. apply nth_error_Some. congruence. }
    rewrite (mask_cells_nth _ _ _ _ _ Hc Hi).
    eexists. split; [reflexivity|].
    destruct (nth i m false); split; intros; try discriminate;
      auto using cell_eqv_upcast.
  - split; [reflexivity|].
    intros i c Hc. exists c. split; [exact Hc|].
    rewrite (existsb_false_nth m i Any).
    split; intros; [apply cell_eqv_refl | discriminate].
Qed.

Lemma mask_columns_nth (cols : list (string * Pd.Series)) (cond : list (list bool))
    (k j : nat) :
  nth_error (Pd.mask_columns cols cond k) j =
  option_map (fun c => (fst c, Pd.mask_series (snd c) (Pd.matrix_column cond (k + j))))
             (nth_error cols j).
Proof.
  revert k j. induction cols as [|[name s] cols IH]; intros k [|j]; cbn; auto.
  - now rewrite Nat.add_0_r.
  - rewrite IH. now rewrite Nat.add_succ_r.
Qed.

Lemma mask_columns_labels (cols : list (string * Pd.Series)) (cond : list (list bool))
    (k : nat) :
  map fst (Pd.mask_columns cols cond k) = map fst cols.
Proof.
  revert k. induction cols as [|[name s] cols IH]; intros k; cbn; [reflexivity|].
  now rewrite IH.
Qed.

Lemma matrix_column_nth (cond : list (list bool)) (i j : nat) :
  nth i (Pd.matrix_column cond j) false = nth j (nth i cond []) false.
Proof.
  unfold Pd.matrix_column. revert i.
  induction cond as [|row cond IH]; intros [|i]; cbn; auto; now destruct j.
Qed.

(** The entry of a Boolean matrix for row [i], column [j]. *)
Definition entry (cond : list (list bool)) (i j : nat) : bool :=
  nth j (nth i cond []) false.

(** [df.mask(cond)] on a well-formed table: it returns exactly when the
    shapes agree, keeps the row labels, the column labels and their order,
    and cell by cell either masks or keeps the value. *)
Lemma mask_frame (df df' : Pd.DataFrame) (cond : list (list bool)) :
  Pd.wf df ->
  Pd.mask df cond = inr df' ->
  Pd.index df' = Pd.index df /\
  Pd.names df' = Pd.names df /\
  Pd.wf df' /\
  forall i j c, Pd.iat df i j = Some c ->
    exists c', Pd.iat df' i j = Some c' /\
      (entry cond i j = false -> Pd.cell_eqv c' c) /\
      (entry cond i j = true -> c' = Pd.NA).
Proof.
  intros W E. unfold Pd.mask in E.
  destruct (Pd.same_shape df cond) eqn:Sh; [|discriminate]. injection E as <-.
  unfold Pd.same_shape in Sh. apply andb_prop in Sh as [Sr _].
  apply Nat.eqb_eq in Sr.
  assert (Lm : forall j, length (Pd.matrix_column cond j) = Pd.len df).
  { intros j. unfold Pd.matrix_column. now rewrite length_map. }
  unfold Pd.names, Pd.wf, Pd.iat, Pd.len in *. cbn [Pd.index Pd.columns].
  split; [reflexivity|]. split; [apply mask_columns_labels|]. split.
  - apply Forall_forall. intros [name s'] HIn.
    apply In_nth_error in HIn as [j Hj]. rewrite mask_columns_nth in Hj.
    destruct (nth_error (Pd.columns df) j) as [[name0 s]|] eqn:Hc; [|discriminate].
    cbn in Hj. injection Hj as <- <-. cbn [snd].
    rewrite Forall_forall in W. specialize (W _ (nth_error_In _ _ Hc)). cbn in W.
    destruct (mask_series_cells s (Pd.matrix_column cond j)) as [L _];
      [rewrite Lm; now rewrite W|]. now rewrite L.
  - intros i j c Hc. rewrite mask_columns_nth.
    destruct (nth_error (Pd.columns df) j) as [[name s]|] eqn:Hj; [|discriminate].
    cbn [option_map fst snd]. change (0 + j)%nat with j.
    rewrite Forall_forall in W. specialize (W _ (nth_error_In _ _ Hj)). cbn in W.
    destruct (mask_series_cells s (Pd.matrix_column cond j)) as [_ C];
      [rewrite Lm; now rewrite W|].
    destruct (C i c Hc) as [c' [H1 H2]]. exists c'. split; [exact H1|].
    unfold entry. rewrite <- matrix_column_nth. exact H2.
Qed.

Lemma mask_returns (df : Pd.DataFrame) (cond : list (list bool)) :
  length cond = Pd.len df ->
  Forall (fun row => length row = length (Pd.columns df)) cond ->
  exists df', Pd.mask df cond = inr df'.
Proof.
  intros L F. unfold Pd.mask, Pd.same_shape.
  apply Nat.eqb_eq in L. rewrite L.
  assert (B : forallb (fun row => (length row =? length (Pd.columns df))%nat) cond = true).
  { apply forallb_forall. intros row HIn. apply Nat.eqb_eq.
    rewrite Forall_forall in F. now apply F. }
  rewrite B. eexists. reflexivity.
Qed.

Lemma draws_Forall {R : NpRandom} {A} (P : A -> Prop) (d : Rnd A) (n : nat) (g : rstate) :
  (forall g', P (fst (d g'))) -> Forall P (fst (draws d n g)).
Proof.
  intros H. revert g. induction n as [|n IH]; intros g; [constructor|].
  cbn [draws]. unfold bind at 1. specialize (H g). destruct (d g) as [x g1].
  unfold bind. specialize (IH g1). destruct (draws d n g1) as [xs g2].
  cbn in *. now constructor.
Qed.

(** The matrix the scripts draw has the shape of the table. *)
Lemma drawn_mask_shape {R : NpRandom} (rows cols : nat) (p : Q) (g : rstate) :
  let cond := map (map (fun x => Qltb x p)) (fst (Comun.np_random_rand2 rows cols g)) in
  length cond = rows /\ Forall (fun row => length row = cols) cond.
Proof.
  cbv zeta. unfold Comun.np_random_rand2. split.
  - rewrite length_map. apply draws_length.
  - apply Forall_map.
    apply (draws_Forall (fun r : Np.ndarray => length (map (fun x => Qltb x p) r) = cols)).
    intros g'. rewrite length_map. unfold np_random_rand. apply draws_length.
Qed.

(** The matrix the injection step draws from the state [g]. *)
Definition mascara {R : NpRandom} (pct : Z) (df : Pd.DataFrame) (g : rstate)
  : list (list bool) :=
  map (map (fun x => Qltb x (inject_Z pct / 100)))
      (fst (Comun.np_random_rand2 (fst (Pd.shape df)) (snd (Pd.shape df)) g)).

(** The injection step of the scripts never raises; it renders nothing;
    for a positive percentage its result is [df.mask] of the matrix
    drawn. *)
Lemma inyectar_na_returns {R : NpRandom} (pct : Z) (df : Pd.DataFrame) (g : rstate) :
  exists df' g',
    Comun.inyectar_na pct df g = ([], inr df', g') /\
    ((pct <= 0)%Z -> df' = df) /\
    ((0 < pct)%Z -> Pd.mask df (mascara pct df g) = inr df').
Proof.
  unfold Comun.inyectar_na, mascara. destruct (0 <? pct)%Z eqn:P.
  - unfold sbind, random, call.
    pose proof (drawn_mask_shape (fst (Pd.shape df)) (snd (Pd.shape df))
                  (inject_Z pct / 100) g) as [L F].
    destruct (Comun.np_random_rand2 (fst (Pd.shape df)) (snd (Pd.shape df)) g)
      as [r g1]. cbn [fst] in L, F |- *.
    destruct (mask_returns df _ L F) as [df' E]. rewrite E.
    exists df', g1. unfold sret. split; [reflexivity|].
    split; [apply Z.ltb_lt in P; lia|]. intros _. reflexivity.
  - exists df, g. unfold sret. split; [reflexivity|]. split; [reflexivity|].
    apply Z.ltb_ge in P. lia.
Qed.





(* ===================================================================== *)
(** ** C2: row counts *)
(* ===================================================================== *)

Lemma set_nth_length (i v : nat) (x : list nat) : length (set_nth i v x) = length x.
Proof.
  revert i. induction x as [|a x IH]; intros [|i]; cbn; auto.
Qed.

Lemma swap_length (x : list nat) (i j : nat) : length (swap x i j) = length x.
Proof. unfold swap. now rewrite !set_nth_length. Qed.

Lemma shuffle_from_length {R : NpRandom} (i : nat) (x : list nat) (g : rstate) :
  length (fst (shuffle_from i x g)) = length x.
Proof.
  revert x g. induction i as [|i IH]; intros x g; [reflexivity|].
  cbn [shuffle_from]. unfold bind.
  destruct (randint1 0 (Z.of_nat (S (S i))) g) as [j g1].
  rewrite IH. apply swap_length.
Qed.

Lemma permutation_length {R : NpRandom} (n : nat) (g : rstate) :
  length (fst (permutation n g)) = n.
Proof. unfold permutation. rewrite shuffle_from_length. apply length_seq. Qed.

Lemma take_len (df : Pd.DataFrame) (positions : list nat) :
  Pd.len (Pd.take df positions) = length positions.
Proof. unfold Pd.len, Pd.take, Pd.take_list. cbn. apply length_map. Qed.

Lemma take_wf (df : Pd.DataFrame) (positions : list nat) : Pd.wf (Pd.take df positions).
Proof.
  unfold Pd.wf. rewrite take_len. unfold Pd.take. cbn [Pd.columns].
  apply Forall_map. apply Forall_forall. intros c _. cbn.
  unfold Pd.take_list. apply length_map.
Qed.

(** [df.sample(n=n, random_state=seed)] returns [n] rows when it returns,
    and it returns for a seed numpy accepts and [n] at most the number of
    rows. *)
Lemma sample_len {R : NpRandom} (df df' : Pd.DataFrame) (n : nat) (seed : Z) :
  sample df n seed = inr df' -> Pd.len df' = n /\ Pd.wf df'.
Proof.
  unfold sample. destruct (negb _); [discriminate|].
  destruct (Pd.len df <? n)%nat eqn:L; [discriminate|].
  intros E. injection E as <-. split; [|apply take_wf].
  rewrite take_len. apply firstn_length_le. rewrite permutation_length.
  apply Nat.ltb_ge in L. exact L.
Qed.

Lemma sample_returns {R : NpRandom} (df : Pd.DataFrame) (n : nat) (seed : Z) :
  (0 <= seed < 2 ^ 32)%Z -> (n <= Pd.len df)%nat ->
  exists df', sample df n seed = inr df'.
Proof.
  intros [L H] Hn. unfold sample.
  apply Z.leb_le in L. apply Z.ltb_lt in H. rewrite L, H. cbn [andb negb].
  apply Nat.ltb_ge in Hn. rewrite Hn. eexists. reflexivity.
Qed.

(** Line 74 of App2.py under the contract of the slider: a sample size
    that does not exceed [max_muestra]. *)
Lemma muestrear_len {R : NpRandom} (df_all df_sampled : Pd.DataFrame) (tam : nat) (semilla : Z) :
  (tam <= App2.max_muestra df_all)%nat ->
  App2.muestrear df_all tam semilla = inr df_sampled ->
  Pd.len df_sampled = tam.
Proof.
  unfold App2.max_muestra, App2.muestrear. intros Ht.
  destruct (tam <? Pd.len df_all)%nat eqn:L.
  - intros E. now apply sample_len in E.
  - intros E. injection E as <-. unfold Pd.copy.
    apply Nat.ltb_ge in L. lia.
Qed.

Lemma muestrear_returns {R : NpRandom} (df_all : Pd.DataFrame) (tam : nat) (semilla : Z) :
  (0 <= semilla < 2 ^ 32)%Z ->
  exists df_sampled, App2.muestrear df_all tam semilla = inr df_sampled.
Proof.
  intros Hs. unfold App2.muestrear.
  destruct (tam <? Pd.len df_all)%nat eqn:L.
  - apply sample_returns; [exact Hs|]. apply Nat.ltb_lt in L. lia.
  - eexists. reflexivity.
Qed.

(** C2.  (a) From every generator state [generar_dataset n] returns a
    table of exactly [n] rows, every column holding [n] cells.  (b) In
    App2.py, for a sample size that the slider can return (at most
    [max_muestra]), the table after sampling has exactly that many rows
    whenever sampling returns, and it returns for every seed numpy
    accepts.  (c) The injection of missing values returns a table with the
    row count of its input. *)
Theorem row_count_is_sample_size {R : NpRandom} {M : NpMath}
    (n : nat) (g : rstate)
    (df_all : Pd.DataFrame) (tam : nat) (semilla : Z)
    (pct : Z) (df : Pd.DataFrame) :
  (exists made, fst (App.generar_dataset n g) = inr made /\
                Pd.len made = n /\ Pd.wf made) /\
  ((tam <= App2.max_muestra df_all)%nat ->
     (forall df_sampled, App2.muestrear df_all tam semilla = inr df_sampled ->
                         Pd.len df_sampled = tam) /\
     ((0 <= semilla < 2 ^ 32)%Z ->
      exists df_sampled, App2.muestrear df_all tam semilla = inr df_sampled)) /\
  (exists df' g', Comun.inyectar_na pct df g = ([], inr df', g') /\
                  Pd.len df' = Pd.len df).
Proof.
  split; [|split].
  - destruct (generar_dataset_returns n g) as (c1 & c2 & c3 & c4 & c5 & c6 & c7 & F & E).
    destruct (senales_length n g) as (N1 & N2 & N3 & N4 & N5 & N6 & N7 & N8 & N9).
    eexists. split; [exact E|]. split; [apply length_seq|].
    unfold Pd.wf, Pd.len. cbn [Pd.index Pd.columns]. rewrite length_seq.
    inversion_clear F as [|? ? F1 F']. inversion_clear F' as [|? ? F2 F''].
    inversion_clear F'' as [|? ? F3 F']. inversion_clear F' as [|? ? F4 F''].
    inversion_clear F'' as [|? ? F5 F']. inversion_clear F' as [|? ? F6 F''].
    inversion_clear F'' as [|? ? F7 _].
    unfold App.int_column, App.float_column.
    repeat constructor; cbn [snd Pd.values]; rewrite ?length_map; assumption.
  - intros Ht. split.
    + intros df_s E. now apply muestrear_len with df_all semilla.
    + intros Hs. now apply muestrear_returns.
  - destruct (inyectar_na_returns pct df g) as (df' & g' & E & Hle & Hlt).
    exists df', g'. split; [exact E|].
    destruct (Z_lt_dec 0 pct) as [P|P].
    + pose proof (Hlt P) as Mk. unfold Pd.mask in Mk.
      destruct (Pd.same_shape df _); [|discriminate]. now injection Mk as <-.
    + rewrite Hle by lia. reflexivity.
Qed.

Lemma row_count_is_sample_size_witness :
  (exists made,
     fst (App.generar_dataset (R := Lcg.random) (M := Lcg.math) 3 42%Z) = inr made /\
     Pd.len made = 3%nat /\ Pd.wf made) /\
  (forall df_sampled,
     App2.muestrear (R := Lcg.random) Ejemplo.tabla_codigos_leida 10 123 = inr df_sampled ->
     Pd.len df_sampled = 10%nat) /\
  (exists df_sampled,
     App2.muestrear (R := Lcg.random) Ejemplo.tabla_codigos_leida 10 123 = inr df_sampled) /\
  (exists df' g',
     Comun.inyectar_na (R := Lcg.random) 30 Ejemplo.tabla_con_fechas 42%Z
       = ([], inr df', g') /\
     Pd.len df' = Pd.len Ejemplo.tabla_con_fechas).
Proof.
  destruct (row_count_is_sample_size (R := Lcg.random) (M := Lcg.math)
              3 42%Z Ejemplo.tabla_codigos_leida 10 123 30 Ejemplo.tabla_con_fechas)
    as (A & B & C).
  assert (Ht : (10 <= App2.max_muestra Ejemplo.tabla_codigos_leida)%nat)
    by (vm_compute; lia).
  destruct (B Ht) as [B1 B2].
  split; [exact A|]. split; [exact B1|]. split; [apply B2; lia | exact C].
Defined.

(* ===================================================================== *)
(** ** C4: export, then import *)
(* ===================================================================== *)

(* --------------------------------------------------------------------- *)
(** *** Digits *)

Section Digits.
Local Open Scope N_scope.













End Digits.

(* --------------------------------------------------------------------- *)
(** *** Characters of a written number *)

Fixpoint all_digits (s : string) : bool :=
  match s with
  | EmptyString => true
  | String c rest =>
      match Text.digit_of_char c with
      | Some _ => all_digits rest
      | None => false
      end
  end.

Fixpoint occurs (c : ascii) (s : string) : bool :=
  match s with
  | EmptyString => false
  | String a rest => Ascii.eqb a c || occurs c rest
  end.


Lemma all_digits_app (a b : string) :
  all_digits (a ++ b) = all_digits a && all_digits b.
Proof.
  induction a as [|c a IH]; cbn; [reflexivity|].
  destruct (Text.digit_of_char c); [exact IH | reflexivity].
Qed.









(* --------------------------------------------------------------------- *)
(** *** Integers *)



(* --------------------------------------------------------------------- *)
(** *** Floats *)























(* --------------------------------------------------------------------- *)
(** *** Records: what the writer writes, the reader reads *)

Section Records.
Variable sep : ascii.
Hypothesis sep_not_quote : Ascii.eqb sep Csv.dquote = false.
Hypothesis sep_not_LF : Ascii.eqb sep Csv.LF = false.
Hypothesis sep_not_CR : Ascii.eqb sep Csv.CR = false.














End Records.

(* --------------------------------------------------------------------- *)
(** *** One column, written and read back *)



Lemma is_na_empty (opts : ReadOptions) : Csv.is_na opts EmptyString = true.
Proof. reflexivity. Qed.
















(* --------------------------------------------------------------------- *)
(** *** The whole table *)









(* --------------------------------------------------------------------- *)
(** *** Value counts *)






(** With two columns or more no line of the export is dropped. *)
Lemma keeps_lines_two_columns (df : Pd.DataFrame) :
  (2 <= length (Pd.columns df))%nat -> Csv.keeps_lines df = true.
Proof.
  intros H. unfold Csv.keeps_lines.
  assert (B : forall l : list string, (2 <= length l)%nat -> negb (Csv.blank l) = true).
  { intros [|a [|b l]] Hl; cbn in *; try lia; reflexivity. }
  cbn [forallb]. rewrite B by (unfold Pd.names; now rewrite length_map).
  cbn [andb]. apply forallb_forall. intros row HIn.
  apply in_map_iff in HIn as [i [<- _]]. apply B.
  unfold Csv.row_texts. now rewrite length_map.
Qed.





(* ===================================================================== *)
(** * Further properties of the two scripts *)
(* ===================================================================== *)

(* --------------------------------------------------------------------- *)
(** ** Pieces of script that leave the generator alone *)

Lemma renders_sret {R : NpRandom} {A} (x : A) : renders (sret x) [] (inr x).
Proof. intros g. reflexivity. Qed.

Lemma renders_emit {R : NpRandom} (e : St.element) : renders (emit e) [e] (inr tt).
Proof. intros g. reflexivity. Qed.

Lemma renders_stop {R : NpRandom} {A} : renders (st_stop (A := A)) [] (inl St.Stopped).
Proof. intros g. reflexivity. Qed.

Lemma renders_call {R : NpRandom} {A} (r : result A) :
  renders (call r) [] (match r with inl e => inl (St.Raised e) | inr x => inr x end).
Proof. intros g. destruct r; reflexivity. Qed.

Lemma renders_bind {R : NpRandom} {A B} (c : Script A) (k : A -> Script B)
    (out out2 : list St.element) (x : A) (r : St.ending + B) :
  renders c out (inr x) -> renders (k x) out2 r ->
  renders (sbind c k) (out ++ out2) r.
Proof. intros H1 H2 g. unfold sbind. now rewrite H1, H2. Qed.

Lemma renders_bind_ends {R : NpRandom} {A B} (c : Script A) (k : A -> Script B)
    (out : list St.element) (e : St.ending) :
  renders c out (inl e) -> renders (sbind c k) out (inl e).
Proof. intros H1 g. unfold sbind. now rewrite H1. Qed.

Lemma adds_no_table_sret {R : NpRandom} : adds_no_table (sret tt).
Proof. exists []. split; [apply renders_sret | reflexivity]. Qed.

Lemma adds_no_table_emit {R : NpRandom} (e : St.element) :
  plain_element e = true -> adds_no_table (emit e).
Proof. intros H. exists [e]. split; [apply renders_emit | cbn; now rewrite H]. Qed.

Lemma adds_no_table_bind {R : NpRandom} (c : Script unit) (k : unit -> Script unit) :
  adds_no_table c -> (forall x, adds_no_table (k x)) -> adds_no_table (sbind c k).
Proof.
  intros [out [H1 P1]] H2. destruct (H2 tt) as [out2 [H3 P2]].
  exists (out ++ out2). split.
  - now apply renders_bind with tt.
  - rewrite forallb_app. now rewrite P1, P2.
Qed.

Ltac no_table :=
  repeat first
    [ apply adds_no_table_sret
    | apply adds_no_table_emit; reflexivity
    | apply adds_no_table_bind; [|intros _]
    | match goal with
      | |- adds_no_table (if ?b then _ else _) => destruct b
      | |- adds_no_table (match ?x with _ => _ end) => destruct x
      end
    | progress cbv zeta ].

Lemma tablas_de_frecuencia_no_table {R : NpRandom} (df : Pd.DataFrame) (cols : list string) :
  adds_no_table (Comun.tablas_de_frecuencia df cols).
Proof.
  induction cols as [|c cols IH]; cbn [Comun.tablas_de_frecuencia]; no_table. exact IH.
Qed.

Lemma tab_resumen_no_table {R : NpRandom} (inp : App.Inputs) (df : Pd.DataFrame)
    (nums cats : list string) :
  adds_no_table (App.tab_resumen inp df nums cats).
Proof.
  unfold App.tab_resumen. no_table; apply tablas_de_frecuencia_no_table.
Qed.

Lemma tab_graficas_no_table {R : NpRandom} (inp : App.Inputs) (df : Pd.DataFrame)
    (nums cats : list string) :
  adds_no_table (App.tab_graficas inp df nums cats).
Proof. unfold App.tab_graficas. no_table. Qed.

Lemma tab_resumen2_no_table {R : NpRandom} (inp : App2.Inputs) (df : Pd.DataFrame)
    (nums cats : list string) :
  adds_no_table (App2.tab_resumen inp df nums cats).
Proof.
  unfold App2.tab_resumen. no_table; apply tablas_de_frecuencia_no_table.
Qed.

Lemma tab_graficas2_no_table {R : NpRandom} (inp : App2.Inputs) (df : Pd.DataFrame)
    (nums cats : list string) :
  adds_no_table (App2.tab_graficas inp df nums cats).
Proof. unfold App2.tab_graficas. no_table. Qed.

(* --------------------------------------------------------------------- *)
(** ** Selecting columns *)

Lemma dict_get_in (d : list (string * string)) (k : string) :
  In k (map fst d) -> exists v, App.dict_get d k = inr v /\ In (k, v) d.
Proof.
  induction d as [|[k' v'] d IH]; cbn; [tauto|]. intros H.
  destruct (String.eqb_spec k' k) as [->|Ne].
  - exists v'. split; [reflexivity | now left].
  - destruct H as [H|H]; [contradiction|].
    destruct (IH H) as [v [E HIn]]. exists v. split; [exact E | now right].
Qed.

(** [[d[k] for k in keys]] over keys of the dict. *)
Lemma dict_get_all_in (d : list (string * string)) (keys : list string) :
  Forall (fun k => In k (map fst d)) keys ->
  exists vs, App.dict_get_all d keys = inr vs /\
             Forall2 (fun k v => In (k, v) d) keys vs.
Proof.
  induction 1 as [|k keys Hk _ IH]; [exists []; split; [reflexivity | constructor]|].
  destruct (dict_get_in d k Hk) as [v [E HIn]]. destruct IH as [vs [Es F]].
  exists (v :: vs). cbn. rewrite E, Es. split; [reflexivity | now constructor].
Qed.

Lemma lookup_in (name : string) (cols : list (string * Pd.Series)) :
  In name (map fst cols) -> exists s, Pd.lookup name cols = Some s /\ In (name, s) cols.
Proof.
  induction cols as [|[k s] cols IH]; cbn; [tauto|]. intros H.
  destruct (String.eqb_spec k name) as [->|Ne].
  - exists s. split; [reflexivity | now left].
  - destruct H as [H|H]; [contradiction|].
    destruct (IH H) as [s' [E HIn]]. exists s'. split; [exact E | now right].
Qed.

(** [df[labels]] over labels of the table: the columns asked for, in the
    order asked for, each one a column of the table. *)
Lemma getitem_list_in (cols : list (string * Pd.Series)) (labels : list string) :
  Forall (fun l => In l (map fst cols)) labels ->
  exists picked, Pd.getitem_list cols labels = inr picked /\
                 map fst picked = labels /\
                 Forall (fun c => In c cols) picked.
Proof.
  induction 1 as [|l labels Hl _ IH].
  - exists []. repeat split. constructor.
  - destruct (lookup_in l cols Hl) as [s [E HIn]].
    destruct IH as [picked [Ep [Lb F]]].
    exists ((l, s) :: picked). cbn. rewrite E, Ep. split; [reflexivity|].
    split; [now rewrite Lb | now constructor].
Qed.

Lemma getitem_columns_in (df : Pd.DataFrame) (labels : list string) :
  Pd.wf df ->
  Forall (fun l => In l (Pd.names df)) labels ->
  exists picked, Pd.getitem_columns df labels = inr picked /\
                 Pd.index picked = Pd.index df /\
                 Pd.names picked = labels /\
                 Pd.wf picked /\
                 Forall (fun c => In c (Pd.columns df)) (Pd.columns picked).
Proof.
  intros W F. destruct (getitem_list_in (Pd.columns df) labels F) as [picked [E [Lb Fc]]].
  exists (Pd.mkDF (Pd.index df) picked). unfold Pd.getitem_columns. rewrite E.
  split; [reflexivity|]. split; [reflexivity|]. split; [exact Lb|]. split; [|exact Fc].
  unfold Pd.wf, Pd.len in *. cbn [Pd.index Pd.columns].
  rewrite Forall_forall in *. intros c Hc. apply W. now apply Fc.
Qed.

(** A label the table does not have raises [KeyError] with that label. *)
Lemma getitem_list_missing (cols : list (string * Pd.Series)) (before after : list string)
    (l : string) :
  Forall (fun x => In x (map fst cols)) before ->
  ~ In l (map fst cols) ->
  Pd.getitem_list cols (before ++ l :: after) = inl (KeyError l).
Proof.
  intros F N. induction F as [|x before Hx _ IH]; cbn.
  - assert (E : Pd.lookup l cols = None).
    { clear -N. induction cols as [|[k s] cols IH]; cbn in *; [reflexivity|].
      destruct (String.eqb_spec k l) as [->|Ne]; [tauto|]. apply IH. tauto. }
    now rewrite E.
  - destruct (lookup_in x cols Hx) as [s [E _]]. now rewrite E, IH.
Qed.

(* --------------------------------------------------------------------- *)
(** ** Running a script piece by piece *)

Lemma run_bind_inr {R : NpRandom} {A} (c : Script A) (k : A -> Script unit)
    (g g1 : rstate) (out : list St.element) (x : A) :
  c g = (out, inr x, g1) ->
  run (sbind c k) g = (out ++ fst (run (k x) g1), snd (run (k x) g1)).
Proof.
  intros E. unfold run, sbind. rewrite E.
  destruct (k x g1) as [[out2 [e|u]] g2]; reflexivity.
Qed.

Lemma run_bind_inl {R : NpRandom} {A} (c : Script A) (k : A -> Script unit)
    (g g1 : rstate) (out : list St.element) (e : St.ending) :
  c g = (out, inl e, g1) -> run (sbind c k) g = (out, e).
Proof. intros E. unfold run, sbind. now rewrite E. Qed.

Lemma run_renders {R : NpRandom} (c : Script unit) (out : list St.element) (g : rstate) :
  renders c out (inr tt) -> run c g = (out, St.Completed).
Proof. intros H. unfold run. now rewrite H. Qed.

(** One more line of the script. *)
Ltac run_emit :=
  match goal with
  | |- context [run (sbind (emit ?e) ?k) ?g] =>
      rewrite (run_bind_inr (emit e) k g g [e] tt eq_refl)
  end.

Ltac run_sret :=
  match goal with
  | |- context [run (sbind (sret ?x) ?k) ?g] =>
      rewrite (run_bind_inr (sret x) k g g [] x eq_refl)
  end.

Ltac run_raise :=
  match goal with
  | |- context [run (sbind (raise ?e) ?k) ?g] =>
      rewrite (run_bind_inl (raise e) k g g [] (St.Raised e) eq_refl)
  end.

Ltac run_with E :=
  match goal with
  | |- context [run (sbind ?c ?k) ?g] =>
      rewrite (run_bind_inr c k g _ _ _ E)
  end.

Lemma tablas_app (a b : list St.element) :
  Ejemplo.tablas (a ++ b) = Ejemplo.tablas a ++ Ejemplo.tablas b.
Proof.
  induction a as [|e a IH]; [reflexivity|]. destruct e; cbn; now rewrite ?IH.
Qed.

Lemma descargas_app (a b : list St.element) :
  Ejemplo.descargas (a ++ b) = Ejemplo.descargas a ++ Ejemplo.descargas b.
Proof.
  induction a as [|e a IH]; [reflexivity|]. destruct e; cbn; now rewrite ?IH.
Qed.

Lemma plain_elements_hold_no_table (out : list St.element) :
  forallb plain_element out = true ->
  Ejemplo.tablas out = [] /\ Ejemplo.descargas out = [].
Proof.
  induction out as [|e out IH]; [now split|]. cbn [forallb]. intros H.
  apply andb_prop in H as [He Ho]. destruct (IH Ho) as [I1 I2].
  destruct e; cbn in *; try discriminate; now split.
Qed.

(** The three tabs and the closing text of App.py over a working table:
    the run goes through them, and the one table and the one download
    among what they render are the working table and its CSV text. *)
Lemma page_of_table {R : NpRandom} {T : PandasText} (inp : App.Inputs) (df : Pd.DataFrame) :
  exists out,
    renders (sbind (App.tab_datos df) (fun _ =>
             sbind (App.tab_resumen inp df (Pd.select_number df) (Pd.select_not_number df))
               (fun _ =>
             sbind (App.tab_graficas inp df (Pd.select_number df) (Pd.select_not_number df))
               (fun _ => emit (St.markdown "Cómo usar"))))) out (inr tt) /\
    Ejemplo.tablas out = [df] /\ Ejemplo.descargas out = [to_csv df].
Proof.
  assert (Rest : adds_no_table
    (sbind (App.tab_resumen inp df (Pd.select_number df) (Pd.select_not_number df))
       (fun _ =>
     sbind (App.tab_graficas inp df (Pd.select_number df) (Pd.select_not_number df))
       (fun _ => emit (St.markdown "Cómo usar"))))).
  { apply adds_no_table_bind; [apply tab_resumen_no_table | intros _].
    apply adds_no_table_bind; [apply tab_graficas_no_table | intros _].
    now apply adds_no_table_emit. }
  destruct Rest as [out [H P]]. destruct (plain_elements_hold_no_table out P) as [P1 P2].
  eexists. split.
  - eapply renders_bind; [|exact H].
    unfold App.tab_datos.
    eapply renders_bind; [apply renders_emit|].
    eapply renders_bind; [apply renders_emit|]. apply renders_emit.
  - rewrite tablas_app, descargas_app, P1, P2. split; reflexivity.
Qed.


(* --------------------------------------------------------------------- *)
(** ** App.py: from the widgets to the page *)

(** The generated table: range index, the sixteen labels of the
    catalogue in its order, one cell per row in every column. *)
Lemma generar_dataset_table {R : NpRandom} {M : NpMath} (n : nat) (g : rstate) :
  exists df, fst (App.generar_dataset n g) = inr df /\
             Pd.index df = seq 0 n /\
             Pd.names df = map snd App.columnas_catalogo /\
             Pd.wf df.
Proof.
  destruct (generar_dataset_returns n g) as (c1 & c2 & c3 & c4 & c5 & c6 & c7 & F & E).
  destruct (senales_length n g) as (N1 & N2 & N3 & N4 & N5 & N6 & N7 & N8 & N9).
  eexists. split; [exact E|]. split; [reflexivity|]. split; [reflexivity|].
  unfold Pd.wf, Pd.len. cbn [Pd.index Pd.columns]. rewrite length_seq.
  inversion_clear F as [|? ? F1 F']. inversion_clear F' as [|? ? F2 F''].
  inversion_clear F'' as [|? ? F3 F']. inversion_clear F' as [|? ? F4 F''].
  inversion_clear F'' as [|? ? F5 F']. inversion_clear F' as [|? ? F6 F''].
  inversion_clear F'' as [|? ? F7 _].
  unfold App.int_column, App.float_column.
  repeat constructor; cbn [snd Pd.values]; rewrite ?length_map; assumption.
Qed.

(** Seeding and generating, for a seed numpy accepts: the state left
    behind is the one the generation leaves from the seeded state. *)
Lemma generar_con_semilla_runs {R : NpRandom} {M : NpMath} (s : Z) (n : nat) (g : rstate) :
  (0 <= s < 2 ^ 32)%Z ->
  exists df,
    fst (App.generar_dataset n (seed_state s)) = inr df /\
    App.generar_con_semilla s n g =
      ([], inr df, snd (App.generar_dataset n (seed_state s))).
Proof.
  intros Hs. destruct (generar_dataset_table n (seed_state s)) as (df & E & _).
  exists df. split; [exact E|].
  unfold App.generar_con_semilla, sbind, random.
  rewrite (np_random_seed_in_range s g Hs). cbn [call sret].
  destruct (App.generar_dataset n (seed_state s)) as [made g2]. cbn [fst snd] in *.
  now rewrite E.
Qed.

(** A seed numpy refuses ends the run at line 24, under the title and
    the caption. *)
Lemma script_seed_refused {R : NpRandom} {M : NpMath} {T : PandasText}
    (inp : App.Inputs) (g : rstate) :
  ~ (0 <= App.seed inp < 2 ^ 32)%Z ->
  run (App.script inp) g =
  (cabecera, St.Raised (ValueError "Seed must be between 0 and 2**32 - 1")).
Proof.
  intros N. unfold App.script. do 2 run_emit.
  rewrite (run_bind_inl _ _ g g [] (St.Raised (ValueError "Seed must be between 0 and 2**32 - 1"))).
  - reflexivity.
  - unfold App.generar_con_semilla, sbind, random, np_random_seed.
    destruct ((0 <=? App.seed inp)%Z && (App.seed inp <? 2 ^ 32)%Z) eqn:B; [|reflexivity].
    exfalso. apply N. apply andb_prop in B as [B1 B2].
    apply Z.leb_le in B1. apply Z.ltb_lt in B2. now split.
Qed.

Lemma values_of_selected_keys (keys cols : list string) :
  Forall2 (fun k v => In (k, v) App.columnas_catalogo) keys cols ->
  Forall (fun v => In v (map snd App.columnas_catalogo)) cols.
Proof.
  induction 1 as [|k v keys cols H _ IH]; constructor; [|exact IH].
  change v with (snd (k, v)). now apply in_map.
Qed.

(** App.py from the seeded generation on, for a seed numpy accepts and a
    non-empty selection of keys of the catalogue. *)
Lemma script_with_columns {R : NpRandom} {M : NpMath} {T : PandasText}
    (inp : App.Inputs) (g : rstate) :
  (0 <= App.seed inp < 2 ^ 32)%Z ->
  App.seleccion_columnas inp <> [] ->
  Forall (fun k => In k (map fst App.columnas_catalogo)) (App.seleccion_columnas inp) ->
  exists df_full cols picked df out g1 g2,
    fst (App.generar_dataset (App.n_filas inp) (seed_state (App.seed inp))) = inr df_full /\
    g1 = snd (App.generar_dataset (App.n_filas inp) (seed_state (App.seed inp))) /\
    App.dict_get_all App.columnas_catalogo (App.seleccion_columnas inp) = inr cols /\
    Pd.getitem_columns df_full cols = inr picked /\
    Comun.inyectar_na (App.pct_na inp) picked g1 = ([], inr df, g2) /\
    run (App.script inp) g = (cabecera ++ out, St.Completed) /\
    Ejemplo.tablas out = [df] /\
    Ejemplo.descargas out = [to_csv df] /\
    Pd.names picked = cols /\ Pd.index picked = seq 0 (App.n_filas inp) /\ Pd.wf picked.
Proof.
  intros Hs NE Keys.
  destruct (generar_con_semilla_runs (App.seed inp) (App.n_filas inp) g Hs) as (df_full & E & G).
  destruct (generar_dataset_table (App.n_filas inp) (seed_state (App.seed inp)))
    as (df0 & E0 & Ix & Nm & W).
  rewrite E in E0. injection E0 as <-.
  destruct (dict_get_all_in _ _ Keys) as (cols & Ec & F2).
  assert (Fc : Forall (fun l => In l (Pd.names df_full)) cols).
  { rewrite Nm. now apply values_of_selected_keys with (App.seleccion_columnas inp). }
  destruct (getitem_columns_in df_full cols W Fc) as (picked & Ep & Ipk & Npk & Wpk & _).
  set (g1 := snd (App.generar_dataset (App.n_filas inp) (seed_state (App.seed inp)))) in *.
  destruct (inyectar_na_returns (App.pct_na inp) picked g1) as (df & g2 & Ei & _ & _).
  destruct (page_of_table inp df) as (out & Ho & Tb & Dl).
  exists df_full, cols, picked, df, out, g1, g2.
  split; [exact E|]. split; [reflexivity|]. split; [exact Ec|]. split; [exact Ep|].
  split; [exact Ei|]. split.
  - unfold App.script. do 2 run_emit. run_with G.
    assert (Sel : (length (App.seleccion_columnas inp) =? 0)%nat = false).
    { destruct (App.seleccion_columnas inp); [congruence | reflexivity]. }
    rewrite Sel. run_sret.
    rewrite Ec. cbn [call]. run_sret.
    rewrite Ep. cbn [call]. run_sret.
    unfold Pd.copy. run_with Ei.
    cbv zeta. rewrite (run_renders _ out g2 Ho). reflexivity.
  - split; [exact Tb|]. split; [exact Dl|]. split; [exact Npk|].
    split; [now rewrite Ipk | exact Wpk].
Qed.

(** The injection step on a well-formed table: what it returns keeps the
    labels, the row labels and the well-formedness. *)
Lemma inyectar_na_shape {R : NpRandom} (pct : Z) (df df' : Pd.DataFrame) (g g' : rstate)
    (out : list St.element) :
  Pd.wf df ->
  Comun.inyectar_na pct df g = (out, inr df', g') ->
  Pd.index df' = Pd.index df /\ Pd.names df' = Pd.names df /\ Pd.wf df' /\
  ((pct <= 0)%Z -> df' = df).
Proof.
  intros W E. destruct (inyectar_na_returns pct df g) as (df1 & g1 & E1 & Hle & Hlt).
  rewrite E1 in E. injection E as _ <- _.
  destruct (Z_lt_dec 0 pct) as [P|P].
  - destruct (mask_frame df df1 _ W (Hlt P)) as (I & N & W' & _).
    repeat split; auto.
  - rewrite (Hle ltac:(lia)). repeat split; auto.
Qed.

(** X1.  The page of App.py shows the selection.  For a seed numpy accepts
    and a non-empty selection of catalogue keys, the run reaches its last
    line; it shows one table and offers one download, which is the CSV
    text of that very table; the table has the columns the catalogue maps
    the selected keys to, in the order selected, and [n_filas] rows; and
    with a percentage of 0 it is the selection of those columns from the
    table generated from the seed. *)
Theorem script_page_of_selection {R : NpRandom} {M : NpMath} {T : PandasText}
    (inp : App.Inputs) (g : rstate) :
  (0 <= App.seed inp < 2 ^ 32)%Z ->
  App.seleccion_columnas inp <> [] ->
  Forall (fun k => In k (map fst App.columnas_catalogo)) (App.seleccion_columnas inp) ->
  exists cols df out,
    App.dict_get_all App.columnas_catalogo (App.seleccion_columnas inp) = inr cols /\
    run (App.script inp) g = (out, St.Completed) /\
    Ejemplo.tablas out = [df] /\
    Ejemplo.descargas out = [to_csv df] /\
    Pd.names df = cols /\
    Pd.index df = seq 0 (App.n_filas inp) /\
    Pd.wf df /\
    ((App.pct_na inp <= 0)%Z ->
     exists df_full,
       fst (App.generar_dataset (App.n_filas inp) (seed_state (App.seed inp))) = inr df_full /\
       Pd.getitem_columns df_full cols = inr df).
Proof.
  intros Hs NE Keys.
  destruct (script_with_columns inp g Hs NE Keys)
    as (df_full & cols & picked & df & out & g1 & g2 & E & _ & Ec & Ep & Ei & Run & Tb & Dl
        & Npk & Ipk & Wpk).
  destruct (inyectar_na_shape _ _ _ _ _ _ Wpk Ei) as (I & N & W & Same).
  exists cols, df, (cabecera ++ out).
  split; [exact Ec|]. split; [exact Run|].
  split; [rewrite tablas_app; exact Tb|].
  split; [rewrite descargas_app; exact Dl|].
  split; [congruence|]. split; [congruence|]. split; [exact W|].
  intros P. exists df_full. split; [exact E|]. now rewrite (Same P).
Qed.

Lemma script_page_of_selection_witness :
  exists cols df out,
    App.dict_get_all App.columnas_catalogo ["edad (num)"; "deporte (cat)"]%string = inr cols /\
    run (R := Lcg.random)
        (App.script (M := Lcg.math) (T := Csv.pandas_text)
           (Ejemplo.entradas ["edad (num)"; "deporte (cat)"]%string 5)) 0%Z
      = (out, St.Completed) /\
    Ejemplo.tablas out = [df] /\
    Ejemplo.descargas out = [Csv.to_csv df] /\
    Pd.names df = cols /\
    Pd.index df = seq 0 3 /\
    Pd.wf df /\
    ((5 <= 0)%Z ->
     exists df_full,
       fst (App.generar_dataset (R := Lcg.random) (M := Lcg.math) 3 42%Z) = inr df_full /\
       Pd.getitem_columns df_full cols = inr df).
Proof.
  apply (script_page_of_selection (R := Lcg.random) (M := Lcg.math) (T := Csv.pandas_text)
           (Ejemplo.entradas ["edad (num)"; "deporte (cat)"]%string 5) 0%Z).
  - cbn; lia.
  - discriminate.
  - repeat constructor; cbn; tauto.
Defined.

(** X2.  The seed widget has no upper bound.  A seed numpy refuses, 2^32 or
    more, ends the run of App.py with numpy's [ValueError] at line 24:
    the page holds the title and the caption and nothing else, whatever
    the other widgets say. *)
Theorem script_refuses_large_seed {R : NpRandom} {M : NpMath} {T : PandasText}
    (inp : App.Inputs) (g : rstate) :
  (2 ^ 32 <= App.seed inp)%Z ->
  run (App.script inp) g =
    (cabecera, St.Raised (ValueError "Seed must be between 0 and 2**32 - 1")) /\
  no_data (fst (run (App.script inp) g)) = true.
Proof.
  intros H. rewrite script_seed_refused by lia. split; reflexivity.
Qed.

Lemma script_refuses_large_seed_witness :
  run (R := Lcg.random)
      (App.script (M := Lcg.math) (T := Csv.pandas_text)
         (App.mkInputs 4294967296 200 ["edad (num)"%string] 5 [] None None 25
            "" "" "" None)) 0%Z =
    (cabecera, St.Raised (ValueError "Seed must be between 0 and 2**32 - 1")) /\
  no_data (fst (run (R := Lcg.random)
      (App.script (M := Lcg.math) (T := Csv.pandas_text)
         (App.mkInputs 4294967296 200 ["edad (num)"%string] 5 [] None None 25
            "" "" "" None)) 0%Z)) = true.
Proof.
  apply (script_refuses_large_seed (R := Lcg.random) (M := Lcg.math) (T := Csv.pandas_text)).
  cbn. lia.
Defined.

Lemma run_bind_same {R : NpRandom} {A} (c : Script A) (k : A -> Script unit)
    (g g' : rstate) :
  c g = c g' -> run (sbind c k) g = run (sbind c k) g'.
Proof. intros E. unfold run, sbind. now rewrite E. Qed.

(** X3.  A run of App.py is a function of its widgets.  Because line 24
    seeds the generator before anything is drawn, the page and the way the
    run ends are the same from every state the generator may be in: the
    missing values injected at lines 131-134 fall on the same cells on
    every rerun. *)
Theorem script_ignores_generator_state {R : NpRandom} {M : NpMath} {T : PandasText}
    (inp : App.Inputs) (g g' : rstate) :
  run (App.script inp) g = run (App.script inp) g'.
Proof.
  destruct (Z_le_dec 0 (App.seed inp)) as [L|NL];
    [destruct (Z_lt_dec (App.seed inp) (2 ^ 32)) as [H|NH]|].
  - assert (Hs : (0 <= App.seed inp < 2 ^ 32)%Z) by lia.
    destruct (generar_con_semilla_runs (App.seed inp) (App.n_filas inp) g Hs) as (df & E & G).
    destruct (generar_con_semilla_runs (App.seed inp) (App.n_filas inp) g' Hs) as (df' & E' & G').
    rewrite E in E'. injection E' as <-.
    unfold App.script. do 4 run_emit. run_with G. run_with G'. reflexivity.
  - rewrite !script_seed_refused by lia. reflexivity.
  - rewrite !script_seed_refused by lia. reflexivity.
Qed.

(* --------------------------------------------------------------------- *)
(** ** App.py: the columns of the generated table *)

(** The table in closed form: the seven columns drawn at lines 102-108
    as functions of the draws, then the numeric signals. *)
Lemma generar_dataset_closed {R : NpRandom} {M : NpMath} (n : nat) (g : rstate) :
  let s := fst (App.senales n g) in
  exists (i1 i2 i3 i4 i5 : list Z) (r : Np.ndarray) (d : list Z),
    (exists g7, d = fst (draws (randint1 0 900) n g7)) /\
    Forall (fun l => length l = n) [i1; i2; i3; i4; i5; d] /\ length r = n /\
    fst (App.generar_dataset n g) =
    inr (Pd.mkDF (seq 0 n)
      [ ("deporte", App.str_column (chosen App.deportes i1));
        ("equipo", App.str_column (chosen App.equipos i2));
        ("posicion", App.str_column (chosen App.posiciones i3));
        ("pais", App.str_column (chosen App.paises i4));
        ("sexo", App.str_column (chosen App.sexo i5));
        ("lesionado",
          App.str_column (map (fun x => if Qltb x 0.15 then "Sí" else "No") r));
        ("fecha_partido",
          Pd.mkSeries Pd.datetime64 (map (fun x => Pd.Date (App.fecha_base + x)) d));
        ("edad", App.int_column (App.edad s));
        ("altura_cm", App.float_column (App.altura s));
        ("peso_kg", App.float_column (App.peso s));
        ("minutos_jugados", App.int_column (App.minutos s));
        ("puntos", App.int_column (App.puntos s));
        ("asistencias", App.int_column (App.asistencias s));
        ("rebotes", App.int_column (App.rebotes s));
        ("velocidad_max_kmh", App.float_column (App.velocidad s));
        ("salario_miles_usd", App.float_column (App.salario s)) ]%string).
Proof.
  intros s. pose proof (senales_length n g) as SL. fold s in SL.
  unfold App.generar_dataset. unfold bind at 1.
  subst s. destruct (App.senales n g) as [s g1]. cbn [fst] in *.
  unfold np_random_choice, np_random_rand, np_random_randint, bind, ret.
  repeat step_draws_eq. cbn [fst].
  unfold chosen.
  exists l, l0, l1, l2, l3, l4, l5.
  split; [eexists; symmetry; eassumption|].
  split; [repeat constructor; assumption|]. split; [assumption|].
  apply DataFrame_of_dict_ok with (n := n); [discriminate|].
  unfold App.int_column, App.float_column, App.str_column.
  repeat constructor; cbn [snd Pd.values]; rewrite ?length_map; intuition congruence.
Qed.

Lemma mem_In (x : string) (l : list string) : In x l -> Comun.mem x l = true.
Proof.
  intros H. unfold Comun.mem. apply existsb_exists. exists x.
  split; [exact H | apply String.eqb_refl].
Qed.

Lemma chosen_one_of (dom : list string) (idx : list Z) :
  dom <> [] -> forallb (one_of dom) (map Pd.Str (chosen dom idx)) = true.
Proof.
  intros NE. unfold chosen. rewrite map_map. apply forallb_map. intros i.
  cbn [one_of]. apply mem_In. apply nth_In. apply Nat.mod_upper_bound.
  destruct dom; [congruence | discriminate].
Qed.

(** X4.  The categorical columns hold nothing but the values of their
    lists.  From every state of the generator and for every [n], each of
    deporte, equipo, posicion, pais and sexo is a text column of [n] cells
    each of which is a string of the list the source draws it from, and
    lesionado is a text column of [n] cells each of which is "Sí" or
    "No": no cell of them is missing. *)
Theorem generar_dataset_categories {R : NpRandom} {M : NpMath} (n : nat) (g : rstate) :
  exists df,
    fst (App.generar_dataset n g) = inr df /\
    Forall (fun nd =>
              exists s, Pd.column df (fst nd) = Some s /\
                        Pd.dtype s = Pd.object_ /\
                        length (Pd.values s) = n /\
                        forallb (one_of (snd nd)) (Pd.values s) = true) dominios.
Proof.
  destruct (generar_dataset_closed n g)
    as (i1 & i2 & i3 & i4 & i5 & r & d & _ & F & Lr & E).
  inversion_clear F as [|? ? L1 F']. inversion_clear F' as [|? ? L2 F].
  inversion_clear F as [|? ? L3 F']. inversion_clear F' as [|? ? L4 F].
  inversion_clear F as [|? ? L5 _].
  eexists. split; [exact E|]. unfold dominios.
  repeat apply Forall_cons; try apply Forall_nil; cbn [fst snd]; eexists;
    (split; [reflexivity|]); (split; [reflexivity|]);
    unfold App.str_column; cbn [Pd.values];
    (split; [unfold chosen; rewrite ?length_map; assumption|]);
    try (apply chosen_one_of; discriminate).
  rewrite map_map. apply forallb_map. intros x. now destruct (Qltb x 0.15).
Qed.

(** X5.  The match dates fall within 900 days.  With a generator whose
    [randint(low, high)] returns an integer in [low, high), as numpy's
    does, fecha_partido is a datetime column of [n] cells, each a date
    from 2023-01-01 to 2025-06-18, none missing. *)
Theorem generar_dataset_dates {R : NpRandom} {M : NpMath} (n : nat) (g : rstate) :
  (forall lo hi g0, (lo < hi)%Z -> (lo <= fst (randint1 lo hi g0) < hi)%Z) ->
  exists df s,
    fst (App.generar_dataset n g) = inr df /\
    Pd.column df "fecha_partido" = Some s /\
    Pd.dtype s = Pd.datetime64 /\
    length (Pd.values s) = n /\
    Forall (fun c => exists day, c = Pd.Date day /\
                       (App.fecha_base <= day <= App.fecha_base + 899)%Z)
           (Pd.values s) /\
    Calendar.iso App.fecha_base = "2023-01-01"%string /\
    Calendar.iso (App.fecha_base + 899) = "2025-06-18"%string.
Proof.
  intros Hr.
  destruct (generar_dataset_closed n g)
    as (i1 & i2 & i3 & i4 & i5 & r & d & [g7 Ed] & F & Lr & E).
  assert (Ld : length d = n).
  { rewrite Forall_forall in F. apply F. cbn. tauto. }
  do 2 eexists. split; [exact E|]. split; [reflexivity|]. split; [reflexivity|].
  cbn [Pd.values]. split; [now rewrite length_map|]. split.
  - apply Forall_map. subst d.
    apply (draws_Forall (fun x => exists day, Pd.Date (App.fecha_base + x) = Pd.Date day /\
                                   (App.fecha_base <= day <= App.fecha_base + 899)%Z)).
    intros g'. eexists. split; [reflexivity|].
    specialize (Hr 0%Z 900%Z g' ltac:(lia)). lia.
  - split; vm_compute; reflexivity.
Qed.

Lemma generar_dataset_dates_witness :
  exists df s,
    fst (App.generar_dataset (R := Lcg.random) (M := Lcg.math) 3 42%Z) = inr df /\
    Pd.column df "fecha_partido" = Some s /\
    Pd.dtype s = Pd.datetime64 /\
    length (Pd.values s) = 3%nat /\
    Forall (fun c => exists day, c = Pd.Date day /\
                       (App.fecha_base <= day <= App.fecha_base + 899)%Z)
           (Pd.values s) /\
    Calendar.iso App.fecha_base = "2023-01-01"%string /\
    Calendar.iso (App.fecha_base + 899) = "2025-06-18"%string.
Proof.
  apply (generar_dataset_dates (R := Lcg.random) (M := Lcg.math) 3 42%Z).
  intros lo hi g0 H. cbn. pose proof (Z.mod_pos_bound (Lcg.next g0 / 65536) (hi - lo)).
  lia.
Defined.

Lemma distinct_NoDup (l : list string) : distinct l = true -> NoDup l.
Proof.
  induction l as [|x l IH]; cbn; intros H; constructor;
    apply andb_prop in H as [H1 H2]; [|now apply IH].
  intros HIn. apply mem_In in HIn. now rewrite HIn in H1.
Qed.

(** X6.  The catalogue of the sidebar tells the truth about the table.  Its
    sixteen keys are distinct; the labels it maps them to are, in its
    order, exactly the labels of the generated table, all distinct; and
    the keys tagged "(num)" are exactly those of the columns that
    [select_dtypes(include=[np.number])] returns, the keys tagged "(cat)"
    or "(fecha)" those of the columns it excludes. *)
Theorem catalogo_matches_table {R : NpRandom} {M : NpMath} (n : nat) (g : rstate) :
  exists df,
    fst (App.generar_dataset n g) = inr df /\
    NoDup (map fst App.columnas_catalogo) /\
    Pd.names df = map snd App.columnas_catalogo /\
    NoDup (Pd.names df) /\
    Pd.select_number df =
      map snd (filter (fun kv => ends_with "(num)" (fst kv)) App.columnas_catalogo) /\
    Pd.select_not_number df =
      map snd (filter (fun kv => ends_with "(cat)" (fst kv) || ends_with "(fecha)" (fst kv))
                 App.columnas_catalogo).
Proof.
  destruct (generar_dataset_closed n g)
    as (i1 & i2 & i3 & i4 & i5 & r & d & _ & _ & _ & E).
  eexists. split; [exact E|].
  split; [apply distinct_NoDup; vm_compute; reflexivity|].
  split; [reflexivity|].
  split; [apply distinct_NoDup; vm_compute; reflexivity|].
  split; reflexivity.
Qed.

Lemma clipped_is_whole (lo : Q) (hi : option Q) (a : Np.ndarray) :
  clipped 0 lo hi a -> Forall (fun x => inject_Z (Np.astype_int x) = x) a.
Proof.
  intros [raw ->]. unfold Np.lift1. rewrite map_map. apply Forall_map.
  apply Forall_forall. intros x _. cbn [Np.round]. now rewrite astype_int_inject_Z.
Qed.

(** X7.  The casts to int lose nothing.  Each of edad, minutos_jugados,
    puntos, asistencias and rebotes is an int64 column holding
    [astype(int)] of its signal, and every value of the signal is already
    a whole number, being the result of [round(0)]: the cast, which
    truncates, changes no value. *)
Theorem integer_columns_are_exact {R : NpRandom} {M : NpMath} (n : nat) (g : rstate) :
  let s := fst (App.senales n g) in
  exists df,
    fst (App.generar_dataset n g) = inr df /\
    Forall (fun ns =>
              Pd.column df (fst ns) =
                Some (Pd.mkSeries Pd.int64
                        (map (fun x => Pd.Int (Np.astype_int x)) (snd ns))) /\
              Forall (fun x => inject_Z (Np.astype_int x) = x) (snd ns))
      [ ("edad", App.edad s); ("minutos_jugados", App.minutos s);
        ("puntos", App.puntos s); ("asistencias", App.asistencias s);
        ("rebotes", App.rebotes s) ]%string.
Proof.
  intros s.
  destruct (generar_dataset_closed n g)
    as (i1 & i2 & i3 & i4 & i5 & r & d & _ & _ & _ & E).
  destruct (senales_clipped n g) as (C1 & _ & _ & C4 & C5 & C6 & C7 & _).
  fold s in E, C1, C4, C5, C6, C7.
  eexists. split; [exact E|].
  repeat apply Forall_cons; try apply Forall_nil; cbn [fst snd];
    (split; [reflexivity|]); eapply clipped_is_whole; eassumption.
Qed.

(* --------------------------------------------------------------------- *)
(** ** Numeric and categorical columns under missing values *)

Lemma is_number_hold_na (d : Pd.Dtype) :
  Pd.is_number (Pd.hold_na d) = Pd.is_number d.
Proof. now destruct d. Qed.

Lemma mask_series_is_number (s : Pd.Series) (m : list bool) :
  Pd.is_number (Pd.dtype (Pd.mask_series s m)) = Pd.is_number (Pd.dtype s).
Proof.
  unfold Pd.mask_series. destruct (existsb _ m); [|reflexivity].
  apply is_number_hold_na.
Qed.

Lemma mask_columns_kinds (keep : bool) (cols : list (string * Pd.Series))
    (cond : list (list bool)) (j : nat) :
  map fst (filter (fun c => Bool.eqb (Pd.is_number (Pd.dtype (snd c))) keep)
             (Pd.mask_columns cols cond j)) =
  map fst (filter (fun c => Bool.eqb (Pd.is_number (Pd.dtype (snd c))) keep) cols).
Proof.
  revert j. induction cols as [|[k s] cols IH]; intros j; [reflexivity|].
  cbn [Pd.mask_columns filter snd]. rewrite mask_series_is_number.
  destruct (Bool.eqb _ keep); cbn [map fst]; now rewrite IH.
Qed.

Lemma select_as_kind (df : Pd.DataFrame) :
  Pd.select_number df =
    map fst (filter (fun c => Bool.eqb (Pd.is_number (Pd.dtype (snd c))) true)
               (Pd.columns df)) /\
  Pd.select_not_number df =
    map fst (filter (fun c => Bool.eqb (Pd.is_number (Pd.dtype (snd c))) false)
               (Pd.columns df)).
Proof.
  unfold Pd.select_number, Pd.select_not_number. split; f_equal; apply filter_ext;
    intros c; now destruct (Pd.is_number _).
Qed.

(** Every column is in exactly one of the two lists. *)
Lemma kinds_partition (cols : list (string * Pd.Series)) :
  (length (filter (fun c => Pd.is_number (Pd.dtype (snd c))) cols) +
   length (filter (fun c => negb (Pd.is_number (Pd.dtype (snd c)))) cols) =
   length cols)%nat.
Proof.
  induction cols as [|c cols IH]; [reflexivity|]. cbn [filter].
  destruct (Pd.is_number _); cbn [negb length]; lia.
Qed.

(** X8.  Missing values never move a column between the two lists.  The
    injection step of the two scripts returns a table whose numeric
    columns, as [select_dtypes(include=[np.number])] lists them, and whose
    other columns, as [exclude=] lists them, are those of the table it was
    given, in the same order, although an int64 column with a masked cell
    becomes float64 and a bool column becomes object; and each column of
    the result is in exactly one of the two lists. *)
Theorem inyectar_na_keeps_kinds {R : NpRandom} (pct : Z) (df : Pd.DataFrame) (g : rstate) :
  exists df' g',
    Comun.inyectar_na pct df g = ([], inr df', g') /\
    Pd.select_number df' = Pd.select_number df /\
    Pd.select_not_number df' = Pd.select_not_number df /\
    (length (Pd.select_number df') + length (Pd.select_not_number df')
     = length (Pd.columns df'))%nat.
Proof.
  destruct (inyectar_na_returns pct df g) as (df' & g' & E & Hle & Hlt).
  exists df', g'. split; [exact E|].
  assert (K : Pd.select_number df' = Pd.select_number df /\
              Pd.select_not_number df' = Pd.select_not_number df).
  { destruct (Z_lt_dec 0 pct) as [P|P].
    - pose proof (Hlt P) as Mk. unfold Pd.mask in Mk.
      destruct (Pd.same_shape df _); [|discriminate]. injection Mk as <-.
      destruct (select_as_kind df) as [-> ->].
      destruct (select_as_kind (Pd.mkDF (Pd.index df)
                  (Pd.mask_columns (Pd.columns df) (mascara pct df g) 0))) as [-> ->].
      cbn [Pd.columns]. split; apply mask_columns_kinds.
    - rewrite (Hle ltac:(lia)). split; reflexivity. }
  destruct K as [K1 K2]. split; [exact K1|]. split; [exact K2|].
  unfold Pd.select_number, Pd.select_not_number. rewrite !length_map.
  apply kinds_partition.
Qed.

(* --------------------------------------------------------------------- *)
(** ** App2.py: sampling rows *)

Lemma nth_set_nth (i j v : nat) (x : list nat) :
  (i < length x)%nat ->
  nth j (set_nth i v x) O = if (j =? i)%nat then v else nth j x O.
Proof.
  revert i j. induction x as [|a x IH]; intros [|i] [|j] H; cbn in *; try lia;
    try reflexivity.
  apply IH. lia.
Qed.

(** Writing [v] over position [i] trades the old value for [v]. *)
Lemma set_nth_trade (i v : nat) (x : list nat) :
  (i < length x)%nat ->
  Permutation (nth i x O :: set_nth i v x) (v :: x).
Proof.
  revert i. induction x as [|a x IH]; intros [|i] H; cbn in *; try lia.
  - apply perm_swap.
  - etransitivity; [apply perm_swap|]. etransitivity; [|apply perm_swap].
    apply perm_skip. apply IH. lia.
Qed.

Lemma swap_permutes (x : list nat) (i j : nat) :
  (i < length x)%nat -> (j < length x)%nat -> Permutation (swap x i j) x.
Proof.
  intros Hi Hj. unfold swap.
  apply Permutation_cons_inv with (a := nth j x O).
  etransitivity.
  - assert (E : nth j x O = nth j (set_nth i (nth j x O) x) O).
    { rewrite nth_set_nth by exact Hi. now destruct (j =? i)%nat. }
    rewrite E at 1. apply set_nth_trade. now rewrite set_nth_length.
  - now apply set_nth_trade.
Qed.

Lemma shuffle_from_permutes {R : NpRandom} (i : nat) (x : list nat) (g : rstate) :
  (i <= length x - 1)%nat -> Permutation (fst (shuffle_from i x g)) x.
Proof.
  revert x g. induction i as [|i IH]; intros x g H; [reflexivity|].
  cbn [shuffle_from]. unfold bind.
  destruct (randint1 0 (Z.of_nat (S (S i))) g) as [j g1].
  assert (Hj : (Z.to_nat j mod S (S i) < S (S i))%nat)
    by (apply Nat.mod_upper_bound; discriminate).
  etransitivity.
  - apply IH. rewrite swap_length. lia.
  - apply swap_permutes; lia.
Qed.

(** [RandomState.permutation(n)] is a permutation of [0 .. n-1]. *)
Lemma permutation_permutes {R : NpRandom} (n : nat) (g : rstate) :
  Permutation (fst (permutation n g)) (seq 0 n).
Proof.
  unfold permutation. apply shuffle_from_permutes. rewrite length_seq. lia.
Qed.

Lemma NoDup_firstn_of {A} (n : nat) (l : list A) : NoDup l -> NoDup (firstn n l).
Proof.
  intros H. rewrite <- (firstn_skipn n l) in H. now apply NoDup_app_remove_r in H.
Qed.

Lemma In_firstn_of {A} (n : nat) (l : list A) (x : A) : In x (firstn n l) -> In x l.
Proof.
  intros H. rewrite <- (firstn_skipn n l). apply in_or_app. now left.
Qed.

Lemma take_rows_of (df : Pd.DataFrame) (ps : list nat) :
  Pd.wf df -> Forall (fun p => (p < Pd.len df)%nat) ps ->
  rows_of df (Pd.take df ps) ps.
Proof.
  intros W F. unfold rows_of, Pd.take, Pd.take_list, Pd.names.
  cbn [Pd.index Pd.columns]. split; [reflexivity|].
  split; [rewrite map_map; reflexivity|].
  split; [rewrite map_map; reflexivity|].
  intros k j Hk. unfold Pd.iat. cbn [Pd.columns]. rewrite nth_error_map.
  destruct (nth_error (Pd.columns df) j) as [[name s]|] eqn:Hj; [|reflexivity].
  cbn [option_map fst snd Pd.values].
  rewrite nth_error_map. rewrite (nth_error_nth' ps O Hk). cbn [option_map].
  symmetry. apply nth_error_nth'.
  unfold Pd.wf in W. rewrite Forall_forall in W, F.
  pose proof (W _ (nth_error_In _ _ Hj)) as Wc. cbn [snd] in Wc.
  rewrite Wc. apply F. now apply nth_In.
Qed.

Lemma map_nth_seq {A} (l : list A) (d : A) :
  map (fun p => nth p l d) (seq 0 (length l)) = l.
Proof.
  apply nth_ext with (d := d) (d' := d); [now rewrite length_map, length_seq|].
  intros k Hk. rewrite length_map, length_seq in Hk.
  rewrite (nth_indep _ d (nth 0 l d)) by now rewrite length_map, length_seq.
  rewrite (map_nth (fun p => nth p l d) (seq 0 (length l)) 0%nat k).
  now rewrite seq_nth.
Qed.

(** X9.  A sample is made of rows of the file, each taken once.  Whenever
    line 74 of App2.py returns, on a well-formed table, the sampled table
    is the rows of the file at some positions [ps]: as many positions as
    the sample has rows, each a row position of the file, no position
    twice; the sample has the column labels and dtypes of the file, the
    row labels of the rows taken, and row [k] of the sample holds, column
    by column, the cells of the row taken. *)
Theorem muestrear_takes_distinct_rows {R : NpRandom}
    (df_all df_sampled : Pd.DataFrame) (tam : nat) (semilla : Z) :
  Pd.wf df_all ->
  App2.muestrear df_all tam semilla = inr df_sampled ->
  exists ps,
    length ps = Pd.len df_sampled /\
    NoDup ps /\
    Forall (fun p => (p < Pd.len df_all)%nat) ps /\
    rows_of df_all df_sampled ps.
Proof.
  intros W. unfold App2.muestrear.
  destruct (tam <? Pd.len df_all)%nat eqn:L.
  - unfold sample. destruct (negb _); [discriminate|].
    destruct (Pd.len df_all <? tam)%nat; [discriminate|].
    intros E. injection E as <-.
    set (perm := fst (permutation (Pd.len df_all) (seed_state semilla))).
    pose proof (permutation_permutes (Pd.len df_all) (seed_state semilla)) as P.
    fold perm in P.
    assert (F : Forall (fun p => (p < Pd.len df_all)%nat) (firstn tam perm)).
    { apply Forall_forall. intros p Hp. apply In_firstn_of in Hp.
      apply (Permutation_in _ P) in Hp. apply in_seq in Hp. lia. }
    exists (firstn tam perm). split; [now rewrite take_len|].
    split.
    + apply NoDup_firstn_of. apply (Permutation_NoDup (Permutation_sym P)).
      apply seq_NoDup.
    + split; [exact F|]. now apply take_rows_of.
  - intros E. injection E as <-. unfold Pd.copy.
    exists (seq 0 (Pd.len df_all)). split; [apply length_seq|].
    split; [apply seq_NoDup|]. split.
    + apply Forall_forall. intros p Hp. apply in_seq in Hp. lia.
    + unfold rows_of. split; [unfold Pd.len; now rewrite map_nth_seq|].
      split; [reflexivity|]. split; [reflexivity|].
      intros k j Hk. rewrite length_seq in Hk. now rewrite seq_nth.
Qed.

Lemma muestrear_takes_distinct_rows_witness :
  exists ps,
    length ps = 10%nat /\
    NoDup ps /\
    Forall (fun p => (p < 20)%nat) ps /\
    rows_of Ejemplo.tabla_codigos_leida
      (Pd.take Ejemplo.tabla_codigos_leida
         (firstn 10 (fst (permutation (R := Lcg.random) 20 123%Z)))) ps.
Proof.
  assert (W : Pd.wf Ejemplo.tabla_codigos_leida) by (unfold Pd.wf; repeat constructor).
  exact (muestrear_takes_distinct_rows (R := Lcg.random)
           Ejemplo.tabla_codigos_leida
           (Pd.take Ejemplo.tabla_codigos_leida
              (firstn 10 (fst (permutation (R := Lcg.random) 20 123%Z))))
           10 123 W eq_refl).
Defined.

(* --------------------------------------------------------------------- *)
(** ** App2.py: from the upload to the page *)







(* --------------------------------------------------------------------- *)
(** ** App2.py and the global generator *)

Lemma stateless_sret {R : NpRandom} {A} (x : A) : stateless (sret x).
Proof. do 2 eexists. apply renders_sret. Qed.

Lemma stateless_emit {R : NpRandom} (e : St.element) : stateless (emit e).
Proof. do 2 eexists. apply renders_emit. Qed.

Lemma stateless_stop {R : NpRandom} {A} : stateless (st_stop (A := A)).
Proof. do 2 eexists. apply renders_stop. Qed.

Lemma stateless_call {R : NpRandom} {A} (r : result A) : stateless (call r).
Proof. do 2 eexists. apply renders_call. Qed.

Lemma stateless_no_table {R : NpRandom} (c : Script unit) :
  adds_no_table c -> stateless c.
Proof. intros [out [H _]]. now exists out, (inr tt). Qed.

Lemma stateless_bind {R : NpRandom} {A B} (c : Script A) (k : A -> Script B) :
  stateless c -> (forall x, stateless (k x)) -> stateless (sbind c k).
Proof.
  intros [out [[e|x] H1]] H2.
  - exists out, (inl e). now apply renders_bind_ends.
  - destruct (H2 x) as [out2 [r H3]]. exists (out ++ out2), r.
    now apply renders_bind with x.
Qed.

Ltac stateless_steps :=
  repeat first
    [ apply stateless_sret
    | apply stateless_emit
    | apply stateless_stop
    | apply stateless_call
    | apply stateless_no_table; first [apply tab_resumen2_no_table | apply tab_graficas2_no_table]
    | apply stateless_bind; [|intros ?]
    | match goal with
      | |- stateless (if ?b then _ else _) => destruct b
      | |- stateless (match ?x with _ => _ end) => destruct x
      end
    | progress cbv zeta ].

(** X12.  With no missing values to inject, App2.py never touches the global
    generator.  For a percentage of 0 the page and the way the run ends
    are the same from every state of the generator, and the run leaves
    the state as it found it: sampling draws from a generator of its own,
    seeded by the sampling seed. *)
Theorem script2_leaves_generator_alone {R : NpRandom} {T : PandasText}
    (inp : App2.Inputs) :
  (App2.pct_na inp <= 0)%Z ->
  exists out r,
    (forall g, App2.script inp g = (out, r, g)) /\
    (forall g g', run (App2.script inp) g = run (App2.script inp) g').
Proof.
  intros P.
  assert (S : stateless (App2.script inp)).
  { unfold App2.script, App2.tras_leer, App2.tab_datos, Comun.inyectar_na.
    assert (B : (0 <? App2.pct_na inp)%Z = false) by (apply Z.ltb_ge; lia).
    rewrite B. stateless_steps. }
  destruct S as (out & r & H). exists out, r. split; [exact H|].
  intros g g'. unfold run. now rewrite !H.
Qed.

Lemma script2_leaves_generator_alone_witness :
  exists out r,
    (forall g, App2.script (R := Lcg.random) (T := Csv.pandas_text)
                 (Ejemplo.entradas_codigos ["id"%string] 0) g = (out, r, g)) /\
    (forall g g',
       run (R := Lcg.random)
           (App2.script (T := Csv.pandas_text) (Ejemplo.entradas_codigos ["id"%string] 0)) g =
       run (R := Lcg.random)
           (App2.script (T := Csv.pandas_text) (Ejemplo.entradas_codigos ["id"%string] 0)) g').
Proof.
  apply (script2_leaves_generator_alone (R := Lcg.random) (T := Csv.pandas_text)
           (Ejemplo.entradas_codigos ["id"%string] 0)).
  cbn. lia.
Defined.

(* --------------------------------------------------------------------- *)
(** ** App2.py: date detection on repeated labels, and done twice *)

Lemma occurs_in_labels (k : string) (cols : list (string * Pd.Series)) :
  (1 <= occurrences k cols)%nat -> In k (map fst cols).
Proof.
  unfold occurrences. induction cols as [|[a s] cols IH]; cbn; [lia|].
  destruct (String.eqb_spec a k) as [->|Ne]; [now left|]. intros H. right. now apply IH.
Qed.

(** The loop over labels of the table that meets a label carried by two
    columns raises the [AttributeError] of [df2[col].dtype]. *)
Lemma parsear_columnas_attribute_error {T : PandasText} (dayfirst : bool)
    (cols : list string) (df2 : Pd.DataFrame) :
  Forall (fun c => In c (Pd.names df2)) cols ->
  (exists k, In k cols /\ (2 <= occurrences k (Pd.columns df2))%nat) ->
  App2.parsear_columnas dayfirst cols df2 =
  inl (AttributeError "'DataFrame' object has no attribute 'dtype'").
Proof.
  revert df2. induction cols as [|col rest IH]; intros df2 F [k [HIn Hk]];
    [destruct HIn|].
  inversion_clear F as [|? ? Hcol Frest].
  cbn [App2.parsear_columnas]. unfold Pd.getitem.
  pose proof (in_labels_occurs col (Pd.columns df2) Hcol) as Occ.
  unfold occurrences in Occ.
  destruct (filter (fun c => String.eqb (fst c) col) (Pd.columns df2))
    as [|[a s] [|c2 more]] eqn:Fl; [cbn in Occ; lia| |reflexivity].
  assert (One : occurrences col (Pd.columns df2) = 1%nat)
    by (unfold occurrences; now rewrite Fl).
  assert (HIn' : In k rest).
  { destruct HIn as [->|H]; [lia | exact H]. }
  assert (Go : forall df3, map fst (Pd.columns df3) = map fst (Pd.columns df2) ->
                App2.parsear_columnas dayfirst rest df3 =
                inl (AttributeError "'DataFrame' object has no attribute 'dtype'")).
  { intros df3 E. apply IH.
    - unfold Pd.names in *. now rewrite E.
    - exists k. split; [exact HIn'|]. now rewrite (occurrences_labels k _ _ E). }
  destruct (Pd.dtype s); try (apply Go; reflexivity).
  destruct (to_datetime s dayfirst) as [e|parsed]; [apply Go; reflexivity|].
  destruct (Pd.setitem df2 col parsed) as [e|df3] eqn:S; [apply Go; reflexivity|].
  apply Go. now apply setitem_labels in S.
Qed.

(** X13.  Date detection stops on a repeated label.  On a table two of whose
    columns carry the same label, [detectar_y_parsear_fechas] raises
    [AttributeError] with the text "'DataFrame' object has no attribute
    'dtype'", whatever the columns hold and whatever [pd.to_datetime]
    does: the [try] of the loop does not cover [df2[col].dtype]. *)
Theorem detectar_raises_on_repeated_label {T : PandasText}
    (df : Pd.DataFrame) (dayfirst : bool) :
  ~ NoDup (Pd.names df) ->
  App2.detectar_y_parsear_fechas df dayfirst =
  inl (AttributeError "'DataFrame' object has no attribute 'dtype'").
Proof.
  intros N. destruct (repeated_label _ N) as [k Hk].
  unfold App2.detectar_y_parsear_fechas. cbv zeta. unfold Pd.copy.
  apply parsear_columnas_attribute_error.
  - apply Forall_forall. auto.
  - exists k. exact Hk.
Qed.

Lemma detectar_raises_on_repeated_label_witness :
  App2.detectar_y_parsear_fechas (T := Csv.pandas_text)
    (Pd.mkDF [0%nat]
       [ ("a"%string, Pd.mkSeries Pd.int64 [Pd.Int 1]);
         ("b"%string, Pd.mkSeries Pd.object_ [Pd.Str "x"]);
         ("a"%string, Pd.mkSeries Pd.int64 [Pd.Int 2]) ]) true =
  inl (AttributeError "'DataFrame' object has no attribute 'dtype'").
Proof.
  apply (detectar_raises_on_repeated_label (T := Csv.pandas_text)).
  intros ND. cbn in ND. inversion ND as [|x l HIn _]. apply HIn. cbn. tauto.
Defined.

Lemma parsed_column_twice {T : PandasText} (dayfirst : bool) (n : nat) c :
  (forall s s2, to_datetime s dayfirst = inr s2 -> Pd.dtype s2 <> Pd.object_) ->
  parsed_column dayfirst n (parsed_column dayfirst n c) = parsed_column dayfirst n c.
Proof.
  intros H.
  assert (Same : parsed_column dayfirst n c = c ->
                 parsed_column dayfirst n (parsed_column dayfirst n c) =
                 parsed_column dayfirst n c) by (intros E; now rewrite !E).
  destruct (Pd.dtype (snd c)) eqn:D;
    try (apply Same; unfold parsed_column; now rewrite D).
  destruct (to_datetime (snd c) dayfirst) as [e|parsed] eqn:P.
  - apply Same. unfold parsed_column. now rewrite D, P.
  - destruct (length (Pd.values parsed) =? n)%nat eqn:Ln.
    + assert (E : parsed_column dayfirst n c = (fst c, parsed))
        by (unfold parsed_column; now rewrite D, P, Ln).
      rewrite E. unfold parsed_column. cbn [snd fst].
      pose proof (H _ _ P) as Hd. destruct (Pd.dtype parsed); congruence.
    + apply Same. unfold parsed_column. now rewrite D, P, Ln.
Qed.

(** X14.  Detecting dates a second time changes nothing.  When [pd.to_datetime]
    never returns an object column, the table [detectar_y_parsear_fechas]
    returns is returned as it is by a second call: no column is parsed
    twice and a column that failed to parse fails again. *)
Theorem detectar_twice {T : PandasText} (df df2 : Pd.DataFrame) (dayfirst : bool) :
  (forall s s2, to_datetime s dayfirst = inr s2 -> Pd.dtype s2 <> Pd.object_) ->
  App2.detectar_y_parsear_fechas df dayfirst = inr df2 ->
  App2.detectar_y_parsear_fechas df2 dayfirst = inr df2.
Proof.
  intros H E.
  assert (ND : NoDup (Pd.names df)).
  { apply (detectar_returns_iff_distinct df dayfirst). now exists df2. }
  rewrite (detectar_closed df dayfirst ND) in E. injection E as <-.
  rewrite detectar_closed.
  - unfold Pd.len. cbn [Pd.index Pd.columns]. rewrite map_map. do 2 f_equal.
    apply map_ext. intros c. now apply parsed_column_twice.
  - unfold Pd.names. cbn [Pd.columns]. rewrite map_map.
    erewrite map_ext; [exact ND|]. intros c. apply parsed_column_label.
Qed.

Lemma to_datetime_dtype (s s2 : Pd.Series) (dayfirst : bool) :
  Csv.to_datetime s dayfirst = inr s2 -> Pd.dtype s2 = Pd.datetime64.
Proof.
  unfold Csv.to_datetime.
  destruct (Csv.first_present (Pd.values s)) as [[| | | |t|d]|];
    try discriminate.
  - destruct (Calendar.guess dayfirst t); [|discriminate].
    destruct (Csv.parse_dates _ _); [|discriminate]. now intros [= <-].
  - destruct (Csv.parse_dates _ _); [|discriminate]. now intros [= <-].
  - now intros [= <-].
Qed.

Lemma detectar_twice_witness :
  App2.detectar_y_parsear_fechas (T := Csv.pandas_text) Ejemplo.tabla_con_fechas true
  = inr Ejemplo.tabla_con_fechas.
Proof.
  apply (detectar_twice (T := Csv.pandas_text) Ejemplo.tabla_leida
           Ejemplo.tabla_con_fechas true).
  - intros s s2 E. apply to_datetime_dtype in E. rewrite E. discriminate.
  - vm_compute. reflexivity.
Defined.

(* --------------------------------------------------------------------- *)
(** ** Frequency tables *)

Lemma cell_eqb_refl (c : Pd.cell) : Pd.cell_eqb c c = true.
Proof.
  destruct c; cbn; auto using Z.eqb_refl, String.eqb_refl.
  - apply Qeq_bool_iff. reflexivity.
  - now destruct b.
Qed.

Lemma cell_eqb_sym (a b : Pd.cell) : Pd.cell_eqb a b = Pd.cell_eqb b a.
Proof.
  destruct a, b; cbn; auto using Z.eqb_sym, String.eqb_sym.
  - destruct (Qeq_bool q q0) eqn:E; symmetry.
    + apply Qeq_bool_iff. apply Qeq_bool_iff in E. now symmetry.
    + destruct (Qeq_bool q0 q) eqn:E'; [|reflexivity].
      apply Qeq_bool_iff in E'. symmetry in E'. apply Qeq_bool_iff in E'. congruence.
  - now destruct b0, b.
Qed.

Lemma cell_eqb_trans (a b c : Pd.cell) :
  Pd.cell_eqb a b = true -> Pd.cell_eqb b c = true -> Pd.cell_eqb a c = true.
Proof.
  destruct a, b, c; cbn; try discriminate; auto.
  - rewrite !Z.eqb_eq. congruence.
  - rewrite !Qeq_bool_iff. intros H1 H2. now rewrite H1.
  - rewrite !Bool.eqb_true_iff. congruence.
  - rewrite !String.eqb_eq. congruence.
  - rewrite !Z.eqb_eq. congruence.
Qed.

Lemma count_of_snoc (v c : Pd.cell) (l : list Pd.cell) :
  count_of v (l ++ [c]) = (count_of v l + if Pd.cell_eqb v c then 1 else 0)%nat.
Proof.
  unfold count_of. rewrite filter_app, length_app. cbn.
  now destruct (Pd.cell_eqb v c).
Qed.

Lemma count_of_none (v : Pd.cell) (l : list Pd.cell) :
  (forall x, In x l -> Pd.cell_eqb v x = false) -> count_of v l = 0%nat.
Proof.
  unfold count_of. induction l as [|x l IH]; intros H; [reflexivity|]. cbn.
  rewrite (H x) by now left. apply IH. intros y Hy. apply H. now right.
Qed.

Lemma count_in_sum (c : Pd.cell) (acc : list (Pd.cell * nat)) :
  list_sum (map snd (Pd.count_in c acc)) = S (list_sum (map snd acc)).
Proof.
  induction acc as [|[v k] acc IH]; [reflexivity|]. cbn [Pd.count_in].
  destruct (Pd.cell_eqb v c); rewrite !map_cons; cbn [snd];
    unfold list_sum in *; cbn [fold_right]; [reflexivity|]. rewrite IH. lia.
Qed.

Lemma count_in_values (P : Pd.cell -> Prop) (c : Pd.cell) (acc : list (Pd.cell * nat)) :
  Forall (fun p => P (fst p)) acc -> P c -> Forall (fun p => P (fst p)) (Pd.count_in c acc).
Proof.
  intros F Pc. induction F as [|[v k] acc Hv F IH]; cbn [Pd.count_in].
  - now repeat constructor.
  - destruct (Pd.cell_eqb v c); constructor; auto.
Qed.

Lemma count_in_distinct (c : Pd.cell) (acc : list (Pd.cell * nat)) :
  distinct_values acc -> distinct_values (Pd.count_in c acc).
Proof.
  unfold distinct_values. induction 1 as [|[v k] acc Hv D IH]; cbn [Pd.count_in].
  - repeat constructor.
  - destruct (Pd.cell_eqb v c) eqn:E; constructor; auto.
    apply (count_in_values (fun x => Pd.cell_eqb v x = false)); assumption.
Qed.

Lemma count_in_covers (c : Pd.cell) (acc : list (Pd.cell * nat)) :
  (exists p, In p (Pd.count_in c acc) /\ Pd.cell_eqb (fst p) c = true) /\
  (forall p, In p acc -> exists p', In p' (Pd.count_in c acc) /\ fst p' = fst p).
Proof.
  induction acc as [|[v k] acc [IH1 IH2]]; cbn [Pd.count_in].
  - split; [|intros p []]. exists (c, 1%nat). split; [now left | apply cell_eqb_refl].
  - destruct (Pd.cell_eqb v c) eqn:E.
    + split; [exists (v, S k); split; [now left | exact E]|].
      intros p [<-|H]; [exists (v, S k); split; [now left | reflexivity]|].
      exists p. split; [now right | reflexivity].
    + split.
      * destruct IH1 as [p [Hp Ep]]. exists p. split; [now right | exact Ep].
      * intros p [<-|H]; [exists (v, k); split; [now left | reflexivity]|].
        destruct (IH2 p H) as [p' [Hp' Ep']]. exists p'. split; [now right | exact Ep'].
Qed.

Lemma count_in_counts (c : Pd.cell) (l : list Pd.cell) (acc : list (Pd.cell * nat)) :
  Forall (fun p => snd p = count_of (fst p) l) acc ->
  distinct_values acc ->
  (Forall (fun p => Pd.cell_eqb (fst p) c = false) acc -> count_of c l = 0%nat) ->
  Forall (fun p => snd p = count_of (fst p) (l ++ [c])) (Pd.count_in c acc).
Proof.
  intros F D. unfold distinct_values in D. revert F.
  induction D as [|[v k] acc Hv D IH]; intros F H0; cbn [Pd.count_in].
  - constructor; [|constructor]. cbn [fst snd]. rewrite count_of_snoc, cell_eqb_refl.
    rewrite H0 by constructor. reflexivity.
  - inversion_clear F as [|? ? Fv Facc]. cbn [fst snd] in Fv.
    destruct (Pd.cell_eqb v c) eqn:E.
    + constructor; [cbn [fst snd]; rewrite count_of_snoc, E; lia|].
      rewrite Forall_forall in *. intros p Hp. rewrite count_of_snoc.
      assert (Ep : Pd.cell_eqb (fst p) c = false).
      { destruct (Pd.cell_eqb (fst p) c) eqn:Ep; [|reflexivity].
        specialize (Hv p Hp). cbn [fst] in Hv.
        rewrite cell_eqb_sym in Ep.
        rewrite (cell_eqb_trans v c (fst p) E Ep) in Hv. discriminate. }
      rewrite Ep, (Facc p Hp). lia.
    + constructor; [cbn [fst snd]; rewrite count_of_snoc, E; lia|].
      apply IH; [exact Facc|]. intros Fr. apply H0. constructor; assumption.
Qed.

Lemma count_in_positive (c : Pd.cell) (acc : list (Pd.cell * nat)) :
  Forall (fun p => (1 <= snd p)%nat) acc ->
  Forall (fun p => (1 <= snd p)%nat) (Pd.count_in c acc).
Proof.
  induction 1 as [|[v k] acc Hv F IH]; cbn [Pd.count_in].
  - repeat constructor.
  - destruct (Pd.cell_eqb v c); constructor; cbn in *; auto; lia.
Qed.

Lemma tallied_step (c : Pd.cell) (l : list Pd.cell) (acc : list (Pd.cell * nat)) :
  tallied l acc -> tallied (l ++ [c]) (Pd.count_in c acc).
Proof.
  intros (F & D & Cov & Sum).
  assert (F1 : Forall (fun p => snd p = count_of (fst p) l) acc)
    by (eapply Forall_impl; [|exact F]; cbn; tauto).
  assert (F2 : Forall (fun p => (1 <= snd p)%nat) acc)
    by (eapply Forall_impl; [|exact F]; cbn; tauto).
  destruct (count_in_covers c acc) as [C1 C2].
  split; [|split; [now apply count_in_distinct|split]].
  - apply Forall_forall. intros p Hp. split.
    + assert (G : Forall (fun p => snd p = count_of (fst p) (l ++ [c])) (Pd.count_in c acc)).
      { apply count_in_counts; [exact F1 | exact D|].
        intros Fr. apply count_of_none. intros x Hx.
        destruct (Pd.cell_eqb c x) eqn:E; [|reflexivity].
        destruct (Cov x Hx) as [q [Hq Eq]].
        rewrite Forall_forall in Fr. specialize (Fr q Hq).
        rewrite cell_eqb_sym in E.
        rewrite (cell_eqb_trans (fst q) x c Eq E) in Fr. discriminate. }
      rewrite Forall_forall in G. now apply G.
    + pose proof (count_in_positive c acc F2) as G.
      rewrite Forall_forall in G. now apply G.
  - intros x Hx. apply in_app_or in Hx as [Hx|[<-|[]]].
    + destruct (Cov x Hx) as [q [Hq Eq]]. destruct (C2 q Hq) as [q' [Hq' E']].
      exists q'. split; [exact Hq' | now rewrite E'].
    + exact C1.
  - rewrite count_in_sum, Sum, length_app. cbn. lia.
Qed.

Lemma tally_tallied (l l0 : list Pd.cell) (acc : list (Pd.cell * nat)) :
  tallied l0 acc -> tallied (l0 ++ l) (tally l acc).
Proof.
  revert l0 acc. induction l as [|c l IH]; intros l0 acc H; cbn.
  - now rewrite app_nil_r.
  - replace (l0 ++ c :: l) with ((l0 ++ [c]) ++ l) by now rewrite <- app_assoc.
    apply IH. now apply tallied_step.
Qed.

Lemma insert_by_count_permutes (p : Pd.cell * nat) (sorted : list (Pd.cell * nat)) :
  Permutation (Pd.insert_by_count p sorted) (p :: sorted).
Proof.
  induction sorted as [|q rest IH]; cbn; [reflexivity|].
  destruct (snd q <=? snd p)%nat; [reflexivity|].
  etransitivity; [apply perm_skip, IH | apply perm_swap].
Qed.

Lemma insert_by_count_sorted (p : Pd.cell * nat) (sorted : list (Pd.cell * nat)) :
  StronglySorted (fun a b => (snd b <= snd a)%nat) sorted ->
  StronglySorted (fun a b => (snd b <= snd a)%nat) (Pd.insert_by_count p sorted).
Proof.
  induction 1 as [|q rest S IH F]; cbn; [repeat constructor|].
  destruct (snd q <=? snd p)%nat eqn:E.
  - apply Nat.leb_le in E. constructor; [now constructor|].
    constructor; [exact E|]. eapply Forall_impl; [|exact F]. cbn. intros; lia.
  - apply Nat.leb_gt in E. constructor; [exact IH|].
    apply (Permutation_Forall (Permutation_sym (insert_by_count_permutes p rest))).
    constructor; [lia | exact F].
Qed.

Lemma sort_by_count (acc : list (Pd.cell * nat)) :
  Permutation (fold_right Pd.insert_by_count [] acc) acc /\
  StronglySorted (fun a b => (snd b <= snd a)%nat) (fold_right Pd.insert_by_count [] acc).
Proof.
  induction acc as [|p acc [IHp IHs]]; cbn; [split; constructor|]. split.
  - etransitivity; [apply insert_by_count_permutes | now apply perm_skip].
  - now apply insert_by_count_sorted.
Qed.

Lemma counts_sum_permutes (a b : list (Pd.cell * nat)) :
  Permutation a b -> list_sum (map snd a) = list_sum (map snd b).
Proof.
  induction 1; unfold list_sum in *; cbn [map fold_right] in *; lia.
Qed.

(** X15.  The frequency tables add up.  [value_counts(dropna=False)] of a
    column lists values with their counts such that: each count is the
    number of cells of the column holding that value, missing counted as
    a value of its own, and is at least 1; every cell of the column is
    counted under some listed value; the counts add up to the number of
    cells; and the list goes from the most frequent value to the least. *)
Theorem value_counts_add_up (s : Pd.Series) :
  let vc := Pd.value_counts s in
  Forall (fun p => snd p = count_of (fst p) (Pd.values s) /\ (1 <= snd p)%nat) vc /\
  (forall x, In x (Pd.values s) -> exists p, In p vc /\ Pd.cell_eqb (fst p) x = true) /\
  list_sum (map snd vc) = length (Pd.values s) /\
  StronglySorted (fun a b => (snd b <= snd a)%nat) vc.
Proof.
  cbv zeta. unfold Pd.value_counts.
  assert (T0 : tallied [] []).
  { split; [constructor|]. split; [constructor|]. split; [intros x []|reflexivity]. }
  pose proof (tally_tallied (Pd.values s) [] [] T0) as (F & _ & Cov & Sum).
  cbn [app] in F, Cov, Sum. unfold tally in *.
  destruct (sort_by_count (fold_left (fun acc c => Pd.count_in c acc) (Pd.values s) []))
    as [P S].
  split; [now apply (Permutation_Forall (Permutation_sym P))|].
  split.
  - intros x Hx. destruct (Cov x Hx) as [p [Hp Ep]]. exists p.
    split; [|exact Ep]. now apply (Permutation_in _ (Permutation_sym P)).
  - split; [|exact S].
    rewrite <- Sum. now apply counts_sum_permutes.
Qed.

(* --------------------------------------------------------------------- *)
(** ** Everything on the page comes from the table shown *)

Lemma adds_only_sret {R : NpRandom} (P : St.element -> Prop) : adds_only P (sret tt).
Proof. exists []. split; [apply renders_sret | constructor]. Qed.

Lemma adds_only_emit {R : NpRandom} (P : St.element -> Prop) (e : St.element) :
  P e -> adds_only P (emit e).
Proof. intros H. exists [e]. split; [apply renders_emit | now repeat constructor]. Qed.

Lemma adds_only_bind {R : NpRandom} (P : St.element -> Prop)
    (c : Script unit) (k : unit -> Script unit) :
  adds_only P c -> (forall x, adds_only P (k x)) -> adds_only P (sbind c k).
Proof.
  intros [out [H1 P1]] H2. destruct (H2 tt) as [out2 [H3 P2]].
  exists (out ++ out2). split.
  - now apply renders_bind with tt.
  - apply Forall_app. now split.
Qed.

Ltac chart_fact :=
  cbn [drawn_from];
  repeat match goal with |- _ /\ _ => split end;
  try reflexivity; try discriminate; try assumption; try (symmetry; assumption);
  try (intros [K|K]; discriminate K);
  try (intros _;
       repeat match goal with
              | H : (_ && _)%bool = true |- _ => apply andb_prop in H; destruct H
              | H : (_ <=? _)%nat = true |- _ => apply Nat.leb_le in H
              end;
       repeat match goal with
              | H : Pd.select_number _ = _ |- _ => rewrite H
              end;
       assumption).

Ltac only_from :=
  repeat first
    [ apply adds_only_sret
    | apply adds_only_emit; chart_fact
    | apply adds_only_bind; [|intros _]
    | match goal with
      | |- adds_only _ (if ?b then _ else _) => destruct b eqn:?
      | |- adds_only _ (match ?x with _ => _ end) => destruct x eqn:?
      end
    | progress cbv zeta ].

Lemma tablas_de_frecuencia_from {R : NpRandom} {T : PandasText}
    (df : Pd.DataFrame) (cols : list string) :
  incl cols (Pd.select_not_number df) ->
  adds_only (drawn_from df) (Comun.tablas_de_frecuencia df cols).
Proof.
  induction cols as [|c cols IH]; intros I; cbn [Comun.tablas_de_frecuencia].
  - apply adds_only_sret.
  - apply adds_only_bind; [now apply adds_only_emit | intros _].
    apply adds_only_bind; [|intros _].
    + apply adds_only_emit. cbn. split; [apply I; now left | reflexivity].
    + apply IH. intros x Hx. apply I. now right.
Qed.

Lemma tab_resumen_from {R : NpRandom} {T : PandasText} (inp : App.Inputs) (df : Pd.DataFrame) :
  adds_only (drawn_from df)
    (App.tab_resumen inp df (Pd.select_number df) (Pd.select_not_number df)).
Proof.
  unfold App.tab_resumen.
  generalize (tablas_de_frecuencia_from df (Pd.select_not_number df) (incl_refl _)).
  generalize (Comun.tablas_de_frecuencia df (Pd.select_not_number df)).
  intros freq Fq. only_from; exact Fq.
Qed.

Lemma tab_graficas_from {R : NpRandom} {T : PandasText} (inp : App.Inputs) (df : Pd.DataFrame) :
  adds_only (drawn_from df)
    (App.tab_graficas inp df (Pd.select_number df) (Pd.select_not_number df)).
Proof. unfold App.tab_graficas. only_from. Qed.



Lemma page_from_table {R : NpRandom} {T : PandasText} (inp : App.Inputs) (df : Pd.DataFrame) :
  adds_only (drawn_from df)
    (sbind (App.tab_datos df) (fun _ =>
     sbind (App.tab_resumen inp df (Pd.select_number df) (Pd.select_not_number df))
       (fun _ =>
     sbind (App.tab_graficas inp df (Pd.select_number df) (Pd.select_not_number df))
       (fun _ => emit (St.markdown "Cómo usar"))))).
Proof.
  apply adds_only_bind; [unfold App.tab_datos; only_from | intros _].
  apply adds_only_bind; [apply tab_resumen_from | intros _].
  apply adds_only_bind; [apply tab_graficas_from | intros _].
  now apply adds_only_emit.
Qed.


Lemma generar_con_semilla_renders_nothing {R : NpRandom} {M : NpMath}
    (s : Z) (n : nat) (g : rstate) :
  fst (fst (App.generar_con_semilla s n g)) = [].
Proof.
  unfold App.generar_con_semilla, sbind, random, call, raise, sret.
  destruct (np_random_seed s g) as [[e|[]] g1]; [reflexivity|].
  destruct (App.generar_dataset n g1) as [[e|df] g2]; reflexivity.
Qed.

Lemma shown_table_is (df df' : Pd.DataFrame) {T : PandasText}
    (head out : list St.element) :
  no_data head = true ->
  Forall (drawn_from df') out ->
  In (St.dataframe df) (head ++ out) ->
  Forall (drawn_from df) (head ++ out).
Proof.
  unfold no_data. intros Hh Fo HIn. apply in_app_or in HIn as [HIn|HIn].
  - rewrite forallb_forall in Hh. specialize (Hh _ HIn). discriminate.
  - assert (E : df = df').
    { rewrite Forall_forall in Fo. exact (Fo _ HIn). }
    subst df'. apply Forall_app. split; [|exact Fo].
    apply Forall_forall. intros e He. rewrite forallb_forall in Hh.
    specialize (Hh e He). now destruct e.
Qed.

Ltac run_ends E :=
  match goal with
  | |- context [run (sbind ?c ?k) ?g] => rewrite (run_bind_inl c k g _ _ _ E)
  end.

Ltac run_stop :=
  match goal with
  | |- context [run (sbind (sbind (emit ?w) (fun _ => st_stop)) ?k) ?g] =>
      rewrite (run_bind_inl (sbind (emit w) (fun _ => st_stop)) k g g [w] St.Stopped eq_refl)
  end.

Ltac no_table_shown :=
  let H := fresh in
  cbn [fst snd app]; intros; match goal with K : In (St.dataframe _) _ |- _ => rename K into H end;
  exfalso; unfold cabecera, cabecera2 in H; cbn [app] in H;
  repeat (destruct H as [H|H]; [discriminate H|]); exact H.

(** X16.  One table feeds the whole page of App.py.  In every run, whatever
    the widgets and the state of the generator: if the page shows a table,
    then the run reached its last line, the download is the CSV text of
    that table, the description is of its numeric columns, each frequency
    table counts one of its categorical columns, every chart is drawn over
    it, and the correlation matrix and the scatter plot appear only when
    it has two numeric columns or more. *)
Theorem script_page_from_one_table {R : NpRandom} {M : NpMath} {T : PandasText}
    (inp : App.Inputs) (g : rstate) (df : Pd.DataFrame) :
  In (St.dataframe df) (fst (run (App.script inp) g)) ->
  Forall (drawn_from df) (fst (run (App.script inp) g)) /\
  snd (run (App.script inp) g) = St.Completed /\
  App.seleccion_columnas inp <> [] /\
  (0 <= App.seed inp < 2 ^ 32)%Z.
Proof.
  destruct (App.seleccion_columnas inp) as [|k0 ks] eqn:Sel.
  { intros HIn. exfalso.
    destruct (script_without_columns_any_seed inp g Sel) as [Nd _].
    unfold no_data in Nd. rewrite forallb_forall in Nd.
    specialize (Nd _ HIn). discriminate. }
  destruct (Z_le_dec 0 (App.seed inp)) as [Lo|Lo];
    [destruct (Z_lt_dec (App.seed inp) (2 ^ 32)) as [Hi|Hi]|];
    try (rewrite script_seed_refused by lia; no_table_shown).
  rewrite <- Sel.
  assert (NE : App.seleccion_columnas inp <> []) by (rewrite Sel; discriminate).
  clear Sel. revert NE.
  unfold App.script. do 2 run_emit.
  pose proof (generar_con_semilla_renders_nothing (App.seed inp) (App.n_filas inp) g) as Go.
  destruct (App.generar_con_semilla (App.seed inp) (App.n_filas inp) g)
    as [[o [e|df_full]] g1] eqn:G; cbn [fst] in Go; subst o.
  { run_ends G. no_table_shown. }
  run_with G.
  destruct (length (App.seleccion_columnas inp) =? 0)%nat.
  { run_stop. no_table_shown. }
  run_sret.
  destruct (App.dict_get_all App.columnas_catalogo (App.seleccion_columnas inp))
    as [e|cols]; cbn [call]; [run_raise; no_table_shown | run_sret].
  destruct (Pd.getitem_columns df_full cols)
    as [e|picked]; cbn [call]; [run_raise; no_table_shown | run_sret].
  unfold Pd.copy.
  destruct (inyectar_na_returns (App.pct_na inp) picked g1) as (df' & g2 & Ei & _ & _).
  run_with Ei. cbv zeta.
  destruct (page_from_table inp df') as (out & Ho & Fo).
  rewrite (run_renders _ out g2 Ho). cbn [fst snd app].
  intros NE HIn. split; [|split; [reflexivity|split; [exact NE|lia]]].
  apply (shown_table_is df df'
           [St.title "🏈 EDA con Datos Sintéticos de Deportes";
            St.caption "Genera un conjunto de datos deportivo simulado y realiza un análisis exploratorio interactivo."]
           out eq_refl Fo HIn).
Qed.

Lemma script_page_from_one_table_witness :
  let page := run (R := Lcg.random)
                (App.script (M := Lcg.math) (T := Csv.pandas_text)
                   (Ejemplo.entradas ["edad (num)"; "deporte (cat)"]%string 5)) 0%Z in
  let df := nth 0 (Ejemplo.tablas (fst page)) (Pd.mkDF [] []) in
  Forall (drawn_from (T := Csv.pandas_text) df) (fst page) /\
  snd page = St.Completed /\
  ["edad (num)"; "deporte (cat)"]%string <> [] /\
  (0 <= 42 < 2 ^ 32)%Z.
Proof.
  intros page df.
  apply (script_page_from_one_table (R := Lcg.random) (M := Lcg.math) (T := Csv.pandas_text)
           (Ejemplo.entradas ["edad (num)"; "deporte (cat)"]%string 5) 0%Z df).
  vm_compute. do 3 right. left. reflexivity.
Defined.



(* --------------------------------------------------------------------- *)
(** ** App2.py: the missing-value tokens handed to the reader *)

Lemma split_commas_nonempty (t : string) : App2.split_commas t <> [].
Proof.
  destruct t as [|c rest]; cbn; [discriminate|].
  destruct (Ascii.eqb c ","); [discriminate|].
  destruct (App2.split_commas rest); discriminate.
Qed.

Lemma concat_cons_char (c : ascii) (w : string) (ws : list string) :
  String.concat "," (String c w :: ws) = String c (String.concat "," (w :: ws)).
Proof. destruct ws; reflexivity. Qed.

Lemma split_commas_joins (t : string) : String.concat "," (App2.split_commas t) = t.
Proof.
  induction t as [|c rest IH]; [reflexivity|]. cbn [App2.split_commas].
  destruct (Ascii.eqb_spec c ","%char) as [->|Ne].
  - pose proof (split_commas_nonempty rest) as NE.
    destruct (App2.split_commas rest) as [|w ws]; [congruence|].
    change (String.concat "," (EmptyString :: w :: ws))
      with (EmptyString ++ "," ++ String.concat "," (w :: ws))%string.
    now rewrite IH.
  - pose proof (split_commas_nonempty rest) as NE.
    destruct (App2.split_commas rest) as [|w ws]; [congruence|].
    rewrite concat_cons_char. now rewrite IH.
Qed.

Lemma split_commas_no_comma (t : string) :
  Forall (fun w => occurs "," w = false) (App2.split_commas t).
Proof.
  induction t as [|c rest IH]; [repeat constructor|]. cbn [App2.split_commas].
  destruct (Ascii.eqb c ","%char) eqn:E; [constructor; [reflexivity | exact IH]|].
  destruct (App2.split_commas rest) as [|w ws]; [repeat constructor; cbn; now rewrite E|].
  inversion_clear IH as [|? ? Hw Hws]. constructor; [|exact Hws].
  cbn. now rewrite E.
Qed.

(** X18.  The missing-value tokens are the non-empty pieces between commas.
    Line 52 of App2.py cuts the text of the widget at its commas: the
    pieces joined again with commas give the text back, so nothing is lost
    or invented; and the tokens handed to [pd.read_csv] are those pieces
    that are not empty, in order, none of them empty and none holding a
    comma. *)
Theorem opciones_na_values (inp : App2.Inputs) :
  String.concat "," (App2.split_commas (App2.na_values_text inp)) = App2.na_values_text inp /\
  opt_na_values (App2.opciones inp) =
    filter (fun w => negb (String.eqb w "")) (App2.split_commas (App2.na_values_text inp)) /\
  Forall (fun w => w <> EmptyString /\ occurs "," w = false)
         (opt_na_values (App2.opciones inp)).
Proof.
  split; [apply split_commas_joins|]. split; [reflexivity|].
  unfold App2.opciones. cbn [opt_na_values].
  apply Forall_forall. intros w Hw. apply filter_In in Hw as [Hw Ne].
  split.
  - intros ->. discriminate.
  - pose proof (split_commas_no_comma (App2.na_values_text inp)) as F.
    rewrite Forall_forall in F. now apply F.
Qed.
